(** * Raspberry Pi Claude installer: the provisioning workflow and its contract

    A shallow embedding of the two installer scripts of the repository,
    [run.py] (module [Run]) and [setup_raspberry_pi.py] (module [SetupPi]),
    followed by the properties of the sequential provisioning workflow:
    fail-stop execution of required steps, the usage fallback of the entry
    point, the disk-space gate of the preflight, detect-before-install,
    preservation of the environment file, the secret prompt, and the
    version gating of the Node.js installer.

    The scripts are straight-line Python driving the operating system, so
    the embedding is a state-and-exception monad over an explicit host:
    - the host ([Host]) holds what the scripts read and write: the
      effective uid, the machine name, the environment, the commands
      resolvable on PATH, the file tree, the lines waiting on stdin and the
      figures of [statvfs];
    - a shell command is opaque to the scripts: its exit status, its output
      and everything it does to the host are given by a shell oracle
      ([Shell]), over which every theorem quantifies;
    - everything the script itself does is recorded, in order, in an event
      log ([Event]): lines printed, commands handed to the shell, files
      written or appended, directories made, modes changed;
    - [sys.exit] and uncaught Python exceptions end a computation
      ([Exit], [Raise]); [try]/[except] is [catch]. *)

From Stdlib Require Import ZArith Ascii.
From stdpp Require Import base option list strings gmap pretty.

Local Open Scope Z_scope.

(** ** Python strings

    A Python [str] is held as the bytes of its UTF-8 encoding.  The scripts
    compare against and search for ASCII strings only, which can be done on
    the bytes; the operations that work on characters ([strip], [split],
    [int], slicing) cut the bytes into characters first. *)
Module Py.

Definition empty : string := EmptyString.

(** The double quote, the newline, the escape (octal 033) and the backslash
    as one-character strings, and the NUL character. *)
Definition dq : string := String "034"%char EmptyString.
Definition nl : string := String "010"%char EmptyString.
Definition esc : string := String "027"%char EmptyString.
Definition backslash : string := String "092"%char EmptyString.
Definition nul : ascii := "000"%char.

(** [bool(s)]: a string is truthy when it is not empty. *)
Definition truthy (s : string) : bool :=
  match s with EmptyString => false | String _ _ => true end.

(** *** Characters

    A [str] is held as its UTF-8 encoding, so a character is one to four
    bytes.  [chars] cuts a string into characters: each byte that is not a
    continuation byte starts one, and the continuation bytes that follow
    belong to it. *)
Definition is_cont (b : ascii) : bool :=
  let n := N_of_ascii b in ((128 <=? n) && (n <? 192))%N.

Definition starts_cont (c : string) : bool :=
  match c with String b _ => is_cont b | EmptyString => false end.

Fixpoint chars (s : string) : list string :=
  match s with
  | EmptyString => []
  | String b s' =>
      match chars s' with
      | c :: cs =>
          if starts_cont c then String b c :: cs else String b EmptyString :: c :: cs
      | [] => [String b EmptyString]
      end
  end.

(** The strings of a list, one after the other. *)
Definition join (cs : list string) : string := foldr String.app EmptyString cs.

(** [ord(c)]: the code point a character encodes; [None] for bytes that
    encode none. *)
Definition ord (c : string) : option N :=
  let tail (b : ascii) : N := (N_of_ascii b - 128)%N in
  match c with
  | String a EmptyString =>
      if (N_of_ascii a <? 128)%N then Some (N_of_ascii a) else None
  | String a (String b EmptyString) =>
      let n := ((N_of_ascii a - 192) * 64 + tail b)%N in
      if ((192 <=? N_of_ascii a) && (N_of_ascii a <? 224) && is_cont b && (128 <=? n))%N
      then Some n else None
  | String a (String b (String c EmptyString)) =>
      let n := ((N_of_ascii a - 224) * 4096 + tail b * 64 + tail c)%N in
      if ((224 <=? N_of_ascii a) && (N_of_ascii a <? 240) && is_cont b && is_cont c
          && (2048 <=? n) && negb ((55296 <=? n) && (n <? 57344)))%N
      then Some n else None
  | String a (String b (String c (String d EmptyString))) =>
      let n := ((N_of_ascii a - 240) * 262144 + tail b * 4096 + tail c * 64 + tail d)%N in
      if ((240 <=? N_of_ascii a) && (N_of_ascii a <? 248) && is_cont b && is_cont c && is_cont d
          && (65536 <=? n) && (n <? 1114112))%N
      then Some n else None
  | _ => None
  end.

(** The bytes are the encoding of a text: what the decoder of a file or of
    the output of a command accepts. *)
Definition is_text (s : string) : bool :=
  forallb (fun c => bool_decide (is_Some (ord c))) (chars s).

(** [str.isspace] on one character, by code point: the white space
    [strip] and [split] work with. *)
Definition space_point (n : N) : bool :=
  ((9 <=? n) && (n <=? 13) || (28 <=? n) && (n <=? 32)
   || (n =? 133) || (n =? 160) || (n =? 5760)
   || (8192 <=? n) && (n <=? 8202)
   || (n =? 8232) || (n =? 8233) || (n =? 8239) || (n =? 8287) || (n =? 12288))%N.

Definition isspace (c : string) : bool :=
  match ord c with Some n => space_point n | None => false end.

Fixpoint lstrip_list (cs : list string) : list string :=
  match cs with
  | c :: cs' => if isspace c then lstrip_list cs' else cs
  | [] => []
  end.

Fixpoint rstrip_list (cs : list string) : list string :=
  match cs with
  | [] => []
  | c :: cs' =>
      match rstrip_list cs' with
      | [] => if isspace c then [] else [c]
      | r => c :: r
      end
  end.

(** [s.strip()] *)
Definition strip (s : string) : string := join (rstrip_list (lstrip_list (chars s))).

(** [s.lstrip(c)] for a one-character argument below 128. *)
Fixpoint lstrip_char (c : ascii) (s : string) : string :=
  match s with
  | String d s' => if Ascii.eqb d c then lstrip_char c s' else s
  | EmptyString => EmptyString
  end.

(** [s.split(c)[0]] for a one-character separator below 128: the text
    before the first separator, or the whole string. [split] never returns
    an empty list, so the index cannot fail. *)
Fixpoint split_head (c : ascii) (s : string) : string :=
  match s with
  | String d s' => if Ascii.eqb d c then EmptyString else String d (split_head c s')
  | EmptyString => EmptyString
  end.

(** [s.split()]: the maximal runs of characters that are not white space. *)
Fixpoint split_ws_go (cur : option string) (cs : list string) : list string :=
  match cs with
  | [] => option_list cur
  | c :: cs' =>
      if isspace c
      then option_list cur ++ split_ws_go None cs'
      else split_ws_go (Some (default EmptyString cur +:+ c)) cs'
  end.

Definition split_ws (s : string) : list string := split_ws_go None (chars s).

(** [s.startswith(p)] *)
Definition startswith (p s : string) : bool := String.prefix p s.

(** [needle in s] *)
Fixpoint contains (needle s : string) : bool :=
  String.prefix needle s ||
  match s with
  | EmptyString => false
  | String _ s' => contains needle s'
  end.

(** [s.replace(c, empty)]: every occurrence of the character [c] removed. *)
Fixpoint remove_char (c : ascii) (s : string) : string :=
  match s with
  | EmptyString => EmptyString
  | String d s' =>
      if Ascii.eqb d c then remove_char c s' else String d (remove_char c s')
  end.

Definition lower_char (c : ascii) : ascii :=
  let n := nat_of_ascii c in
  if ((65 <=? n)%nat && (n <=? 90)%nat) then ascii_of_nat (n + 32) else c.

(** [s.lower()] *)
Fixpoint lower (s : string) : string :=
  match s with
  | EmptyString => EmptyString
  | String c s' => String (lower_char c) (lower s')
  end.

(** [s[-n:]] for a positive [n]: the last [n] characters, the whole string
    when it has fewer. *)
Definition last_chars (n : nat) (s : string) : string :=
  let cs := chars s in join (drop (length cs - n) cs).

(** *** [int]

    [int(s)] first turns the text into ASCII: a character below 128 stays
    as it is, white space above becomes a blank, a decimal digit of any
    script becomes the ASCII digit of its value, and any other character is
    an error.  [zeros] are the code points of the digits zero of Unicode
    14.0, each followed by its nine successors. *)
Definition zeros : list N :=
  [48; 1632; 1776; 1984; 2406; 2534; 2662; 2790; 2918; 3046; 3174; 3302;
   3430; 3558; 3664; 3792; 3872; 4160; 4240; 6112; 6160; 6470; 6608; 6784;
   6800; 6992; 7088; 7232; 7248; 42528; 43216; 43264; 43472; 43504; 43600;
   44016; 65296; 66720; 68912; 69734; 69872; 69942; 70096; 70384; 70736;
   70864; 71248; 71360; 71472; 71904; 72016; 72784; 73040; 73120; 92768;
   92864; 93008; 120782; 120792; 120802; 120812; 120822; 123200; 123632;
   125264; 130032]%N.

(** The value of a decimal digit, by code point. *)
Definition decimal (n : N) : option N :=
  (fun z => (n - z)%N) <$> List.find (fun z => (z <=? n) && (n <? z + 10))%N zeros.

Definition to_ascii (c : string) : option ascii :=
  n ← ord c;
  if (n <? 128)%N then Some (ascii_of_N n)
  else if space_point n then Some " "%char
  else d ← decimal n; Some (ascii_of_N (48 + d)).

Fixpoint to_ascii_list (cs : list string) : option string :=
  match cs with
  | [] => Some EmptyString
  | c :: cs' => a ← to_ascii c; r ← to_ascii_list cs'; Some (String a r)
  end.

(** The white space the parser of numbers skips at both ends: TAB, LF, VT,
    FF, CR and the blank. *)
Definition c_isspace (c : ascii) : bool :=
  let n := N_of_ascii c in ((9 <=? n) && (n <=? 13) || (n =? 32))%N.

Fixpoint c_lstrip (s : string) : string :=
  match s with
  | String c s' => if c_isspace c then c_lstrip s' else s
  | EmptyString => EmptyString
  end.

(** [c_rstrip_aux s] is [None] when [s] is all white space. *)
Fixpoint c_rstrip_aux (s : string) : option string :=
  match s with
  | EmptyString => None
  | String c s' =>
      match c_rstrip_aux s' with
      | Some r => Some (String c r)
      | None => if c_isspace c then None else Some (String c EmptyString)
      end
  end.

Definition c_strip (s : string) : string := default EmptyString (c_rstrip_aux (c_lstrip s)).

Definition digit (c : ascii) : option Z :=
  let n := nat_of_ascii c in
  if ((48 <=? n)%nat && (n <=? 57)%nat) then Some (Z.of_nat n - 48) else None.

(** The interpreter refuses a literal of more than [max_str_digits]
    digits; 4300 is the limit it starts with. *)
Definition max_str_digits : nat := 4300.

(** Decimal digits with single underscores between them; [count] is the
    number of digits read so far and [prev] tells whether the previous
    character was a digit. *)
Fixpoint digits (acc : Z) (count : nat) (prev : bool) (s : string) : option Z :=
  match s with
  | EmptyString => if prev && (count <=? max_str_digits)%nat then Some acc else None
  | String c s' =>
      match digit c with
      | Some d => digits (10 * acc + d) (S count) true s'
      | None =>
          if Ascii.eqb c "_"%char
          then (if prev then digits acc count false s' else None)
          else None
      end
  end.

(** [int(s)]: [None] stands for [ValueError]. *)
Definition int (s : string) : option Z :=
  t ← to_ascii_list (chars s);
  match c_strip t with
  | String "+"%char r => digits 0 0 false r
  | String "-"%char r => Z.opp <$> digits 0 0 false r
  | r => digits 0 0 false r
  end.

(** Iterating over a text file: the lines, each with its newline.  A line
    ends at LF, at CR LF or at a lone CR, and the interpreter hands each of
    them over as LF. *)
Fixpoint lines_go (cur : string) (s : string) : list string :=
  match s with
  | EmptyString =>
      match cur with EmptyString => [] | _ => [String.rev cur] end
  | String c s' =>
      if Ascii.eqb c "010"%char
      then String.rev (String c cur) :: lines_go EmptyString s'
      else if Ascii.eqb c "013"%char
           then String.rev (String "010"%char cur)
                  :: match s' with
                     | String "010"%char s'' => lines_go EmptyString s''
                     | _ => lines_go EmptyString s'
                     end
           else lines_go (String c cur) s'
  end.

Definition lines (s : string) : list string := lines_go EmptyString s.

Definition endswith_slash (s : string) : bool :=
  match String.rev s with
  | String "/"%char _ => true
  | _ => false
  end.

(** [os.path.join(a, b)] for a second component that is relative, which
    is the only way the scripts call it. *)
Definition path_join (a b : string) : string :=
  if negb (truthy a) || endswith_slash a then a +:+ b else a +:+ "/" +:+ b.

(** An integer inside an f-string: its decimal notation. *)
Definition str_of_int (n : Z) : string := pretty n.

(** [s * n] *)
Fixpoint repeat (s : string) (n : nat) : string :=
  match n with
  | O => EmptyString
  | S n' => s +:+ repeat s n'
  end.

End Py.

(** ** The host, the shell oracle and the event log *)

(** The exceptions the scripts can meet.  All of them are subclasses of
    [Exception]; [SystemExit] is not one of them and is the [Exit] outcome
    below. *)
Inductive exn : Type :=
| FileNotFoundError
| IsADirectoryError
| FileExistsError
| ValueError
| IndexError
| UnboundLocalError
| EOFError
| CalledProcessError (returncode : Z) (stdout : string).

(** A node of the file tree: a regular file with its content, or a
    directory. *)
Inductive Node : Type :=
| File (content : string)
| Dir.

Record Host : Type := mkHost {
  euid : Z;                         (* os.geteuid() *)
  machine : string;                 (* os.uname().machine *)
  environ : gmap string string;     (* os.environ *)
  path_cmds : gset string;          (* the commands shutil.which resolves *)
  expanduser : string -> string;    (* os.path.expanduser *)
  stdin : list string;              (* the lines input() will read *)
  fs : gmap string Node;            (* the file tree, by path *)
  modes : gmap string Z;            (* permission bits set by os.chmod *)
  f_bavail : Z;                     (* os.statvfs: free blocks of the root *)
  f_frsize : Z                      (* os.statvfs: fragment size of the root *)
}.

(** What one shell command does: its exit status, what it writes to stdout
    alone, what it writes to stdout with stderr redirected into it, and the
    host it leaves behind. *)
Record ShResult : Type := mkSh {
  sh_rc : Z;
  sh_stdout : string;
  sh_merged : string;
  sh_host : Host
}.

Definition Shell : Type := string -> Host -> ShResult.

(** What the script itself does, in order. *)
Inductive Event : Type :=
| EvPrint (text : string)              (* print(text) *)
| EvPrompt (text : string)             (* the prompt of input(text) *)
| EvShell (cmd : string)               (* subprocess.run(cmd, shell=True) *)
| EvWrite (path content : string)      (* open(path, w) and the writes *)
| EvAppend (path content : string)     (* open(path, a) and the writes *)
| EvMakedirs (path : string)           (* os.makedirs(path, exist_ok=True) *)
| EvChmod (path : string) (mode : Z)   (* os.chmod(path, mode) *)
| EvSetenv (key value : string).       (* os.environ[key] = value *)

Record State : Type := mkState {
  host : Host;
  log : list Event
}.

(** How a computation ends: with a value, by [sys.exit(code)], or by an
    exception nobody caught. *)
Inductive Outcome (A : Type) : Type :=
| Ret (a : A)
| Exit (code : Z)
| Raise (e : exn).

Arguments Ret {A} a.
Arguments Exit {A} code.
Arguments Raise {A} e.

(** The exit status of the Python process: 0 when the script runs to its
    end, the argument of [sys.exit], 1 after an uncaught exception. *)
Definition exit_status {A : Type} (o : Outcome A) : Z :=
  match o with
  | Ret _ => 0
  | Exit code => code
  | Raise _ => 1
  end.

Definition M (A : Type) : Type := State -> Outcome A * State.

Definition ret {A : Type} (a : A) : M A := fun st => (Ret a, st).

Definition bind {A B : Type} (m : M A) (k : A -> M B) : M B :=
  fun st =>
    match m st with
    | (Ret a, st') => k a st'
    | (Exit code, st') => (Exit code, st')
    | (Raise e, st') => (Raise e, st')
    end.

Declare Scope py_scope.
Delimit Scope py_scope with py.
Notation "x <- m ;; k" := (bind m (fun x => k))
  (at level 100, m at next level, right associativity) : py_scope.
Notation "m ;; k" := (bind m (fun _ => k))
  (at level 100, right associativity) : py_scope.
Local Open Scope py_scope.

(** [sys.exit(code)] *)
Definition sys_exit {A : Type} (code : Z) : M A := fun st => (Exit code, st).

Definition raise {A : Type} (e : exn) : M A := fun st => (Raise e, st).

(** [try: m except ...]: [handler e] is the body of the clause that catches
    [e], or [None] when no clause does.  The handler runs in the state the
    exception was raised in; [sys.exit] passes through. *)
Definition catch {A : Type} (m : M A) (handler : exn -> option (M A)) : M A :=
  fun st =>
    match m st with
    | (Raise e, st') =>
        match handler e with
        | Some h => h st'
        | None => (Raise e, st')
        end
    | r => r
    end.

(** A statement guarded by an [if] without [else]. *)
Definition when (b : bool) (m : M unit) : M unit := if b then m else ret tt.

Definition emit (e : Event) : M unit :=
  fun st => (Ret tt, {| host := host st; log := log st ++ [e] |}).

Definition get_host : M Host := fun st => (Ret (host st), st).

Definition set_host (h : Host) : M unit :=
  fun st => (Ret tt, {| host := h; log := log st |}).

Definition print (text : string) : M unit := emit (EvPrint text).

(** [shutil.which(cmd) is not None] *)
Definition which (cmd : string) : M bool :=
  h <- get_host ;; ret (bool_decide (cmd ∈ path_cmds h)).

(** [os.environ.get(key, dflt)] *)
Definition environ_get (key dflt : string) : M string :=
  h <- get_host ;; ret (default dflt (environ h !! key)).

Definition with_environ (env : gmap string string) (h : Host) : Host :=
  mkHost (euid h) (machine h) env (path_cmds h) (expanduser h) (stdin h)
         (fs h) (modes h) (f_bavail h) (f_frsize h).

Definition with_stdin (l : list string) (h : Host) : Host :=
  mkHost (euid h) (machine h) (environ h) (path_cmds h) (expanduser h) l
         (fs h) (modes h) (f_bavail h) (f_frsize h).

Definition with_fs (t : gmap string Node) (h : Host) : Host :=
  mkHost (euid h) (machine h) (environ h) (path_cmds h) (expanduser h) (stdin h)
         t (modes h) (f_bavail h) (f_frsize h).

Definition with_modes (m : gmap string Z) (h : Host) : Host :=
  mkHost (euid h) (machine h) (environ h) (path_cmds h) (expanduser h) (stdin h)
         (fs h) m (f_bavail h) (f_frsize h).

(** What [os.environ] refuses with [ValueError]: an empty name, a name
    with an equals sign, and a NUL in the name or in the value. *)
Definition putenv_refuses (key value : string) : bool :=
  negb (Py.truthy key)
  || Py.contains "=" key
  || Py.contains (String Py.nul EmptyString) key
  || Py.contains (String Py.nul EmptyString) value.

(** [os.environ[key] = value] *)
Definition environ_set (key value : string) : M unit :=
  if putenv_refuses key value
  then raise ValueError
  else
    h <- get_host ;;
    set_host (with_environ (<[key := value]> (environ h)) h) ;;
    emit (EvSetenv key value).

(** [os.path.exists(path)] *)
Definition path_exists (path : string) : M bool :=
  h <- get_host ;; ret (bool_decide (is_Some (fs h !! path))).

(** [open(path).read()]; the content of a file is its text as Python
    reads it.  The tree is flat: a path is looked up as it is written, and
    the tree is taken to be that of a real file system, where what lies
    above an entry is a directory. *)
Definition read_file (path : string) : M string :=
  h <- get_host ;;
  match fs h !! path with
  | Some (File c) => ret c
  | Some Dir => raise IsADirectoryError
  | None => raise FileNotFoundError
  end.

(** [with open(path, w) as f: f.write(...)], [content] being everything
    written before the file is closed.  Opening truncates or creates the
    file.  The directory the file lies in is taken to exist, as it does
    below a folder made with [os.makedirs]; a theorem about a write
    elsewhere has the directory in a hypothesis.  Permissions are not
    modelled: the scripts run as root. *)
Definition write_file (path content : string) : M unit :=
  h <- get_host ;;
  match fs h !! path with
  | Some Dir => raise IsADirectoryError
  | _ =>
      set_host (with_fs (<[path := File content]> (fs h)) h) ;;
      emit (EvWrite path content)
  end.

(** [with open(path, a) as f: f.write(content)].  The directory the file
    lies in is taken to exist, as for [write_file]. *)
Definition append_file (path content : string) : M unit :=
  h <- get_host ;;
  match fs h !! path with
  | Some Dir => raise IsADirectoryError
  | Some (File old) =>
      set_host (with_fs (<[path := File (old +:+ content)]> (fs h)) h) ;;
      emit (EvAppend path content)
  | None =>
      set_host (with_fs (<[path := File content]> (fs h)) h) ;;
      emit (EvAppend path content)
  end.

(** [os.makedirs(path, exist_ok=True)].  Of the directories the call makes
    only [path] itself is entered in the tree: the theorems say nothing of
    the paths above it.  A regular file above [path], on which the call
    raises [NotADirectoryError], is not looked for: [way_clear] rules it
    out where a theorem depends on it. *)
Definition makedirs (path : string) : M unit :=
  h <- get_host ;;
  match fs h !! path with
  | Some (File _) => raise FileExistsError
  | _ =>
      set_host (with_fs (<[path := Dir]> (fs h)) h) ;;
      emit (EvMakedirs path)
  end.

(** [os.chmod(path, mode)] *)
Definition chmod (path : string) (mode : Z) : M unit :=
  h <- get_host ;;
  match fs h !! path with
  | None => raise FileNotFoundError
  | Some _ =>
      set_host (with_modes (<[path := mode]> (modes h)) h) ;;
      emit (EvChmod path mode)
  end.

(** [input(prompt)]: the prompt is written, one line is taken from stdin
    and returned without its newline; at end of input [EOFError]. *)
Definition input (prompt : string) : M string :=
  emit (EvPrompt prompt) ;;
  h <- get_host ;;
  match stdin h with
  | [] => raise EOFError
  | l :: rest => set_host (with_stdin rest h) ;; ret l
  end.

(** The result of [subprocess.run]. *)
Record CompletedProcess : Type := mkCompleted {
  cp_returncode : Z;
  cp_stdout : string
}.

Section Subprocess.

Variable sh : Shell.

(** [subprocess.run(cmd, shell=True, check=check, text=True, ...)].
    [merged] tells how the output is captured: [true] for
    [stdout=PIPE, stderr=STDOUT], [false] for [capture_output=True], where
    stdout is captured apart from stderr.  With [check], a non-zero exit
    status raises [CalledProcessError] carrying the captured output.  The
    output is the text the decoder made of it: output that does not decode,
    on which [subprocess.run] raises [UnicodeDecodeError], is not modelled,
    and a theorem that says that a step returns assumes [decodable]. *)
Definition subprocess_run (cmd : string) (check merged : bool) : M CompletedProcess :=
  fun st =>
    let r := sh cmd (host st) in
    let st' := {| host := sh_host r; log := log st ++ [EvShell cmd] |} in
    let captured := if merged then sh_merged r else sh_stdout r in
    if check && negb (sh_rc r =? 0)
    then (Raise (CalledProcessError (sh_rc r) captured), st')
    else (Ret (mkCompleted (sh_rc r) captured), st').

End Subprocess.

(** The major version both scripts read off the output of the version
    query of node: [int(out.strip().lstrip(v).split(dot)[0])], [None] when
    [int] raises [ValueError]. *)
Definition parse_major (out : string) : option Z :=
  Py.int (Py.split_head "."%char (Py.lstrip_char "v"%char (Py.strip out))).

(** ** run.py *)
Module Run.

(** *** Colours *)
Definition G : string := Py.esc +:+ "[92m".
Definition Y : string := Py.esc +:+ "[93m".
Definition R : string := Py.esc +:+ "[91m".
Definition C : string := Py.esc +:+ "[96m".
Definition B : string := Py.esc +:+ "[1m".
Definition X : string := Py.esc +:+ "[0m".

(** *** The fixed texts the script writes and prints *)

(** The placeholder secret and the name of the credential variable. *)
Definition placeholder : string := "your-api-key-here".
Definition key_name : string := "ANTHROPIC_API_KEY".

(** The two lines written to a fresh environment file. *)
Definition default_env : string :=
  "# Paste your Anthropic API key below" +:+ Py.nl +:+
  "ANTHROPIC_API_KEY=your-api-key-here" +:+ Py.nl.

(** What [ask_key] writes to the environment file and appends to the
    shell profile. *)
Definition env_line (key : string) : string :=
  "ANTHROPIC_API_KEY=" +:+ key +:+ Py.nl.

Definition export_lines (key : string) : string :=
  Py.nl +:+ "# Anthropic API Key" +:+ Py.nl +:+
  "export ANTHROPIC_API_KEY=" +:+ Py.dq +:+ key +:+ Py.dq +:+ Py.nl.

Definition compose_yml : string :=
  "version: " +:+ Py.dq +:+ "3.9" +:+ Py.dq +:+ Py.nl +:+
  Py.nl +:+
  "services:" +:+ Py.nl +:+
  "  claude:" +:+ Py.nl +:+
  "    image: node:20-slim" +:+ Py.nl +:+
  "    container_name: claude-code" +:+ Py.nl +:+
  "    stdin_open: true" +:+ Py.nl +:+
  "    tty: true" +:+ Py.nl +:+
  "    restart: unless-stopped" +:+ Py.nl +:+
  "    working_dir: /workspace" +:+ Py.nl +:+
  "    environment:" +:+ Py.nl +:+
  "      - ANTHROPIC_API_KEY=${ANTHROPIC_API_KEY}" +:+ Py.nl +:+
  "    volumes:" +:+ Py.nl +:+
  "      - ./workspace:/workspace" +:+ Py.nl +:+
  "      - claude-config:/root/.claude" +:+ Py.nl +:+
  "      - npm-cache:/root/.npm" +:+ Py.nl +:+
  "    entrypoint: [" +:+ Py.dq +:+ "/bin/sh" +:+ Py.dq +:+ ", " +:+ Py.dq +:+ "-c" +:+ Py.dq +:+ "]" +:+ Py.nl +:+
  "    command:" +:+ Py.nl +:+
  "      - |" +:+ Py.nl +:+
  "        echo " +:+ Py.dq +:+ "Installing Claude Code …" +:+ Py.dq +:+ Py.nl +:+
  "        npm install -g @anthropic-ai/claude-code --loglevel=warn" +:+ Py.nl +:+
  "        echo " +:+ Py.dq +:+ "Launching …" +:+ Py.dq +:+ Py.nl +:+
  "        exec claude" +:+ Py.nl +:+
  Py.nl +:+
  "volumes:" +:+ Py.nl +:+
  "  claude-config:" +:+ Py.nl +:+
  "  npm-cache:" +:+ Py.nl.

Definition launcher_sh : string :=
  "#!/usr/bin/env bash" +:+ Py.nl +:+
  "set -e" +:+ Py.nl +:+
  "DIR=" +:+ Py.dq +:+ "$(cd " +:+ Py.dq +:+ "$(dirname " +:+ Py.dq +:+ "$0" +:+ Py.dq +:+ ")" +:+ Py.dq +:+ " && pwd)" +:+ Py.dq +:+ Py.nl +:+
  "if [ -z " +:+ Py.dq +:+ "$ANTHROPIC_API_KEY" +:+ Py.dq +:+ " ]; then" +:+ Py.nl +:+
  "  source " +:+ Py.dq +:+ "$DIR/.env" +:+ Py.dq +:+ " 2>/dev/null || true" +:+ Py.nl +:+
  "  export ANTHROPIC_API_KEY" +:+ Py.nl +:+
  "fi" +:+ Py.nl +:+
  "if [ " +:+ Py.dq +:+ "$ANTHROPIC_API_KEY" +:+ Py.dq +:+ " = " +:+ Py.dq +:+ "your-api-key-here" +:+ Py.dq +:+ " ] || [ -z " +:+ Py.dq +:+ "$ANTHROPIC_API_KEY" +:+ Py.dq +:+ " ]; then" +:+ Py.nl +:+
  "  echo " +:+ Py.dq +:+ Py.dq +:+ "; echo " +:+ Py.dq +:+ "  No API key set.  Edit $DIR/.env first." +:+ Py.dq +:+ "; echo " +:+ Py.dq +:+ Py.dq +:+ "; exit 1" +:+ Py.nl +:+
  "fi" +:+ Py.nl +:+
  "echo " +:+ Py.dq +:+ Py.dq +:+ Py.nl +:+
  "echo " +:+ Py.dq +:+ "  1) Native  (claude CLI)" +:+ Py.dq +:+ Py.nl +:+
  "echo " +:+ Py.dq +:+ "  2) Docker  (container)" +:+ Py.dq +:+ Py.nl +:+
  "echo " +:+ Py.dq +:+ Py.dq +:+ Py.nl +:+
  "read -rp " +:+ Py.dq +:+ "  Pick [1/2]: " +:+ Py.dq +:+ " choice" +:+ Py.nl +:+
  "case " +:+ Py.dq +:+ "$choice" +:+ Py.dq +:+ " in" +:+ Py.nl +:+
  "  2) cd " +:+ Py.dq +:+ "$DIR" +:+ Py.dq +:+ " && docker compose up ;;" +:+ Py.nl +:+
  "  *" +:+ ") cd " +:+ Py.dq +:+ "$DIR/workspace" +:+ Py.dq +:+ " && claude ;;" +:+ Py.nl +:+
  "esac" +:+ Py.nl.

Definition summary_text (base : string) : string :=
  Py.nl +:+
  G +:+ B +:+ Py.nl +:+
  "╔═══════════════════════════════════════════════════════╗" +:+ Py.nl +:+
  "║              SETUP COMPLETE!                          ║" +:+ Py.nl +:+
  "╚═══════════════════════════════════════════════════════╝" +:+ X +:+ Py.nl +:+
  Py.nl +:+
  "  " +:+ B +:+ "Installed:" +:+ X +:+ Py.nl +:+
  "    Docker, Docker Compose, Node.js, npm," +:+ Py.nl +:+
  "    Claude Code CLI, Anthropic Python SDK" +:+ Py.nl +:+
  Py.nl +:+
  "  " +:+ B +:+ "Your workspace:" +:+ X +:+ Py.nl +:+
  "    " +:+ base +:+ "/" +:+ Py.nl +:+
  "    ├── docker-compose.yml" +:+ Py.nl +:+
  "    ├── .env               <- API key goes here" +:+ Py.nl +:+
  "    ├── start-claude.sh    <- quick launcher" +:+ Py.nl +:+
  "    └── workspace/         <- your project files" +:+ Py.nl +:+
  Py.nl +:+
  "  " +:+ B +:+ "To launch Claude:" +:+ X +:+ Py.nl +:+
  "    cd " +:+ base +:+ Py.nl +:+
  "    ./start-claude.sh" +:+ Py.nl +:+
  Py.nl +:+
  "  " +:+ B +:+ "Or directly:" +:+ X +:+ Py.nl +:+
  "    claude                  <- native" +:+ Py.nl +:+
  "    docker compose up       <- in Docker" +:+ Py.nl +:+
  Py.nl +:+
  "  " +:+ Y +:+ "Reboot or run 'newgrp docker' for docker permissions." +:+ X +:+ Py.nl.

Definition banner_text : string :=
  Py.nl +:+
  C +:+ B +:+ Py.nl +:+
  "╔═══════════════════════════════════════════════════════╗" +:+ Py.nl +:+
  "║  Raspberry Pi  —  Claude Code  Full Auto-Installer    ║" +:+ Py.nl +:+
  "╚═══════════════════════════════════════════════════════╝" +:+ X +:+ Py.nl.

Definition usage_text : string :=
  Py.nl +:+
  B +:+ "Usage:" +:+ X +:+ Py.nl +:+
  "  sudo python3 run.py setup     Install everything" +:+ Py.nl +:+
  "  sudo python3 run.py help      Show this message" +:+ Py.nl.

(** *** The shell commands *)
Definition cmd_ping : string := "ping -c1 -W3 google.com".
Definition cmd_apt_update : string := "apt-get update -y -qq".
Definition cmd_apt_upgrade : string := "apt-get upgrade -y -qq".
Definition cmd_essentials : string :=
  "apt-get install -y -qq curl wget git ca-certificates gnupg lsb-release".
Definition cmd_docker_download : string :=
  "curl -fsSL https://get.docker.com -o /tmp/get-docker.sh".
Definition cmd_docker_install : string := "sh /tmp/get-docker.sh".
Definition cmd_docker_enable : string :=
  "systemctl enable docker && systemctl start docker".
Definition cmd_usermod (user : string) : string := "usermod -aG docker " +:+ user.
Definition cmd_compose_version : string := "docker compose version".
Definition cmd_compose_install : string := "apt-get install -y -qq docker-compose-plugin".
Definition cmd_node_version : string := "node --version".
Definition cmd_node_remove : string := "apt-get remove -y -qq nodejs".
Definition cmd_node_repo : string :=
  "curl -fsSL https://deb.nodesource.com/setup_20.x | bash -".
Definition cmd_node_install : string := "apt-get install -y -qq nodejs".
Definition cmd_claude_install : string :=
  "npm install -g @anthropic-ai/claude-code --loglevel=warn".
Definition cmd_pip : string := "apt-get install -y -qq python3-pip python3-venv".
Definition cmd_sdk (u : string) : string :=
  "sudo -u " +:+ u +:+ " pip3 install --user --break-system-packages anthropic 2>/dev/null "
  +:+ "|| sudo -u " +:+ u +:+ " pip3 install --user anthropic".
Definition cmd_chown (user group base : string) : string :=
  "chown -R " +:+ user +:+ ":" +:+ group +:+ " " +:+ base.

Section Script.

Variable sh : Shell.

(** *** Helpers *)
Definition ok (msg : string) : M unit :=
  print (G +:+ B +:+ "[OK]" +:+ X +:+ " " +:+ msg).
Definition warn (msg : string) : M unit :=
  print (Y +:+ "[!!]" +:+ X +:+ " " +:+ msg).
Definition err (msg : string) : M unit :=
  print (R +:+ "[XX]" +:+ X +:+ " " +:+ msg).
Definition info (msg : string) : M unit :=
  print (C +:+ "  -> " +:+ X +:+ msg).

(** [run(cmd, desc=None, check=True)].  With [check] false
    [subprocess.run] never raises, so the call returns [True] whatever the
    exit status of the command. *)
Definition run (cmd : string) (desc : option string) (check : bool) : M bool :=
  match desc with
  | Some d => when (Py.truthy d) (info d)
  | None => ret tt
  end ;;
  catch
    (subprocess_run sh cmd check true ;; ret true)
    (fun e =>
       match e with
       | CalledProcessError _ out =>
           Some (err ("Failed: " +:+ cmd) ;;
                 when (Py.truthy out) (print (Py.last_chars 600 out)) ;;
                 if check then sys_exit 1 else ret false)
       | _ => None
       end).

Definition has (cmd : string) : M bool := which cmd.

Definition node_major : M Z :=
  catch
    (out <- subprocess_run sh cmd_node_version false false ;;
     match parse_major (cp_stdout out) with
     | Some n => ret n
     | None => raise ValueError
     end)
    (fun _ => Some (ret 0)).

Definition real_user : M string := environ_get "SUDO_USER" "pi".

Definition real_home : M string :=
  u <- real_user ;;
  h <- get_host ;;
  ret (expanduser h ("~" +:+ u)).

(** *** Pre-flight checks *)

(** The loop over the lines of /proc/meminfo: the value bound to [ram_mb]
    at the first line that starts with MemTotal, or [None] when the loop
    ends without binding it. *)
Fixpoint meminfo_loop (ls : list string) : M (option Z) :=
  match ls with
  | [] => ret None
  | line :: rest =>
      if Py.startswith "MemTotal" line
      then match Py.split_ws line !! 1%nat with
           | None => raise IndexError
           | Some tok =>
               match Py.int tok with
               | None => raise ValueError
               | Some n => ret (Some (n `div` 1024))
               end
           end
      else meminfo_loop rest
  end.

Definition free_gb (h : Host) : Z := (f_bavail h * f_frsize h) `div` (1024 ^ 3).

Definition preflight : M unit :=
  print (Py.nl +:+ B +:+ "Pre-flight checks" +:+ X) ;;
  print (Py.repeat "-" 45) ;;
  (* root *)
  h <- get_host ;;
  (if negb (euid h =? 0)
   then err "Must be run as root.  Use:  sudo python3 run.py setup" ;; sys_exit 1
   else ret tt) ;;
  ok "Running as root" ;;
  (* architecture *)
  (let arch := machine h in
   if String.eqb arch "aarch64" then ok ("Arch: " +:+ arch +:+ " (64-bit)")
   else if String.eqb arch "armv7l"
        then warn ("Arch: " +:+ arch +:+ " (32-bit) — 64-bit Pi OS recommended")
        else ok ("Arch: " +:+ arch)) ;;
  (* Pi model *)
  catch
    (c <- read_file "/proc/device-tree/model" ;;
     ok ("Device: " +:+ Py.remove_char Py.nul (Py.strip c)))
    (fun e =>
       match e with
       | FileNotFoundError => Some (warn "Could not detect Pi model")
       | _ => None
       end) ;;
  (* RAM *)
  meminfo <- read_file "/proc/meminfo" ;;
  bound <- meminfo_loop (Py.lines meminfo) ;;
  ram_mb <- match bound with
            | Some n => ret n
            | None => raise UnboundLocalError
            end ;;
  (if ram_mb <? 2048
   then warn ("RAM: " +:+ Py.str_of_int ram_mb +:+ "MB (low — may be tight)")
   else ok ("RAM: " +:+ Py.str_of_int ram_mb +:+ "MB")) ;;
  (* Disk *)
  h <- get_host ;;
  (if free_gb h <? 4
   then err ("Disk: only " +:+ Py.str_of_int (free_gb h)
             +:+ "GB free — need at least 4GB") ;;
        sys_exit 1
   else ret tt) ;;
  ok ("Disk: " +:+ Py.str_of_int (free_gb h) +:+ "GB free") ;;
  (* Internet *)
  up <- run cmd_ping None false ;;
  (if up : bool
   then ok "Internet: connected"
   else err "No internet connection" ;; sys_exit 1) ;;
  print Py.empty.

(** *** Installers *)
Definition install_updates : M unit :=
  print (Py.nl +:+ B +:+ "[1/7] System update" +:+ X) ;;
  run cmd_apt_update (Some "apt update") true ;;
  run cmd_apt_upgrade (Some "apt upgrade") true ;;
  run cmd_essentials (Some "Installing essentials") true ;;
  ok "System up to date".

Definition install_docker : M unit :=
  print (Py.nl +:+ B +:+ "[2/7] Docker" +:+ X) ;;
  present <- has "docker" ;;
  (if present : bool
   then warn "Docker already installed"
   else run cmd_docker_download (Some "Downloading installer") true ;;
        run cmd_docker_install (Some "Installing Docker") true ;;
        ret tt) ;;
  run cmd_docker_enable (Some "Enabling service") true ;;
  u <- real_user ;;
  u' <- real_user ;;
  run (cmd_usermod u) (Some ("Adding " +:+ u' +:+ " to docker group")) true ;;
  ok "Docker ready".

Definition install_compose : M unit :=
  print (Py.nl +:+ B +:+ "[3/7] Docker Compose" +:+ X) ;;
  present <- run cmd_compose_version None false ;;
  (if present : bool
   then warn "Docker Compose already installed"
   else run cmd_compose_install (Some "Installing compose plugin") true ;; ret tt) ;;
  ok "Docker Compose ready".

Definition install_node : M unit :=
  print (Py.nl +:+ B +:+ "[4/7] Node.js & npm" +:+ X) ;;
  present <- has "node" ;;
  adequate <- (if present : bool
               then major <- node_major ;; ret (18 <=? major)
               else ret false) ;;
  (if adequate : bool
   then major <- node_major ;;
        warn ("Node v" +:+ Py.str_of_int major +:+ " already installed")
   else present' <- has "node" ;;
        when present' (run cmd_node_remove (Some "Removing old node") true ;; ret tt) ;;
        run cmd_node_repo (Some "Adding NodeSource repo") true ;;
        run cmd_node_install (Some "Installing Node 20") true ;;
        ret tt) ;;
  ok "Node & npm ready".

Definition install_claude_cli : M unit :=
  print (Py.nl +:+ B +:+ "[5/7] Claude Code CLI" +:+ X) ;;
  run cmd_claude_install (Some "Installing via npm") true ;;
  ok "Claude Code CLI installed".

Definition install_python_sdk : M unit :=
  print (Py.nl +:+ B +:+ "[6/7] Anthropic Python SDK" +:+ X) ;;
  run cmd_pip (Some "Ensuring pip") true ;;
  u <- real_user ;;
  run (cmd_sdk u) (Some "Installing SDK") false ;;
  ok "Python SDK installed".

(** *** Project files *)
Definition env_path (base : string) : string := Py.path_join base ".env".

Definition scaffold : M string :=
  print (Py.nl +:+ B +:+ "[7/7] Creating project files" +:+ X) ;;
  home <- real_home ;;
  let base := Py.path_join home "claude-workspace" in
  let ws := Py.path_join base "workspace" in
  makedirs ws ;;
  (* docker-compose.yml *)
  write_file (Py.path_join base "docker-compose.yml") compose_yml ;;
  (* .env *)
  there <- path_exists (env_path base) ;;
  fresh <- (if negb there
            then ret true
            else c <- read_file (env_path base) ;; ret (Py.contains placeholder c)) ;;
  when fresh (write_file (env_path base) default_env) ;;
  (* start-claude.sh *)
  let launcher := Py.path_join base "start-claude.sh" in
  write_file launcher launcher_sh ;;
  chmod launcher 493 ;;  (* 0o755 *)
  (* fix ownership *)
  u <- real_user ;;
  u' <- real_user ;;
  run (cmd_chown u u' base) None true ;;
  ok ("Files created at " +:+ base) ;;
  ret base.

(** *** API key prompt *)
Definition ask_key (base : string) : M unit :=
  print (Py.nl +:+ C +:+ B +:+ "-- API Key --" +:+ X) ;;
  print "  Get yours at: https://console.anthropic.com" ;;
  line <- input (Py.nl +:+ "  Paste your API key (Enter to skip): ") ;;
  let key := Py.strip line in
  if negb (Py.truthy key)
  then warn "Skipped — edit .env later before running Claude"
  else
    (* save to .env *)
    write_file (env_path base) (env_line key) ;;
    (* save to bashrc *)
    home <- real_home ;;
    let bashrc := Py.path_join home ".bashrc" in
    existing <- catch (read_file bashrc)
                      (fun e =>
                         match e with
                         | FileNotFoundError => Some (ret Py.empty)
                         | _ => None
                         end) ;;
    when (negb (Py.contains key_name existing))
         (append_file bashrc (export_lines key)) ;;
    ok "API key saved to .env and ~/.bashrc".

(** *** Final summary and entry point *)
Definition summary (base : string) : M unit := print (summary_text base).

Definition setup : M unit :=
  print banner_text ;;
  preflight ;;
  install_updates ;;
  install_docker ;;
  install_compose ;;
  install_node ;;
  install_claude_cli ;;
  install_python_sdk ;;
  base <- scaffold ;;
  ask_key base ;;
  summary base.

Definition usage : M unit := print usage_text.

(** The body of the main guard; [argv] is [sys.argv], the script name
    first.  [action argv] is the value bound to [cmd]: the first argument
    in lower case, or the empty string when there is none. *)
Definition action (argv : list string) : string :=
  match argv !! 1%nat with
  | Some a => Py.lower a
  | None => Py.empty
  end.

Definition main (argv : list string) : M unit :=
  if String.eqb (action argv) "setup" then setup else usage.

End Script.

End Run.

(** ** setup_raspberry_pi.py *)
Module SetupPi.

(** *** Colours for terminal output *)
Definition GREEN : string := Py.esc +:+ "[92m".
Definition YELLOW : string := Py.esc +:+ "[93m".
Definition RED : string := Py.esc +:+ "[91m".
Definition CYAN : string := Py.esc +:+ "[96m".
Definition BOLD : string := Py.esc +:+ "[1m".
Definition RESET : string := Py.esc +:+ "[0m".

Definition key_name : string := "ANTHROPIC_API_KEY".

(** What [configure_api_key] appends to the shell profile. *)
Definition export_lines (key : string) : string :=
  Py.nl +:+ "# Anthropic API Key" +:+ Py.nl +:+
  "export ANTHROPIC_API_KEY=" +:+ Py.dq +:+ key +:+ Py.dq +:+ Py.nl.

Definition banner_text : string :=
  Py.nl +:+
  CYAN +:+ BOLD +:+ Py.nl +:+
  " ╔══════════════════════════════════════════════════════╗" +:+ Py.nl +:+
  " ║   Raspberry Pi  –  Docker + Claude  Setup Script     ║" +:+ Py.nl +:+
  " ╚══════════════════════════════════════════════════════╝" +:+ Py.nl +:+ RESET.

Definition api_key_text : string :=
  Py.nl +:+
  CYAN +:+ BOLD +:+ "── API Key Setup ──────────────────────────────────────────" +:+ RESET +:+ Py.nl +:+
  "  To use Claude you need an Anthropic API key." +:+ Py.nl +:+
  "  Get one at: " +:+ BOLD +:+ "https://console.anthropic.com" +:+ RESET +:+ Py.nl.

Definition skip_hint : string :=
  "  echo 'export ANTHROPIC_API_KEY=" +:+ Py.dq +:+ "sk-..." +:+ Py.dq +:+ "' >> ~/.bashrc && source ~/.bashrc".

Definition summary_text (user : string) : string :=
  Py.nl +:+
  GREEN +:+ BOLD +:+ Py.nl +:+
  " ╔══════════════════════════════════════════════════════╗" +:+ Py.nl +:+
  " ║              SETUP COMPLETE!                         ║" +:+ Py.nl +:+
  " ╚══════════════════════════════════════════════════════╝" +:+ RESET +:+ Py.nl +:+
  Py.nl +:+
  "  " +:+ BOLD +:+ "Installed:" +:+ RESET +:+ Py.nl +:+
  "    • Docker           → docker --version" +:+ Py.nl +:+
  "    • Docker Compose   → docker compose version" +:+ Py.nl +:+
  "    • Node.js & npm    → node --version / npm --version" +:+ Py.nl +:+
  "    • Claude Code CLI  → claude" +:+ Py.nl +:+
  "    • Anthropic SDK    → python3 -c " +:+ Py.dq +:+ "import anthropic" +:+ Py.dq +:+ Py.nl +:+
  Py.nl +:+
  "  " +:+ BOLD +:+ "Quick Start:" +:+ RESET +:+ Py.nl +:+
  "    1. Open a new terminal (or run: " +:+ CYAN +:+ "newgrp docker" +:+ RESET +:+ ")" +:+ Py.nl +:+
  "    2. Verify Docker:   " +:+ CYAN +:+ "docker run hello-world" +:+ RESET +:+ Py.nl +:+
  "    3. Launch Claude:   " +:+ CYAN +:+ "claude" +:+ RESET +:+ Py.nl +:+
  Py.nl +:+
  "  " +:+ BOLD +:+ "Run Claude in Docker (optional):" +:+ RESET +:+ Py.nl +:+
  "    docker run -it --rm " +:+ Py.backslash +:+ Py.nl +:+
  "      -e ANTHROPIC_API_KEY=$ANTHROPIC_API_KEY " +:+ Py.backslash +:+ Py.nl +:+
  "      node:20-slim bash -c " +:+ Py.dq +:+ "npm i -g @anthropic-ai/claude-code && claude" +:+ Py.dq +:+ Py.nl +:+
  Py.nl +:+
  "  " +:+ YELLOW +:+ "NOTE: Log out & back in (or reboot) for docker group" +:+ Py.nl +:+
  "  permissions to take effect for user '" +:+ user +:+ "'." +:+ RESET +:+ Py.nl.

(** *** The shell commands *)
Definition cmd_apt_update : string := "apt-get update -y".
Definition cmd_apt_upgrade : string := "apt-get upgrade -y".
Definition cmd_essentials : string :=
  "apt-get install -y curl wget git ca-certificates gnupg lsb-release".
Definition cmd_docker_version : string := "docker --version".
Definition cmd_docker_download : string :=
  "curl -fsSL https://get.docker.com -o /tmp/get-docker.sh".
Definition cmd_docker_install : string := "sh /tmp/get-docker.sh".
Definition cmd_usermod (user : string) : string := "usermod -aG docker " +:+ user.
Definition cmd_docker_enable : string := "systemctl enable docker".
Definition cmd_docker_start : string := "systemctl start docker".
Definition cmd_compose_version : string := "docker compose version".
Definition cmd_compose_install : string := "apt-get install -y docker-compose-plugin".
Definition cmd_node_version : string := "node --version".
Definition cmd_npm_version : string := "npm --version".
Definition cmd_node_remove : string := "apt-get remove -y nodejs".
Definition cmd_node_repo : string :=
  "curl -fsSL https://deb.nodesource.com/setup_20.x | bash -".
Definition cmd_node_install : string := "apt-get install -y nodejs".
Definition cmd_claude_update : string := "npm update -g @anthropic-ai/claude-code".
Definition cmd_claude_install : string := "npm install -g @anthropic-ai/claude-code".
Definition cmd_pip : string := "apt-get install -y python3-pip python3-venv".
Definition cmd_sdk (user : string) : string :=
  "sudo -u " +:+ user +:+ " pip3 install --user --break-system-packages anthropic 2>/dev/null "
  +:+ "|| sudo -u " +:+ user +:+ " pip3 install --user anthropic".

Section Script.

Variable sh : Shell.

Definition banner : M unit := print banner_text.

Definition log_step (msg : string) : M unit :=
  print (Py.nl +:+ BOLD +:+ GREEN +:+ "[✓] " +:+ msg +:+ RESET).
Definition log_warn (msg : string) : M unit :=
  print (YELLOW +:+ "[!] " +:+ msg +:+ RESET).
Definition log_error (msg : string) : M unit :=
  print (RED +:+ "[✗] " +:+ msg +:+ RESET).
Definition log_info (msg : string) : M unit :=
  print (CYAN +:+ "    → " +:+ msg +:+ RESET).

(** [run(cmd, description=empty, check=True, shell=True)]: the failure of
    the command is reported and answered with [False]; nothing here ends
    the process. *)
Definition run (cmd description : string) (check : bool) : M bool :=
  when (Py.truthy description) (log_info description) ;;
  catch
    (result <- subprocess_run sh cmd check true ;;
     ret (cp_returncode result =? 0))
    (fun e =>
       match e with
       | CalledProcessError _ out =>
           Some (log_error ("Command failed: " +:+ cmd) ;;
                 when (Py.truthy out) (print (Py.last_chars 500 out)) ;;
                 ret false)
       | _ => None
       end).

Definition check_root : M unit :=
  h <- get_host ;;
  if negb (euid h =? 0)
  then log_error "This script must be run as root." ;;
       print "  Re-run with:  sudo python3 setup_raspberry_pi.py" ;;
       sys_exit 1
  else ret tt.

Definition get_real_user : M string := environ_get "SUDO_USER" "pi".

Definition is_installed (cmd : string) : M bool := which cmd.

(** *** Step 1: system update *)
Definition update_system : M unit :=
  log_step "STEP 1/6  –  Updating & upgrading system packages" ;;
  run cmd_apt_update "Running apt-get update …" true ;;
  run cmd_apt_upgrade "Running apt-get upgrade …" true ;;
  run cmd_essentials "Installing essential utilities …" true ;;
  ret tt.

(** *** Step 2: Docker *)
Definition install_docker : M unit :=
  log_step "STEP 2/6  –  Installing Docker" ;;
  present <- is_installed "docker" ;;
  (if present : bool
   then log_warn "Docker is already installed – skipping." ;;
        run cmd_docker_version "Current Docker version:" true ;;
        ret tt
   else log_info "Downloading Docker install script …" ;;
        run cmd_docker_download Py.empty true ;;
        run cmd_docker_install "Running official Docker installer …" true ;;
        now_present <- is_installed "docker" ;;
        if negb now_present
        then log_error "Docker installation failed. Check output above." ;;
             sys_exit 1
        else ret tt) ;;
  user <- get_real_user ;;
  run (cmd_usermod user) ("Adding '" +:+ user +:+ "' to the docker group …") true ;;
  run cmd_docker_enable "Enabling Docker on boot …" true ;;
  run cmd_docker_start "Starting Docker service …" true ;;
  log_info "Docker installed successfully." ;;
  run cmd_docker_version Py.empty true ;;
  ret tt.

(** *** Step 3: Docker Compose *)
Definition install_docker_compose : M unit :=
  log_step "STEP 3/6  –  Installing Docker Compose plugin" ;;
  legacy <- is_installed "docker-compose" ;;
  present <- (if legacy : bool
              then ret true
              else run cmd_compose_version Py.empty false) ;;
  (if present : bool
   then log_warn "Docker Compose is already available – skipping."
   else run cmd_compose_install "Installing docker-compose-plugin …" true ;; ret tt) ;;
  run cmd_compose_version "Docker Compose version:" false ;;
  ret tt.

(** *** Step 4: Node.js and npm *)
Definition install_node : M unit :=
  log_step "STEP 4/6  –  Installing Node.js & npm" ;;
  present <- is_installed "node" ;;
  needs_install <-
    (if present : bool
     then out <- subprocess_run sh cmd_node_version false false ;;
          let version_str := Py.lstrip_char "v"%char (Py.strip (cp_stdout out)) in
          catch
            (major <- match Py.int (Py.split_head "."%char version_str) with
                      | Some n => ret n
                      | None => raise ValueError
                      end ;;
             if 18 <=? major
             then log_warn ("Node.js v" +:+ version_str +:+ " already installed – skipping.") ;;
                  ret false
             else log_warn ("Node.js v" +:+ version_str +:+ " is too old (need ≥18). Upgrading …") ;;
                  run cmd_node_remove "Removing old Node.js …" true ;;
                  ret true)
            (fun e =>
               match e with
               | ValueError => Some (ret true)
               | _ => None
               end)
     else ret true) ;;
  when needs_install
       (run cmd_node_repo "Adding NodeSource repo (Node 20 LTS) …" true ;;
        run cmd_node_install "Installing Node.js …" true ;;
        ret tt) ;;
  run cmd_node_version "Node version:" true ;;
  run cmd_npm_version "npm version:" true ;;
  ret tt.

(** *** Step 5: Claude Code CLI *)
Definition install_claude_code : M unit :=
  log_step "STEP 5/6  –  Installing Claude Code CLI" ;;
  present <- is_installed "claude" ;;
  (if present : bool
   then log_warn "Claude Code CLI already installed – updating …" ;;
        run cmd_claude_update "Updating Claude Code …" true
   else run cmd_claude_install "Installing Claude Code via npm …" true) ;;
  verified <- is_installed "claude" ;;
  if verified : bool
  then log_info "Claude Code CLI is ready. Run 'claude' to start."
  else log_warn "Claude Code CLI could not be verified on PATH." ;;
       log_info "You may need to open a new terminal or run: hash -r".

(** *** Step 6: Anthropic Python SDK *)
Definition install_python_sdk : M unit :=
  log_step "STEP 6/6  –  Installing Anthropic Python SDK" ;;
  run cmd_pip "Ensuring pip & venv are available …" true ;;
  user <- get_real_user ;;
  run (cmd_sdk user) "Installing anthropic SDK for user …" false ;;
  log_info "Anthropic Python SDK installed.".

(** *** API key helper *)
Definition configure_api_key : M unit :=
  user <- get_real_user ;;
  h <- get_host ;;
  let home := expanduser h ("~" +:+ user) in
  let bashrc := Py.path_join home ".bashrc" in
  (* Check if already configured: [true] stands for the early return. *)
  configured <-
    catch
      (c <- read_file bashrc ;;
       if Py.contains key_name c
       then log_warn "ANTHROPIC_API_KEY already present in .bashrc – skipping." ;;
            ret true
       else ret false)
      (fun e =>
         match e with
         | FileNotFoundError => Some (ret false)
         | _ => None
         end) ;;
  if configured : bool
  then ret tt
  else
    print api_key_text ;;
    line <- input "  Paste your API key (or press Enter to skip): " ;;
    let key := Py.strip line in
    if Py.truthy key
    then append_file bashrc (export_lines key) ;;
         environ_set key_name key ;;
         log_info "API key saved to ~/.bashrc"
    else log_warn "Skipped. Set it later with:" ;;
         print skip_hint.

(** *** Summary and main *)
Definition print_summary : M unit :=
  user <- get_real_user ;;
  print (summary_text user).

Definition main : M unit :=
  banner ;;
  check_root ;;
  update_system ;;
  install_docker ;;
  install_docker_compose ;;
  install_node ;;
  install_claude_code ;;
  install_python_sdk ;;
  configure_api_key ;;
  print_summary.

(** The main guard calls [main()] whatever the arguments. *)
Definition entry (argv : list string) : M unit := main.

End Script.

End SetupPi.

(** ** Observing a run *)

(** A run starts from a host with an empty log. *)
Definition start (h : Host) : State := mkState h [].

(** The shell commands of a log, in the order they were run. *)
Definition shell_cmds (l : list Event) : list string :=
  omap (fun e => match e with EvShell c => Some c | _ => None end) l.

(** The texts printed, in order. *)
Definition printed (l : list Event) : list string :=
  omap (fun e => match e with EvPrint t => Some t | _ => None end) l.

(** [touches path e]: the event writes or appends to the file [path]. *)
Definition touches (path : string) (e : Event) : bool :=
  match e with
  | EvWrite p _ | EvAppend p _ => String.eqb p path
  | _ => false
  end.

(** [appends path e]: the event appends to the file [path]. *)
Definition appends (path : string) (e : Event) : bool :=
  match e with
  | EvAppend p _ => String.eqb p path
  | _ => false
  end.

(** An event that changes the machine: everything but printing. *)
Definition mutating (e : Event) : bool :=
  match e with
  | EvPrint _ | EvPrompt _ => false
  | _ => true
  end.

(** What [print(e.stdout[-n:])] under [if e.stdout] adds to the log. *)
Definition tail_events (n : nat) (out : string) : list Event :=
  if Py.truthy out then [EvPrint (Py.last_chars n out)] else [].

(** The free space of the root file system, in bytes. *)
Definition free_bytes (h : Host) : Z := f_bavail h * f_frsize h.

Definition GiB : Z := 1024 ^ 3.

(** What [run] prints before the command: the description, when there is
    one and it is not empty. *)
Definition desc_events (style : string -> string) (desc : option string) : list Event :=
  match desc with
  | Some d => if Py.truthy d then [EvPrint (style d)] else []
  | None => []
  end.

(** The lines of the four helpers of run.py and of setup_raspberry_pi.py. *)
Definition run_info_line (msg : string) : string := Run.C +:+ "  -> " +:+ Run.X +:+ msg.
Definition run_err_line (msg : string) : string := Run.R +:+ "[XX]" +:+ Run.X +:+ " " +:+ msg.
Definition run_warn_line (msg : string) : string := Run.Y +:+ "[!!]" +:+ Run.X +:+ " " +:+ msg.
Definition pi_info_line (msg : string) : string :=
  SetupPi.CYAN +:+ "    → " +:+ msg +:+ SetupPi.RESET.
Definition pi_error_line (msg : string) : string :=
  SetupPi.RED +:+ "[✗] " +:+ msg +:+ SetupPi.RESET.
Definition pi_warn_line (msg : string) : string :=
  SetupPi.YELLOW +:+ "[!] " +:+ msg +:+ SetupPi.RESET.

(** The events of one failed required step of run.py, and of one failed
    step of setup_raspberry_pi.py. *)
Definition run_failure_events (cmd : string) (desc : option string) (out : string) : list Event :=
  desc_events run_info_line desc
  ++ [EvShell cmd; EvPrint (run_err_line ("Failed: " +:+ cmd))]
  ++ tail_events 600 out.

Definition pi_failure_events (cmd description out : string) : list Event :=
  desc_events pi_info_line (Some description)
  ++ [EvShell cmd; EvPrint (pi_error_line ("Command failed: " +:+ cmd))]
  ++ tail_events 500 out.

(** The commands run by a chain of required steps of run.py started on
    [h]: each command runs on the host its predecessor left, and the chain
    ends with the first command that fails. *)
Fixpoint required_chain (sh : Shell) (cmds : list string) (h : Host) : list string :=
  match cmds with
  | [] => []
  | c :: rest =>
      c :: (if sh_rc (sh c h) =? 0
            then required_chain sh rest (sh_host (sh c h))
            else [])
  end.

(** A stretch of the log in which nothing but printing happens: no shell
    command, no write, no directory made. *)
Definition quiet (l : list Event) : Prop := Forall (fun e => mutating e = false) l.

(** A computation only adds to the log. *)
Definition grows {A : Type} (m : M A) : Prop :=
  ∀ st, ∃ l, log (snd (m st)) = log st ++ l.

(** The user the scripts work for, as [real_user] and [get_real_user]
    read it from the environment of [h]. *)
Definition user_of (h : Host) : string := default "pi" (environ h !! "SUDO_USER").

(** The home directory of that user, the workspace folder of run.py and
    the shell profile. *)
Definition home_of (h : Host) : string := expanduser h ("~" +:+ user_of h).
Definition workspace_of (h : Host) : string := Py.path_join (home_of h) "claude-workspace".
Definition bashrc_of (h : Host) : string := Py.path_join (home_of h) ".bashrc".

(** The contents written to [path] with [open(path, w)], in order. *)
Definition writes_to (path : string) (l : list Event) : list string :=
  omap (fun e => match e with
                 | EvWrite p c => if String.eqb p path then Some c else None
                 | _ => None
                 end) l.


(** The last character of a string. *)
Fixpoint last_char (s : string) : option ascii :=
  match s with
  | EmptyString => None
  | String c EmptyString => Some c
  | String _ s' => last_char s'
  end.

(** The environment file of run.py on [h], and the two paths [scaffold]
    touches before it. *)
Definition env_file_of (h : Host) : string := Run.env_path (workspace_of h).
Definition workdir_of (h : Host) : string := Py.path_join (workspace_of h) "workspace".
Definition compose_file_of (h : Host) : string :=
  Py.path_join (workspace_of h) "docker-compose.yml".
Definition launcher_file_of (h : Host) : string :=
  Py.path_join (workspace_of h) "start-claude.sh".

(** [scaffold] gets as far as the environment file: making the working
    directory and writing the compose file raise nothing. *)
Definition reaches_env (h : Host) : bool :=
  match fs h !! workdir_of h with
  | Some (File _) => false
  | _ => match fs h !! compose_file_of h with
         | Some Dir => false
         | _ => true
         end
  end.

(** [lies_above q p]: the path [p] goes on from [q] with a slash.  Every
    directory that opening [p] passes through, and every directory that
    [os.makedirs(p)] may have to make, is such a [q]. *)
Definition lies_above (q p : string) : bool := String.prefix (q +:+ "/") p.

(** No regular file of the tree lies above [p]: looking [p] up fails, if it
    fails, because there is no such file, not because a file is where a
    directory should be ([NotADirectoryError]). *)
Definition clear_above (h : Host) (p : string) : Prop :=
  ∀ q c, fs h !! q = Some (File c) → lies_above q p = false.

(** Nothing is in the way of making the working directory. *)
Definition way_clear (h : Host) : Prop := clear_above h (workdir_of h).

(** The output of every command is text, so that [subprocess.run] decodes
    it. *)
Definition decodable (sh : Shell) : Prop :=
  ∀ cmd h, Py.is_text (sh_merged (sh cmd h)) = true
           ∧ Py.is_text (sh_stdout (sh cmd h)) = true.

(** The environment file is missing, or it still has the placeholder
    somewhere in it. *)
Definition env_is_fresh (h : Host) : bool :=
  match fs h !! env_file_of h with
  | None => true
  | Some (File old) => Py.contains Run.placeholder old
  | Some Dir => false
  end.

(** No event of the log appends to the file [path]. *)
Definition no_append (path : string) (l : list Event) : Prop :=
  Forall (fun e => appends path e = false) l.

(** No event of the log writes or appends to the file [path]. *)
Definition untouched (path : string) (l : list Event) : Prop :=
  Forall (fun e => touches path e = false) l.

(** The chown that ends [scaffold] on [h] leaves the content of the
    environment file alone, on whatever host it runs. *)
Definition chown_keeps_env (sh : Shell) (h : Host) : Prop :=
  ∀ h', fs (sh_host (sh (Run.cmd_chown (user_of h) (user_of h) (workspace_of h)) h'))
          !! env_file_of h
        = fs h' !! env_file_of h.

(** ** Example hosts and shells

    Concrete machines on which the definitions are evaluated. *)

(** [expanduser] of a host whose home directories are under /home. *)
Definition home_under_home (p : string) : string :=
  match p with
  | String "~"%char u => "/home/" +:+ u
  | _ => p
  end.

Definition meminfo_4g : string :=
  "MemTotal:        3884276 kB" +:+ Py.nl +:+ "MemFree:          215208 kB" +:+ Py.nl.

(** A 64-bit Pi run under sudo by alice: 32 GiB free, nothing installed,
    one empty line waiting on stdin, and of the file tree /proc/meminfo and
    the home directory of alice. *)
Definition pi_host : Host :=
  {| euid := 0;
     machine := "aarch64";
     environ := {[ "SUDO_USER" := "alice" ]};
     path_cmds := ∅;
     expanduser := home_under_home;
     stdin := [Py.empty];
     fs := <[ "/proc/meminfo" := File meminfo_4g ]>
             (<[ "/proc" := Dir ]>
                (<[ "/home/alice" := Dir ]> {[ "/home" := Dir ]}));
     modes := ∅;
     f_bavail := 8388608;
     f_frsize := 4096 |}.

Definition with_path (cmds : gset string) (h : Host) : Host :=
  mkHost (euid h) (machine h) (environ h) cmds (expanduser h) (stdin h)
         (fs h) (modes h) (f_bavail h) (f_frsize h).

Definition with_euid (uid : Z) (h : Host) : Host :=
  mkHost uid (machine h) (environ h) (path_cmds h) (expanduser h) (stdin h)
         (fs h) (modes h) (f_bavail h) (f_frsize h).

Definition with_bavail (blocks : Z) (h : Host) : Host :=
  mkHost (euid h) (machine h) (environ h) (path_cmds h) (expanduser h) (stdin h)
         (fs h) (modes h) blocks (f_frsize h).

(** Every command succeeds, prints nothing and leaves the host alone. *)
Definition sh_ok : Shell := fun _ h => mkSh 0 Py.empty Py.empty h.

(** Every command fails with status 100 and one line of output. *)
Definition sh_fail : Shell :=
  fun _ h => mkSh 100 Py.empty "E: Could not get lock /var/lib/dpkg/lock" h.


(** A provisioned host: the workspace of alice exists and its environment
    file holds [env]. *)
Definition provisioned (env bashrc : string) : Host :=
  with_fs (<[ "/home/alice/claude-workspace/.env" := File env ]>
             (<[ "/home/alice/.bashrc" := File bashrc ]>
                (<[ "/home/alice/claude-workspace/workspace" := Dir ]>
                   (<[ "/home/alice/claude-workspace" := Dir ]> (fs pi_host)))))
          pi_host.

(** Three file contents: an environment file with a real key, one where
    the key was entered under a comment that still quotes the placeholder,
    and a shell profile that already exports the key. *)
Definition stored_key : string := "ANTHROPIC_API_KEY=sk-ant-0123" +:+ Py.nl.

Definition edited_env : string :=
  "# replace your-api-key-here with the key" +:+ Py.nl +:+
  "ANTHROPIC_API_KEY=sk-ant-0123" +:+ Py.nl.

Definition exported_bashrc : string :=
  "# Anthropic API Key" +:+ Py.nl +:+
  "export ANTHROPIC_API_KEY=" +:+ Py.dq +:+ "sk-ant-0123" +:+ Py.dq +:+ Py.nl.

(** ** More observers *)

(** The value the loop of [preflight] over /proc/meminfo binds to [ram_mb]
    when nothing goes wrong: at the first line that starts with MemTotal,
    the second field as an integer, divided by 1024; [None] when there is
    no such line or the line does not parse. *)
Fixpoint memtotal_mb (ls : list string) : option Z :=
  match ls with
  | [] => None
  | line :: rest =>
      if Py.startswith "MemTotal" line
      then tok ← Py.split_ws line !! 1%nat; n ← Py.int tok; Some (n `div` 1024)
      else memtotal_mb rest
  end.

(** Every command of a chain of required steps succeeds, each on the host
    its predecessor left. *)
Fixpoint chain_ok (sh : Shell) (cmds : list string) (h : Host) : bool :=
  match cmds with
  | [] => true
  | c :: rest => (sh_rc (sh c h) =? 0) && chain_ok sh rest (sh_host (sh c h))
  end.

(** The host a chain of required steps leaves: that of the last command
    that ran. *)
Fixpoint chain_host (sh : Shell) (cmds : list string) (h : Host) : Host :=
  match cmds with
  | [] => h
  | c :: rest =>
      if sh_rc (sh c h) =? 0
      then chain_host sh rest (sh_host (sh c h))
      else sh_host (sh c h)
  end.

Definition run_ok_line (msg : string) : string :=
  Run.G +:+ Run.B +:+ "[OK]" +:+ Run.X +:+ " " +:+ msg.

(** The events of a log that change the machine, in order. *)
Definition effects (l : list Event) : list Event := List.filter mutating l.

(** The file tree [scaffold] leaves on [h], when nothing is in its way,
    before the closing chown: the working directory, the compose file and
    the launcher with their fixed contents, and the environment file with
    the default content when it was missing or held the placeholder. *)
Definition scaffolded_fs (h : Host) : gmap string Node :=
  <[ launcher_file_of h := File Run.launcher_sh ]>
    ((if env_is_fresh h
      then <[ env_file_of h := File Run.default_env ]>
      else fun t => t)
       (<[ compose_file_of h := File Run.compose_yml ]>
          (<[ workdir_of h := Dir ]> (fs h)))).

Definition scaffolded (h : Host) : Host :=
  with_modes (<[ launcher_file_of h := 493 ]> (modes h)) (with_fs (scaffolded_fs h) h).

(** Nothing is in the way of [scaffold]: no regular file lies above the
    working directory or is the working directory, and none of the three
    files is a directory. *)
Definition scaffold_clear (h : Host) : Prop :=
  way_clear h
  ∧ reaches_env h = true
  ∧ fs h !! env_file_of h ≠ Some Dir
  ∧ fs h !! launcher_file_of h ≠ Some Dir.

(** The chown that ends [scaffold] on [h]. *)
Definition chown_of (h : Host) : string :=
  Run.cmd_chown (user_of h) (user_of h) (workspace_of h).

(** The text of the shell profile as the two prompts read it: empty when
    the file is missing. *)
Definition profile_text (h : Host) : string :=
  match fs h !! bashrc_of h with
  | Some (File c) => c
  | _ => EmptyString
  end.

(** The capital of a small letter. *)
Definition upper_of (c : ascii) : ascii := ascii_of_nat (nat_of_ascii c - 32).

(** [any_case w a]: [a] is the word [w], written in small letters, with
    each letter in either case. *)
Fixpoint any_case (w a : string) : bool :=
  match w, a with
  | EmptyString, EmptyString => true
  | String x w', String c a' =>
      (Ascii.eqb c x || Ascii.eqb c (upper_of x)) && any_case w' a'
  | _, _ => false
  end.

(** A step that returns normally and leaves the host as it found it. *)
Definition steady (m : M unit) : Prop :=
  ∀ st, fst (m st) = Ret tt ∧ host (snd (m st)) = host st.

(** [installs_only h h']: [h'] is [h] but for the commands on PATH and the
    file modes.  What the scripts themselves read is as before: the user,
    the architecture, the environment, the home directories, the pending
    input, the files and the free space. *)
Definition installs_only (h h' : Host) : Prop :=
  euid h' = euid h ∧ machine h' = machine h ∧ environ h' = environ h
  ∧ expanduser h' = expanduser h ∧ stdin h' = stdin h ∧ fs h' = fs h
  ∧ f_bavail h' = f_bavail h ∧ f_frsize h' = f_frsize h.

(** A shell whose every command exits with status 0, prints text and at
    most installs something. *)
Definition obliging (sh : Shell) : Prop :=
  decodable sh
  ∧ ∀ cmd h, sh_rc (sh cmd h) = 0 ∧ installs_only h (sh_host (sh cmd h)).

(** A step that returns normally and at most installs something. *)
Definition keeps (m : M unit) : Prop :=
  ∀ st, fst (m st) = Ret tt ∧ installs_only (host st) (host (snd (m st))).

(** [emits P Q m]: on every state [m] only adds to the log, every event it
    adds satisfies [P], and the value it returns, if it returns, satisfies
    [Q]. *)
Definition emits {A : Type} (P : Event → Prop) (Q : A → Prop) (m : M A) : Prop :=
  ∀ st,
    (∃ l, log (snd (m st)) = log st ++ l ∧ Forall P l)
    ∧ (∀ a, fst (m st) = Ret a → Q a).

(** A path is the workspace folder of run.py under some home directory. *)
Definition is_workspace (base : string) : Prop :=
  ∃ home, base = Py.path_join home "claude-workspace".

(** The events run.py may add to the log: besides printing, prompting and
    running commands, it makes the working directory, writes the three
    files of the workspace folder, makes the launcher executable and
    appends to the shell profile. *)
Definition run_event (e : Event) : Prop :=
  match e with
  | EvPrint _ | EvPrompt _ | EvShell _ => True
  | EvMakedirs p => ∃ base, is_workspace base ∧ p = Py.path_join base "workspace"
  | EvWrite p _ =>
      ∃ base, is_workspace base
              ∧ (p = Py.path_join base "docker-compose.yml"
                 ∨ p = Py.path_join base ".env"
                 ∨ p = Py.path_join base "start-claude.sh")
  | EvChmod p mode =>
      ∃ base, is_workspace base ∧ p = Py.path_join base "start-claude.sh" ∧ mode = 493
  | EvAppend p _ => ∃ home, p = Py.path_join home ".bashrc"
  | EvSetenv _ _ => False
  end.

(** The events setup_raspberry_pi.py may add to the log: besides printing,
    prompting and running commands, it appends to the shell profile and
    sets the key in its own environment. *)
Definition pi_event (e : Event) : Prop :=
  match e with
  | EvPrint _ | EvPrompt _ | EvShell _ => True
  | EvAppend p _ => ∃ home, p = Py.path_join home ".bashrc"
  | EvSetenv k _ => k = SetupPi.key_name
  | EvWrite _ _ | EvMakedirs _ | EvChmod _ _ => False
  end.

(** A plain byte: below 128 and no white space.  A string of plain bytes
    is a text with a character to each byte. *)
Definition plain_byte (b : ascii) : bool :=
  (N_of_ascii b <? 128)%N && negb (Py.space_point (N_of_ascii b)).

Fixpoint all_plain (s : string) : bool :=
  match s with
  | EmptyString => true
  | String b s' => plain_byte b && all_plain s'
  end.

(** A string of decimal digits. *)
Fixpoint all_digits (s : string) : bool :=
  match s with
  | EmptyString => true
  | String c s' => bool_decide (is_Some (Py.digit c)) && all_digits s'
  end.

(** ** More example shells and hosts *)

(** A shell whose every command succeeds and puts docker on PATH. *)
Definition sh_installer : Shell :=
  fun _ h =>
    {| sh_rc := 0; sh_stdout := Py.empty; sh_merged := Py.empty;
       sh_host := with_path ({[ "docker" ]} ∪ path_cmds h) h |}.

(** A shell on which the one command [good] succeeds and every other
    command fails. *)
Definition sh_only (good : string) : Shell :=
  fun cmd h => if String.eqb cmd good then sh_ok cmd h else sh_fail cmd h.

(** The host [h] with a key typed at the prompt, blanks around it. *)
Definition keyed (h : Host) : Host := with_stdin ["  sk-ant-0123 "] h.

(** * Properties *)

(** ** The string functions on examples *)

Example strip_ex : Py.strip "  v18.19.0
" = "v18.19.0".
Proof. reflexivity. Qed.

Example int_ex1 : Py.int (Py.split_head "." (Py.lstrip_char "v" "v18.19.0")) = Some 18.
Proof. reflexivity. Qed.

Example int_ex2 : Py.int " -1_0 " = Some (-10) /\ Py.int "1__0" = None /\ Py.int Py.empty = None
                  /\ Py.int "_1" = None /\ Py.int "1_" = None /\ Py.int "+007" = Some 7.
Proof. repeat split; reflexivity. Qed.

Example split_ex : Py.split_ws "MemTotal:        3884276 kB" = ["MemTotal:"; "3884276"; "kB"].
Proof. reflexivity. Qed.

Example lines_ex : Py.lines "a
b" = ["a" +:+ Py.nl; "b"].
Proof. reflexivity. Qed.

Example last_ex : Py.last_chars 3 "abcdef" = "def" /\ Py.last_chars 9 "abc" = "abc".
Proof. split; reflexivity. Qed.

Example join_ex : Py.path_join "/home/pi" ".env" = "/home/pi/.env"
                  /\ Py.path_join "/home/pi/" ".env" = "/home/pi/.env".
Proof. split; reflexivity. Qed.

Example str_ex : Py.str_of_int 2048 = "2048" /\ Py.str_of_int (-3) = "-3".
Proof. split; vm_compute; reflexivity. Qed.

(** ** Running the scripts *)

(** Unfolding the monad and the primitives, and nothing else. *)
Ltac exec :=
  cbv beta iota zeta delta
    [bind ret when emit print catch sys_exit raise get_host set_host which
     environ_get environ_set path_exists read_file write_file append_file
     makedirs chmod input subprocess_run andb orb negb
     Run.ok Run.warn Run.err Run.info Run.has Run.real_user Run.real_home
     SetupPi.log_step SetupPi.log_warn SetupPi.log_error SetupPi.log_info
     SetupPi.is_installed SetupPi.get_real_user];
  cbn [fst snd host log cp_returncode cp_stdout
       euid machine environ path_cmds expanduser stdin fs modes f_bavail f_frsize
       with_fs with_stdin with_environ with_modes].

(** *** The step executors *)

(** [run] of run.py on a required step: the description is printed, the
    command runs, and either the step answers [True] or the process
    exits with status 1 after the failure report. *)
Lemma Run_run_checked sh cmd desc st :
  Run.run sh cmd desc true st =
    let r := sh cmd (host st) in
    if sh_rc r =? 0
    then (Ret true,
          mkState (sh_host r) (log st ++ desc_events run_info_line desc ++ [EvShell cmd]))
    else (Exit 1,
          mkState (sh_host r) (log st ++ run_failure_events cmd desc (sh_merged r))).
Proof.
  destruct st as [h l]. cbn zeta.
  unfold Run.run, Run.info, run_failure_events, desc_events, tail_events, run_info_line, run_err_line.
  destruct desc as [d|]; [destruct (Py.truthy d)|]; exec;
    destruct (sh_rc (sh cmd h) =? 0); exec;
    try destruct (Py.truthy (sh_merged _)); exec;
    rewrite <- ?app_assoc; reflexivity.
Qed.

(** [run] of run.py with [check=False] answers [True] whatever the exit
    status. *)
Lemma Run_run_unchecked sh cmd desc st :
  Run.run sh cmd desc false st =
    (Ret true,
     mkState (sh_host (sh cmd (host st)))
             (log st ++ desc_events run_info_line desc ++ [EvShell cmd])).
Proof.
  destruct st as [h l].
  unfold Run.run, Run.info, desc_events, run_info_line.
  destruct desc as [d|]; [destruct (Py.truthy d)|]; exec;
    rewrite <- ?app_assoc; reflexivity.
Qed.

(** [run] of setup_raspberry_pi.py always returns: it answers whether the
    exit status was 0, and reports the failure when [check] is set. *)
Lemma SetupPi_run_eq sh cmd description check st :
  SetupPi.run sh cmd description check st =
    let r := sh cmd (host st) in
    (Ret (sh_rc r =? 0),
     mkState (sh_host r)
             (log st ++
              if check && negb (sh_rc r =? 0)
              then pi_failure_events cmd description (sh_merged r)
              else desc_events pi_info_line (Some description) ++ [EvShell cmd])).
Proof.
  destruct st as [h l]. cbn zeta.
  unfold SetupPi.run, SetupPi.log_info, SetupPi.log_error, pi_failure_events,
    desc_events, tail_events, pi_info_line, pi_error_line.
  destruct check, (Py.truthy description); exec;
    destruct (sh_rc (sh cmd h) =? 0) eqn:E; exec; rewrite ?E;
    try destruct (Py.truthy (sh_merged _)); exec;
    rewrite <- ?app_assoc; reflexivity.
Qed.

(** [node_major] answers the major version read off the version query, or 0. *)
Lemma Run_node_major_eq sh st :
  Run.node_major sh st =
    let r := sh Run.cmd_node_version (host st) in
    (Ret (default 0 (parse_major (sh_stdout r))),
     mkState (sh_host r) (log st ++ [EvShell Run.cmd_node_version])).
Proof.
  destruct st as [h l]. unfold Run.node_major. exec.
  destruct (parse_major _); reflexivity.
Qed.

(** The commands of a log made of pieces. *)
Lemma shell_cmds_app l1 l2 : shell_cmds (l1 ++ l2) = shell_cmds l1 ++ shell_cmds l2.
Proof. apply omap_app. Qed.

Lemma shell_cmds_desc style desc : shell_cmds (desc_events style desc) = [].
Proof. destruct desc as [d|]; cbn; [destruct (Py.truthy d)|]; reflexivity. Qed.

Lemma shell_cmds_tail n out : shell_cmds (tail_events n out) = [].
Proof. unfold tail_events. destruct (Py.truthy out); reflexivity. Qed.

Lemma shell_cmds_run_failure cmd desc out :
  shell_cmds (run_failure_events cmd desc out) = [cmd].
Proof.
  unfold run_failure_events.
  rewrite !shell_cmds_app, shell_cmds_desc, shell_cmds_tail. reflexivity.
Qed.

Lemma shell_cmds_pi_failure cmd d out :
  shell_cmds (pi_failure_events cmd d out) = [cmd].
Proof.
  unfold pi_failure_events.
  rewrite !shell_cmds_app, shell_cmds_desc, shell_cmds_tail. reflexivity.
Qed.

Lemma shell_cmds_pi_step (b : bool) cmd d out :
  shell_cmds (if b then pi_failure_events cmd d out
              else desc_events pi_info_line (Some d) ++ [EvShell cmd]) = [cmd].
Proof.
  destruct b; [apply shell_cmds_pi_failure|].
  rewrite shell_cmds_app, shell_cmds_desc. reflexivity.
Qed.

(** Reads the commands off an explicit log. *)
Ltac cmds :=
  repeat (rewrite ?shell_cmds_app, ?shell_cmds_desc, ?shell_cmds_tail,
            ?shell_cmds_run_failure, ?shell_cmds_pi_step; cbn [shell_cmds omap app]);
  rewrite ?app_nil_r, <- ?app_assoc; cbn.


(** The steps of setup_raspberry_pi.py never branch on the exit status. *)
Ltac pi_runs := repeat (rewrite SetupPi_run_eq; cbn zeta; cbn [host log fst snd]; exec).

(** ** Failure of a required step *)

(** The characters of a string, put together again, are the string. *)
Lemma sapp_assoc (a b c : string) : a +:+ (b +:+ c) = (a +:+ b) +:+ c.
Proof.
  induction a as [|x a IH]; [reflexivity|].
  change (String x (a +:+ (b +:+ c)) = String x ((a +:+ b) +:+ c)). f_equal. exact IH.
Qed.

Lemma join_app l1 l2 : Py.join (l1 ++ l2) = Py.join l1 +:+ Py.join l2.
Proof.
  induction l1 as [|c l1 IH]; [reflexivity|].
  cbn [app Py.join foldr]. fold (Py.join (l1 ++ l2)). fold (Py.join l1).
  rewrite IH. apply sapp_assoc.
Qed.

Lemma join_chars s : Py.join (Py.chars s) = s.
Proof.
  induction s as [|b s IH]; [reflexivity|]. cbn [Py.chars].
  destruct (Py.chars s) as [|c cs].
  - cbn in IH. subst s. reflexivity.
  - destruct (Py.starts_cont c); cbn [Py.join foldr] in *; rewrite <- IH; reflexivity.
Qed.

(** The printed tail is the end of the output, at most [n] characters of
    it. *)
Lemma last_chars_suffix n s :
  ∃ p, s = p +:+ Py.last_chars n s.
Proof.
  unfold Py.last_chars. exists (Py.join (take (length (Py.chars s) - n) (Py.chars s))).
  rewrite <- join_app, take_drop. symmetry. apply join_chars.
Qed.

Lemma last_chars_count n s :
  ∃ cs, Py.last_chars n s = Py.join cs ∧ (length cs ≤ n)%nat ∧ cs `suffix_of` Py.chars s.
Proof.
  unfold Py.last_chars. eexists. split; [reflexivity|]. split.
  - rewrite length_drop. lia.
  - apply suffix_drop.
Qed.

(** C1, as amended.  A step run with [check=True] whose command exits with
    a non-zero status.  In run.py the executor prints the failure line and
    the last 600 characters of the captured output (when there is any),
    the process exits with status 1, and the step that would come next is
    never entered: binding any continuation to the step changes neither the
    outcome nor the state.  In setup_raspberry_pi.py the executor prints
    its failure line and the last 500 characters and returns [False]: the
    executor itself never ends the process, and whatever statement follows
    the call is executed, with [False] for the value of the call, in the
    state the failed command left.  Whether the run goes on after that is
    up to the caller. *)
Theorem required_step_failure sh cmd st :
  sh_rc (sh cmd (host st)) ≠ 0 →
  let r := sh cmd (host st) in
  let failed events := mkState (sh_host r) (log st ++ events) in
  (∀ desc B (k : bool → M B),
     Run.run sh cmd desc true st
       = (Exit 1, failed (run_failure_events cmd desc (sh_merged r)))
     ∧ (flag <- Run.run sh cmd desc true ;; k flag) st
       = (Exit 1, failed (run_failure_events cmd desc (sh_merged r))))
  ∧ (∀ description B (k : bool → M B),
       SetupPi.run sh cmd description true st
         = (Ret false, failed (pi_failure_events cmd description (sh_merged r)))
       ∧ (flag <- SetupPi.run sh cmd description true ;; k flag) st
         = k false (failed (pi_failure_events cmd description (sh_merged r)))).
Proof.
  intros Hrc. apply Z.eqb_neq in Hrc. cbn zeta. split.
  - intros desc B k. unfold bind.
    rewrite Run_run_checked. cbn zeta. rewrite Hrc. split; reflexivity.
  - intros d B k. unfold bind.
    rewrite SetupPi_run_eq. cbn zeta. rewrite Hrc. split; reflexivity.
Qed.

(** C1 on the example host: apt-get update fails with status 100 under
    run.py. *)
Lemma required_step_failure_witness :
  sh_rc (sh_fail Run.cmd_apt_update (host (start pi_host))) ≠ 0
  ∧ Run.run sh_fail Run.cmd_apt_update (Some "apt update") true (start pi_host)
    = (Exit 1,
       mkState pi_host
         [EvPrint (run_info_line "apt update");
          EvShell "apt-get update -y -qq";
          EvPrint (run_err_line "Failed: apt-get update -y -qq");
          EvPrint "E: Could not get lock /var/lib/dpkg/lock"]).
Proof.
  split; [vm_compute; discriminate|].
  refine (proj1 (proj1 (required_step_failure sh_fail Run.cmd_apt_update (start pi_host) _)
                   (Some "apt update") unit (fun _ => ret tt))).
  vm_compute; discriminate.
Defined.

(** C1 as stated fails on setup_raspberry_pi.py: with every command
    failing, [update_system] still runs its three required commands one
    after the other and returns normally. *)
Lemma failed_step_does_not_stop_setup_pi :
  let run := SetupPi.update_system sh_fail (start pi_host) in
  sh_rc (sh_fail SetupPi.cmd_apt_update pi_host) = 100
  ∧ fst run = Ret tt
  ∧ shell_cmds (log (snd run))
    = ["apt-get update -y"; "apt-get upgrade -y";
       "apt-get install -y curl wget git ca-certificates gnupg lsb-release"].
Proof. vm_compute. repeat split; reflexivity. Qed.

(** ** The entry point *)

(** C2, as amended.  In run.py an invocation whose first argument, in
    lower case, is not setup (or that has no argument) prints the usage
    text and ends with status 0; the host is left as it was and the log
    holds the one print, so no command is run and no file is written.  A
    first argument that is setup in any letter case runs [setup].
    setup_raspberry_pi.py runs [main] whatever the arguments. *)
Theorem usage_unless_setup sh argv st :
  (Run.action argv ≠ "setup" →
     Run.main sh argv st = (Ret tt, mkState (host st) (log st ++ [EvPrint Run.usage_text]))
     ∧ exit_status (fst (Run.main sh argv st)) = 0)
  ∧ (Run.action argv = "setup" → Run.main sh argv st = Run.setup sh st)
  ∧ SetupPi.entry sh argv st = SetupPi.main sh st.
Proof.
  unfold Run.main. split; [|split].
  - intros Hne. apply String.eqb_neq in Hne. rewrite Hne.
    destruct st; split; reflexivity.
  - intros Heq. apply String.eqb_eq in Heq. rewrite Heq. reflexivity.
  - reflexivity.
Qed.

(** C2 on the example host: the argument help. *)
Lemma usage_unless_setup_witness :
  Run.action ["run.py"; "help"] ≠ "setup"
  ∧ Run.main sh_ok ["run.py"; "help"] (start pi_host)
    = (Ret tt, mkState pi_host [EvPrint Run.usage_text]).
Proof.
  split; [vm_compute; discriminate|].
  refine (proj1 (proj1 (usage_unless_setup sh_ok ["run.py"; "help"] (start pi_host)) _)).
  vm_compute; discriminate.
Defined.

(** C2 as stated fails twice: run.py given SETUP in capitals, which is
    not the string setup, prints the banner, runs apt-get and writes the
    environment file; setup_raspberry_pi.py given no argument prints its
    banner and runs apt-get. *)
Lemma other_arguments_run_the_workflow :
  let upper := Run.main sh_ok ["run.py"; "SETUP"] (start pi_host) in
  let no_arg := SetupPi.entry sh_ok ["setup_raspberry_pi.py"] (start pi_host) in
  "SETUP" ≠ "setup"
  ∧ printed (log (snd upper)) !! 0%nat = Some Run.banner_text
  ∧ shell_cmds (log (snd upper)) !! 1%nat = Some "apt-get update -y -qq"
  ∧ fs (host (snd upper)) !! "/home/alice/claude-workspace/.env" = Some (File Run.default_env)
  ∧ printed (log (snd no_arg)) !! 0%nat = Some SetupPi.banner_text
  ∧ shell_cmds (log (snd no_arg)) !! 0%nat = Some "apt-get update -y".
Proof. vm_compute. repeat split; try reflexivity. discriminate. Qed.

(** ** The disk-space gate of the preflight *)

(** The loop over /proc/meminfo reads and parses; it changes nothing and
    does not exit. *)
Lemma meminfo_loop_pure ls st :
  ∃ o, Run.meminfo_loop ls st = (o, st) ∧ ∀ code, o ≠ Exit code.
Proof.
  induction ls as [|line rest IH]; cbn [Run.meminfo_loop].
  - eexists; split; [reflexivity|discriminate].
  - destruct (Py.startswith "MemTotal" line); [|exact IH].
    destruct (Py.split_ws line !! 1%nat) as [tok|];
      [destruct (Py.int tok)|]; eexists; (split; [reflexivity|discriminate]).
Qed.

(** Less than 4 GiB free is what the test [free_gb < 4] of [preflight]
    decides, the division rounding down. *)
Lemma free_gb_low h : free_bytes h < 4 * GiB → (Run.free_gb h <? 4) = true.
Proof.
  intros H. apply Z.ltb_lt. unfold Run.free_gb.
  apply Z.div_lt_upper_bound; [reflexivity|].
  unfold free_bytes, GiB in H. lia.
Qed.

Lemma free_gb_low_iff h : free_bytes h < 4 * GiB ↔ Run.free_gb h < 4.
Proof.
  split; [intros H; apply Z.ltb_lt, free_gb_low, H|].
  unfold Run.free_gb, free_bytes, GiB. intros H.
  apply Z.nle_gt. intros Hle.
  assert (4 ≤ (f_bavail h * f_frsize h) `div` 1024 ^ 3); [|lia].
  apply Z.div_le_lower_bound; [reflexivity|lia].
Qed.

(** Closing a goal about a log that grew by prints only. *)
Ltac quiet_log :=
  eexists; split;
  [ rewrite <- ?app_assoc; reflexivity
  | cbn [app]; repeat constructor ].

(** The run has ended with a non-zero status on an unchanged host. *)
Ltac aborted :=
  cbn [fst snd host log exit_status];
  split; [discriminate || lia|]; split; [reflexivity|quiet_log].

(** On a host with less than 4 GiB free every path through [preflight]
    ends before the network probe, the first shell command: at the root
    check, on an exception while reading the device model or the memory,
    or at the disk check. *)
Lemma preflight_low_disk sh st :
  free_bytes (host st) < 4 * GiB →
  let pre := Run.preflight sh st in
  exit_status (fst pre) ≠ 0
  ∧ host (snd pre) = host st
  ∧ ∃ l, log (snd pre) = log st ++ l ∧ quiet l.
Proof.
  intros Hlow. apply free_gb_low in Hlow. destruct st as [h l]. cbn [host] in Hlow.
  cbn zeta. unfold Run.preflight. exec.
  destruct (euid h =? 0); exec; [|aborted].
  destruct (String.eqb (machine h) "aarch64"); [|destruct (String.eqb (machine h) "armv7l")];
    exec.
  all: destruct (fs h !! "/proc/device-tree/model") as [[c|]|]; exec; try aborted.
  all: destruct (fs h !! "/proc/meminfo") as [[mem|]|]; exec; try aborted.
  all: match goal with
       | |- context [Run.meminfo_loop ?ls ?s] =>
           destruct (meminfo_loop_pure ls s) as [o [-> Ho]]
       end;
       destruct o as [[ram|]|code|e]; exec; try aborted; try (exfalso; eapply Ho; reflexivity).
  all: destruct (ram <? 2048); exec; rewrite Hlow; exec; aborted.
Qed.

(** Computations only add to the log. *)

Lemma grows_ret {A} (a : A) : grows (ret a).
Proof. intros st. exists []. cbn. by rewrite app_nil_r. Qed.

Lemma grows_bind {A B} (m : M A) (k : A → M B) :
  grows m → (∀ a, grows (k a)) → grows (bind m k).
Proof.
  intros Hm Hk st. unfold bind. destruct (Hm st) as [l1 H1].
  destruct (m st) as [[a|code|e] st1]; cbn [snd] in *; try (exists l1; exact H1).
  destruct (Hk a st1) as [l2 H2]. exists (l1 ++ l2).
  rewrite H2, H1. by rewrite app_assoc.
Qed.

Lemma grows_emit e : grows (emit e).
Proof. intros st. exists [e]. reflexivity. Qed.

Lemma grows_sys_exit {A} code : grows (@sys_exit A code).
Proof. intros st. exists []. cbn. by rewrite app_nil_r. Qed.

Lemma grows_raise {A} e : grows (@raise A e).
Proof. intros st. exists []. cbn. by rewrite app_nil_r. Qed.

Lemma grows_get_host : grows get_host.
Proof. intros st. exists []. cbn. by rewrite app_nil_r. Qed.

Lemma grows_set_host h : grows (set_host h).
Proof. intros st. exists []. cbn. by rewrite app_nil_r. Qed.

Lemma grows_catch {A} (m : M A) handler :
  grows m → (∀ e h, handler e = Some h → grows h) → grows (catch m handler).
Proof.
  intros Hm Hh st. unfold catch. destruct (Hm st) as [l1 H1].
  destruct (m st) as [[a|code|e] st1]; cbn [snd] in *; try (exists l1; exact H1).
  destruct (handler e) as [h|] eqn:E; [|exists l1; exact H1].
  destruct (Hh e h E st1) as [l2 H2]. exists (l1 ++ l2).
  rewrite H2, H1. by rewrite app_assoc.
Qed.

Lemma grows_subprocess_run sh cmd check merged :
  grows (subprocess_run sh cmd check merged).
Proof.
  intros st. exists [EvShell cmd]. unfold subprocess_run.
  destruct (check && negb _); reflexivity.
Qed.

(** Walks through a script function: binds, branches, handlers and the
    primitives, which unfold to the cases above. *)
Ltac grows_step :=
  match goal with
  | |- grows (bind _ _) => apply grows_bind; [|intros]
  | |- grows (ret _) => apply grows_ret
  | |- grows (emit _) => apply grows_emit
  | |- grows (sys_exit _) => apply grows_sys_exit
  | |- grows (raise _) => apply grows_raise
  | |- grows get_host => apply grows_get_host
  | |- grows (set_host _) => apply grows_set_host
  | |- grows (subprocess_run _ _ _ _) => apply grows_subprocess_run
  | |- grows (catch _ _) =>
      apply grows_catch;
      [|let e := fresh "e" in let h := fresh "h" in let E := fresh "E" in
        intros e h E; destruct e; inversion E; subst; clear E]
  | |- grows (if ?b then _ else _) => destruct b
  | |- grows (match ?x with _ => _ end) => destruct x
  | |- grows (let _ := _ in _) => cbv zeta
  | H : grows ?m |- grows ?m => exact H
  | |- grows ?m =>
      progress unfold when, print, which, environ_get, environ_set, path_exists,
        read_file, write_file, append_file, makedirs, chmod, input,
        SetupPi.log_step, SetupPi.log_warn, SetupPi.log_error, SetupPi.log_info,
        SetupPi.is_installed, SetupPi.get_real_user, SetupPi.banner,
        SetupPi.check_root, SetupPi.run
  end.

Ltac grows := repeat grows_step.

Lemma grows_pi_run sh cmd d check : grows (SetupPi.run sh cmd d check).
Proof. grows. Qed.

Lemma grows_pi_update_system sh : grows (SetupPi.update_system sh).
Proof. unfold SetupPi.update_system. grows. Qed.

Lemma grows_pi_install_docker sh : grows (SetupPi.install_docker sh).
Proof. unfold SetupPi.install_docker. grows. Qed.

Lemma grows_pi_install_docker_compose sh : grows (SetupPi.install_docker_compose sh).
Proof. unfold SetupPi.install_docker_compose. grows. Qed.

Lemma grows_pi_install_node sh : grows (SetupPi.install_node sh).
Proof. unfold SetupPi.install_node. grows. Qed.

Lemma grows_pi_install_claude_code sh : grows (SetupPi.install_claude_code sh).
Proof. unfold SetupPi.install_claude_code. grows. Qed.

Lemma grows_pi_install_python_sdk sh : grows (SetupPi.install_python_sdk sh).
Proof. unfold SetupPi.install_python_sdk. grows. Qed.

Lemma grows_pi_configure_api_key : grows SetupPi.configure_api_key.
Proof. unfold SetupPi.configure_api_key. grows. Qed.

Lemma grows_pi_print_summary : grows SetupPi.print_summary.
Proof. unfold SetupPi.print_summary. grows. Qed.

(** One step of a sequence. *)
Lemma bind_eq {A B} (m : M A) (k : A → M B) st :
  bind m k st =
    match m st with
    | (Ret a, st') => k a st'
    | (Exit code, st') => (Exit code, st')
    | (Raise e, st') => (Raise e, st')
    end.
Proof. reflexivity. Qed.

Lemma pi_check_root_passes st : euid (host st) = 0 → SetupPi.check_root st = (Ret tt, st).
Proof. intros H. unfold SetupPi.check_root. exec. rewrite H. reflexivity. Qed.

Lemma pi_update_system_runs sh st :
  ∃ st', SetupPi.update_system sh st = (Ret tt, st')
         ∧ shell_cmds (log st') =
             shell_cmds (log st)
             ++ [SetupPi.cmd_apt_update; SetupPi.cmd_apt_upgrade; SetupPi.cmd_essentials].
Proof.
  destruct st as [h l]. unfold SetupPi.update_system. exec. pi_runs.
  eexists; split; [reflexivity|]. cbn [log]. cmds. reflexivity.
Qed.

(** As root, [main] of setup_raspberry_pi.py gets through the system
    update; nothing before it looks at the disk. *)
Lemma pi_main_reaches_installers sh h :
  euid h = 0 →
  ∃ rest, shell_cmds (log (snd (SetupPi.main sh (start h)))) =
            SetupPi.cmd_apt_update :: SetupPi.cmd_apt_upgrade :: SetupPi.cmd_essentials :: rest.
Proof.
  intros Hroot. unfold SetupPi.main, start.
  rewrite bind_eq. unfold SetupPi.banner at 1, print at 1, emit at 1. cbn [host log].
  rewrite bind_eq, pi_check_root_passes by exact Hroot.
  rewrite bind_eq.
  destruct (pi_update_system_runs sh
              {| host := h; log := [] ++ [EvPrint SetupPi.banner_text] |}) as (st' & -> & Hcmds).
  cbn [log] in Hcmds.
  match goal with
  | |- context [bind ?m ?k st'] =>
      assert (grows (bind m k)) as Hrest
  end.
  { repeat (match goal with |- grows (bind _ _) => apply grows_bind; [|intros] end);
      first [ apply grows_pi_install_docker | apply grows_pi_install_docker_compose
            | apply grows_pi_install_node | apply grows_pi_install_claude_code
            | apply grows_pi_install_python_sdk | apply grows_pi_configure_api_key
            | apply grows_pi_print_summary ]. }
  destruct (Hrest st') as [l Hl]. rewrite Hl, shell_cmds_app, Hcmds.
  eexists. reflexivity.
Qed.

(** C3, as amended.  In run.py, on a host with less than 4 GiB free on the
    root file system, [preflight] and with it [setup] end with a non-zero
    exit status, leave the host as it was and add nothing but prints to
    the log: no shell command, hence no installer step, is ever run.
    setup_raspberry_pi.py has no such check: as root its [main] runs the
    three commands of the system update, and goes on, whatever the free
    space. *)
Theorem low_disk_aborts_before_installers sh st :
  free_bytes (host st) < 4 * GiB →
  let pre := Run.preflight sh st in
  let whole := Run.setup sh st in
  (exit_status (fst pre) ≠ 0 ∧ host (snd pre) = host st
   ∧ ∃ l, log (snd pre) = log st ++ l ∧ quiet l)
  ∧ (exit_status (fst whole) ≠ 0 ∧ host (snd whole) = host st
     ∧ ∃ l, log (snd whole) = log st ++ l ∧ quiet l)
  ∧ (euid (host st) = 0 →
     ∃ rest, shell_cmds (log (snd (SetupPi.main sh (start (host st))))) =
               SetupPi.cmd_apt_update :: SetupPi.cmd_apt_upgrade
               :: SetupPi.cmd_essentials :: rest).
Proof.
  intros Hlow. cbn zeta. split; [exact (preflight_low_disk sh st Hlow)|]. split.
  - unfold Run.setup. rewrite bind_eq.
    change (print Run.banner_text st)
      with (Ret tt, {| host := host st; log := log st ++ [EvPrint Run.banner_text] |}).
    cbv beta iota. rewrite bind_eq.
    pose proof (preflight_low_disk sh
                  {| host := host st; log := log st ++ [EvPrint Run.banner_text] |} Hlow)
      as (Hstatus & Hhost & l & Hlog & Hquiet).
    cbn zeta in *. cbn [host log] in *.
    destruct (Run.preflight sh _) as [[[]|code|e] st']; cbn [fst snd exit_status] in *;
      [congruence|..].
    all: split; [assumption|]; split; [assumption|];
      exists (EvPrint Run.banner_text :: l);
      (split; [rewrite Hlog, <- app_assoc; reflexivity | constructor; [reflexivity|assumption]]).
  - intros Hroot. apply pi_main_reaches_installers, Hroot.
Qed.

(** C3 on the example host with 1000 free blocks of 4096 bytes. *)
Lemma low_disk_aborts_before_installers_witness :
  free_bytes (host (start (with_bavail 1000 pi_host))) < 4 * GiB
  ∧ exit_status (fst (Run.setup sh_ok (start (with_bavail 1000 pi_host)))) ≠ 0
  ∧ host (snd (Run.setup sh_ok (start (with_bavail 1000 pi_host)))) = with_bavail 1000 pi_host.
Proof.
  split; [vm_compute; reflexivity|].
  pose proof (low_disk_aborts_before_installers sh_ok (start (with_bavail 1000 pi_host))) as H.
  cbn zeta in H.
  refine (let H' := proj1 (proj2 (H _)) in conj (proj1 H') (proj1 (proj2 H'))).
  vm_compute; reflexivity.
Defined.

(** C3 as stated fails on setup_raspberry_pi.py: with no free space at
    all the run ends with status 0 after installing Node.js and the
    Claude Code CLI. *)
Lemma setup_pi_ignores_low_disk :
  let h := with_path {[ "docker" ]} (with_bavail 0 pi_host) in
  let run := SetupPi.main sh_ok (start h) in
  free_bytes h = 0
  ∧ exit_status (fst run) = 0
  ∧ shell_cmds (log (snd run)) !! 0%nat = Some "apt-get update -y"
  ∧ shell_cmds (log (snd run)) !! 11%nat = Some "apt-get install -y nodejs"
  ∧ shell_cmds (log (snd run)) !! 14%nat = Some "npm install -g @anthropic-ai/claude-code".
Proof. vm_compute. repeat split; reflexivity. Qed.

(** ** Detect before install *)

(** Membership in an explicit log. *)
Lemma printed_of_log w l : EvPrint w ∈ l → w ∈ printed l.
Proof.
  intros H. unfold printed. apply list_elem_of_omap. exists (EvPrint w). split; [exact H|reflexivity].
Qed.















(** ** The environment file *)

(** Two names joined to one directory are the same path only when they
    are the same name; a joined path ends like its last component. *)
Lemma path_join_inj a b1 b2 : Py.path_join a b1 = Py.path_join a b2 → b1 = b2.
Proof.
  unfold Py.path_join. destruct (negb (Py.truthy a) || Py.endswith_slash a); intros H.
  - by apply (inj (String.app a)) in H.
  - apply (inj (String.app a)) in H. by apply (inj (String.app "/")) in H.
Qed.

Lemma last_char_app a b : b ≠ EmptyString → last_char (a +:+ b) = last_char b.
Proof.
  intros Hb. induction a as [|c a IH]; [reflexivity|].
  change (String c a +:+ b) with (String c (a +:+ b)). cbn [last_char].
  destruct (a +:+ b) eqn:E; [|exact IH].
  destruct a; [cbn in E; contradiction|discriminate E].
Qed.

Lemma last_char_path_join a b :
  b ≠ EmptyString → last_char (Py.path_join a b) = last_char b.
Proof.
  intros Hb. unfold Py.path_join. destruct (negb (Py.truthy a) || Py.endswith_slash a).
  - by apply last_char_app.
  - rewrite last_char_app; [by apply (last_char_app "/")|].
    destruct b; [contradiction|discriminate].
Qed.

Lemma env_path_not_bashrc base home : Run.env_path base ≠ Py.path_join home ".bashrc".
Proof.
  intros H. apply (f_equal last_char) in H. unfold Run.env_path in H.
  rewrite !last_char_path_join in H by discriminate. discriminate H.
Qed.

(** [os.path.exists] on a known lookup. *)
Lemma bool_decide_is_Some {A} (o : option A) :
  bool_decide (is_Some o) = match o with Some _ => true | None => false end.
Proof.
  destruct o; [apply bool_decide_eq_true_2; eauto|apply bool_decide_eq_false_2].
  intros [x Hx]. discriminate.
Qed.

(** The writes to a file in a log made of pieces. *)
Lemma writes_to_app p l1 l2 : writes_to p (l1 ++ l2) = writes_to p l1 ++ writes_to p l2.
Proof. apply omap_app. Qed.

Lemma writes_to_desc p style desc : writes_to p (desc_events style desc) = [].
Proof. destruct desc as [d|]; cbn; [destruct (Py.truthy d)|]; reflexivity. Qed.

Lemma writes_to_tail p n out : writes_to p (tail_events n out) = [].
Proof. unfold tail_events. destruct (Py.truthy out); reflexivity. Qed.

Lemma writes_to_run_failure p cmd desc out :
  writes_to p (run_failure_events cmd desc out) = [].
Proof.
  unfold run_failure_events.
  rewrite !writes_to_app, writes_to_desc, writes_to_tail. reflexivity.
Qed.

Lemma writes_to_same p c : writes_to p [EvWrite p c] = [c].
Proof. cbn. rewrite String.eqb_refl. reflexivity. Qed.

Lemma writes_to_other p q c : q ≠ p → writes_to p [EvWrite q c] = [].
Proof. intros H. cbn. apply String.eqb_neq in H. rewrite H. reflexivity. Qed.

Lemma no_append_app p l1 l2 : no_append p l1 → no_append p l2 → no_append p (l1 ++ l2).
Proof. apply Forall_app_2. Qed.

Lemma no_append_desc p style desc : no_append p (desc_events style desc).
Proof.
  destruct desc as [d|]; cbn; [destruct (Py.truthy d)|]; repeat constructor.
Qed.

Lemma no_append_run_failure p cmd desc out : no_append p (run_failure_events cmd desc out).
Proof.
  unfold run_failure_events, tail_events.
  repeat apply no_append_app; [apply no_append_desc|repeat constructor|].
  destruct (Py.truthy out); repeat constructor.
Qed.

(** Nothing in an explicit log appends to the file. *)
Ltac no_append :=
  repeat first
    [ apply no_append_run_failure
    | apply no_append_desc
    | apply no_append_app
    | apply Forall_nil_2
    | apply Forall_cons_2; [reflexivity|] ].

Section Scaffold.

Variable sh : Shell.
Variable h : Host.

(** The four paths [scaffold] works on are different files. *)
Lemma workdir_not_env : workdir_of h ≠ env_file_of h.
Proof. intros H. apply path_join_inj in H. discriminate. Qed.

Lemma compose_not_env : compose_file_of h ≠ env_file_of h.
Proof. intros H. apply path_join_inj in H. discriminate. Qed.

Lemma launcher_not_env : launcher_file_of h ≠ env_file_of h.
Proof. intros H. apply path_join_inj in H. discriminate. Qed.

Lemma workdir_not_compose : workdir_of h ≠ compose_file_of h.
Proof. intros H. apply path_join_inj in H. discriminate. Qed.

Lemma workdir_not_launcher : workdir_of h ≠ launcher_file_of h.
Proof. intros H. apply path_join_inj in H. discriminate. Qed.

Lemma compose_not_launcher : compose_file_of h ≠ launcher_file_of h.
Proof. intros H. apply path_join_inj in H. discriminate. Qed.

Lemma env_not_launcher : env_file_of h ≠ launcher_file_of h.
Proof. intros H. apply path_join_inj in H. discriminate. Qed.

(** One step through the file operations of [scaffold]: a lookup is
    answered from what is known, pushed through an earlier insert, or
    split into its cases. *)
Ltac fs_step :=
  match goal with
  | E : fs h !! ?q = _ |- context [fs h !! ?q] => rewrite E
  | |- context [<[?k := ?v]> ?m !! ?k] => rewrite (lookup_insert_eq m k v)
  | |- context [<[workdir_of h := ?v]> ?m !! env_file_of h] =>
      rewrite (lookup_insert_ne m _ _ v workdir_not_env)
  | |- context [<[compose_file_of h := ?v]> ?m !! env_file_of h] =>
      rewrite (lookup_insert_ne m _ _ v compose_not_env)
  | |- context [<[launcher_file_of h := ?v]> ?m !! env_file_of h] =>
      rewrite (lookup_insert_ne m _ _ v launcher_not_env)
  | |- context [<[workdir_of h := ?v]> ?m !! compose_file_of h] =>
      rewrite (lookup_insert_ne m _ _ v workdir_not_compose)
  | |- context [<[workdir_of h := ?v]> ?m !! launcher_file_of h] =>
      rewrite (lookup_insert_ne m _ _ v workdir_not_launcher)
  | |- context [<[compose_file_of h := ?v]> ?m !! launcher_file_of h] =>
      rewrite (lookup_insert_ne m _ _ v compose_not_launcher)
  | |- context [<[env_file_of h := ?v]> ?m !! launcher_file_of h] =>
      rewrite (lookup_insert_ne m _ _ v env_not_launcher)
  | |- context [bool_decide (is_Some ?o)] => rewrite (bool_decide_is_Some o)
  | |- context [match fs h !! ?q with _ => _ end] =>
      let E := fresh "E" in destruct (fs h !! q) as [[?|]|] eqn:E
  | |- context [if Py.contains Run.placeholder ?c then _ else _] =>
      let E := fresh "E" in destruct (Py.contains Run.placeholder c) eqn:E
  end; exec.

(** The contents written to the environment file, read off an explicit
    log. *)
Ltac written :=
  repeat (rewrite ?writes_to_app, ?writes_to_desc, ?writes_to_run_failure, ?writes_to_same,
            ?(writes_to_other (env_file_of h) (workdir_of h)),
            ?(writes_to_other (env_file_of h) (compose_file_of h)),
            ?(writes_to_other (env_file_of h) (launcher_file_of h))
            by first [exact workdir_not_env|exact compose_not_env|exact launcher_not_env];
          cbn [writes_to omap app]);
  rewrite ?app_nil_r; cbn [app].

(** What [scaffold] does to the environment file, whatever else happens:
    it is written once, with the default content, exactly when [scaffold]
    gets that far and the file is missing or holds the placeholder; it is
    never appended to. *)
Lemma scaffold_env_file :
  let after := snd (Run.scaffold sh (start h)) in
  writes_to (env_file_of h) (log after)
    = (if reaches_env h && env_is_fresh h then [Run.default_env] else [])
  ∧ no_append (env_file_of h) (log after)
  ∧ (chown_keeps_env sh h →
     fs (host after) !! env_file_of h
       = if reaches_env h && env_is_fresh h
         then Some (File Run.default_env)
         else fs h !! env_file_of h).
Proof.
  cbv zeta. unfold chown_keeps_env, reaches_env, env_is_fresh.
  unfold Run.scaffold, start. exec.
  fold (user_of h). fold (home_of h). fold (workspace_of h).
  fold (workdir_of h) (compose_file_of h) (launcher_file_of h). unfold Run.env_path.
  fold (Run.env_path (workspace_of h)). fold (env_file_of h).
  repeat fs_step.
  all: rewrite ?Run_run_checked; cbn zeta; cbn [host log];
       try match goal with
           | |- context [sh_rc (?s ?c ?x) =? 0] => destruct (sh_rc (s c x) =? 0)
           end; exec.
  all: split; [written; reflexivity|split; [no_append|]].
  all: intros Hkeep; unfold user_of in Hkeep; rewrite ?Hkeep;
       cbn [fs with_modes with_fs]; repeat fs_step; congruence.
Qed.

End Scaffold.

(** A log with no write and no append to a file does not touch it. *)
Lemma untouched_of_writes p l : writes_to p l = [] → no_append p l → untouched p l.
Proof.
  unfold untouched, no_append. induction l as [|e l IH]; intros Hw Ha; [constructor|].
  inversion Ha as [|e' l' He Hl]; subst.
  destruct e; cbn in Hw |- *;
    try (constructor; [reflexivity|apply IH; assumption]).
  - destruct (String.eqb path p) eqn:E; [discriminate Hw|].
    constructor; [exact E|apply IH; assumption].
  - constructor; [exact He|apply IH; assumption].
Qed.

(** C5.  When [scaffold] gets as far as the environment file and the file
    is missing, or holds the placeholder, it is written, once, with the
    default content: the one key ANTHROPIC_API_KEY set to the placeholder.
    (For a missing file nothing may be in the way of making the working
    directory.)  Nothing else is ever written to it: whatever [scaffold]
    writes there is the default content, and it is written only when the
    file was missing or held the placeholder.  An existing file without the
    placeholder is neither written nor appended to, and after [scaffold] it
    still has its content, byte for byte, as long as the chown command
    that ends [scaffold] leaves it alone; so a stored key survives a second
    run. *)
Theorem env_file_written_only_when_fresh sh h :
  let p := env_file_of h in
  let after := snd (Run.scaffold sh (start h)) in
  (reaches_env h = true →
   (fs h !! p = None ∧ way_clear h)
   ∨ (∃ old, fs h !! p = Some (File old) ∧ Py.contains Run.placeholder old = true) →
   writes_to p (log after) = [Run.default_env]
   ∧ (chown_keeps_env sh h → fs (host after) !! p = Some (File Run.default_env)))
  ∧ (∀ c, c ∈ writes_to p (log after) →
        c = Run.default_env
        ∧ (fs h !! p = None
           ∨ ∃ old, fs h !! p = Some (File old) ∧ Py.contains Run.placeholder old = true))
  ∧ (∀ old, fs h !! p = Some (File old) →
            Py.contains Run.placeholder old = false →
            untouched p (log after)
            ∧ (chown_keeps_env sh h → fs (host after) !! p = Some (File old))).
Proof.
  cbv zeta. destruct (scaffold_env_file sh h) as (Hw & Ha & Hfs). cbv zeta in *. split.
  { intros Hreach Hfresh.
    assert (reaches_env h && env_is_fresh h = true) as Hyes.
    { unfold env_is_fresh. rewrite Hreach.
      destruct Hfresh as [[E _]|(old & E & Ec)]; rewrite E; [reflexivity|exact Ec]. }
    rewrite Hyes in Hw, Hfs. split; assumption. }
  split.
  - intros c Hc. rewrite Hw in Hc.
    destruct (reaches_env h); cbn [andb] in Hc; [|by apply elem_of_nil in Hc].
    unfold env_is_fresh in Hc.
    destruct (fs h !! env_file_of h) as [[old|]|] eqn:E.
    + destruct (Py.contains Run.placeholder old) eqn:Ec; [|by apply elem_of_nil in Hc].
      apply list_elem_of_singleton in Hc. split; [exact Hc|]. right. exists old. by split.
    + by apply elem_of_nil in Hc.
    + apply list_elem_of_singleton in Hc. split; [exact Hc|]. by left.
  - intros old E Ec.
    assert (reaches_env h && env_is_fresh h = false) as Hno.
    { unfold env_is_fresh. rewrite E, Ec. apply andb_false_r. }
    rewrite Hno in Hw, Hfs. split.
    + apply untouched_of_writes; assumption.
    + intros Hkeep. rewrite (Hfs Hkeep). exact E.
Qed.

(** C10.  The decision is a substring test: an environment file that holds
    the placeholder anywhere is overwritten with the default content, once,
    whatever else it holds.  [reaches_env h] says that [scaffold] gets as
    far as the environment file, that is, that making the working directory
    and writing the compose file raise nothing. *)
Theorem placeholder_anywhere_overwrites sh h old :
  fs h !! env_file_of h = Some (File old) →
  Py.contains Run.placeholder old = true →
  reaches_env h = true →
  let after := snd (Run.scaffold sh (start h)) in
  writes_to (env_file_of h) (log after) = [Run.default_env]
  ∧ (chown_keeps_env sh h →
     fs (host after) !! env_file_of h = Some (File Run.default_env)).
Proof.
  intros E Ec Hreach. cbv zeta.
  destruct (scaffold_env_file sh h) as (Hw & _ & Hfs). cbv zeta in *.
  assert (reaches_env h && env_is_fresh h = true) as Hyes.
  { unfold env_is_fresh. rewrite Hreach, E, Ec. reflexivity. }
  rewrite Hyes in Hw, Hfs. split; assumption.
Qed.

(** The shell that does nothing leaves the environment file alone. *)
Lemma sh_ok_keeps_env h : chown_keeps_env sh_ok h.
Proof. intros h'. reflexivity. Qed.

(** The one regular file of the example host, /proc/meminfo, lies above
    nothing the scripts look up. *)
Lemma pi_host_clear_above p :
  lies_above "/proc/meminfo" p = false → clear_above pi_host p.
Proof.
  intros Hp q c Hq. unfold pi_host in Hq. cbn [fs] in Hq.
  repeat (apply lookup_insert_Some in Hq as [[<- Hq]|[_ Hq]]; [try discriminate Hq|]).
  - exact Hp.
  - apply lookup_singleton_Some in Hq as [_ Hq]. discriminate Hq.
Qed.

Lemma pi_host_way_clear : way_clear pi_host.
Proof. apply pi_host_clear_above. reflexivity. Qed.

(** C5 on the example host, where the environment file is missing and gets
    written, and on a provisioned host whose environment file holds a real
    key and keeps it. *)
Lemma env_file_written_only_when_fresh_witness :
  let h := provisioned stored_key Py.empty in
  (reaches_env pi_host = true ∧ fs pi_host !! env_file_of pi_host = None
   ∧ way_clear pi_host ∧ chown_keeps_env sh_ok pi_host)
  ∧ fs (host (snd (Run.scaffold sh_ok (start pi_host)))) !! env_file_of pi_host
    = Some (File Run.default_env)
  ∧ (fs h !! env_file_of h = Some (File stored_key)
     ∧ Py.contains Run.placeholder stored_key = false
     ∧ chown_keeps_env sh_ok h)
  ∧ fs (host (snd (Run.scaffold sh_ok (start h)))) !! env_file_of h = Some (File stored_key).
Proof.
  cbv zeta.
  assert (reaches_env pi_host = true) as Hreach by (vm_compute; reflexivity).
  assert (fs pi_host !! env_file_of pi_host = None) as Hnone by (vm_compute; reflexivity).
  assert (fs (provisioned stored_key Py.empty) !! env_file_of (provisioned stored_key Py.empty)
          = Some (File stored_key)) as E by (vm_compute; reflexivity).
  assert (Py.contains Run.placeholder stored_key = false) as Ec by (vm_compute; reflexivity).
  split; [split; [exact Hreach|split; [exact Hnone|split;
            [exact pi_host_way_clear|apply sh_ok_keeps_env]]]|].
  split.
  { exact (proj2 (proj1 (env_file_written_only_when_fresh sh_ok pi_host) Hreach
                    (or_introl (conj Hnone pi_host_way_clear)))
             (sh_ok_keeps_env _)). }
  split; [split; [exact E|split; [exact Ec|apply sh_ok_keeps_env]]|].
  exact (proj2 (proj2 (proj2 (env_file_written_only_when_fresh sh_ok
                                (provisioned stored_key Py.empty)))
                  stored_key E Ec)
           (sh_ok_keeps_env _)).
Defined.

(** C10 on a provisioned host whose environment file has a real key under
    a comment that still quotes the placeholder: the key is lost. *)
Lemma placeholder_anywhere_overwrites_witness :
  let h := provisioned edited_env Py.empty in
  (fs h !! env_file_of h = Some (File edited_env)
   ∧ Py.contains Run.placeholder edited_env = true
   ∧ reaches_env h = true)
  ∧ writes_to (env_file_of h) (log (snd (Run.scaffold sh_ok (start h)))) = [Run.default_env]
  ∧ fs (host (snd (Run.scaffold sh_ok (start h)))) !! env_file_of h
    = Some (File Run.default_env).
Proof.
  cbv zeta.
  assert (fs (provisioned edited_env Py.empty) !! env_file_of (provisioned edited_env Py.empty)
          = Some (File edited_env)) as E by (vm_compute; reflexivity).
  assert (Py.contains Run.placeholder edited_env = true) as Ec by (vm_compute; reflexivity).
  assert (reaches_env (provisioned edited_env Py.empty) = true) as Hr by (vm_compute; reflexivity).
  split; [split; [exact E|split; [exact Ec|exact Hr]]|].
  pose proof (placeholder_anywhere_overwrites sh_ok (provisioned edited_env Py.empty)
                edited_env E Ec Hr) as [Hwritten Hcontent].
  split; [exact Hwritten|exact (Hcontent (sh_ok_keeps_env _))].
Defined.

(** ** The secret prompt *)

(** [ask_key] reads the profile after it has written the environment file,
    which is another file. *)
Lemma Run_ask_key_no_second_export h base c :
  fs h !! bashrc_of h = Some (File c) →
  Py.contains Run.key_name c = true →
  let after := snd (Run.ask_key base (start h)) in
  no_append (bashrc_of h) (log after) ∧ fs (host after) !! bashrc_of h = Some (File c).
Proof.
  intros E Ec. cbv zeta. unfold Run.ask_key, start, no_append. exec.
  destruct (stdin h) as [|line rest]; exec; [split; [repeat constructor|exact E]|].
  destruct (Py.truthy (Py.strip line)); exec; [|split; [repeat constructor|exact E]].
  destruct (fs h !! Run.env_path base) as [[old|]|]; exec;
    try (split; [repeat constructor|exact E]).
  all: fold (user_of h); fold (home_of h); fold (bashrc_of h);
       rewrite lookup_insert_ne by apply env_path_not_bashrc;
       rewrite E; exec; rewrite Ec; exec;
       (split; [repeat constructor|]);
       rewrite lookup_insert_ne by apply env_path_not_bashrc; exact E.
Qed.

Lemma SetupPi_configure_no_second_export h c :
  fs h !! bashrc_of h = Some (File c) →
  Py.contains SetupPi.key_name c = true →
  SetupPi.configure_api_key (start h)
    = (Ret tt,
       mkState h [EvPrint (pi_warn_line "ANTHROPIC_API_KEY already present in .bashrc – skipping.")]).
Proof.
  intros E Ec. unfold SetupPi.configure_api_key, start. exec.
  fold (user_of h). fold (home_of h). fold (bashrc_of h).
  rewrite E. exec. rewrite Ec. reflexivity.
Qed.

(** C6.  The shell profile already has the name ANTHROPIC_API_KEY somewhere
    in it.  Whatever is waiting on stdin, [ask_key] of run.py appends
    nothing to the profile and leaves its content as it was, and
    [configure_api_key] of setup_raspberry_pi.py prints a warning and
    returns before it prompts. *)
Theorem no_second_export h base c :
  fs h !! bashrc_of h = Some (File c) →
  Py.contains "ANTHROPIC_API_KEY" c = true →
  let asked := snd (Run.ask_key base (start h)) in
  (no_append (bashrc_of h) (log asked) ∧ fs (host asked) !! bashrc_of h = Some (File c))
  ∧ SetupPi.configure_api_key (start h)
    = (Ret tt,
       mkState h [EvPrint (pi_warn_line "ANTHROPIC_API_KEY already present in .bashrc – skipping.")]).
Proof.
  intros E Ec. cbv zeta. split.
  - exact (Run_ask_key_no_second_export h base c E Ec).
  - exact (SetupPi_configure_no_second_export h c E Ec).
Qed.

(** C6 on a provisioned host whose profile exports a key, with a new key
    typed at the prompt. *)
Lemma no_second_export_witness :
  let h := with_stdin ["sk-ant-4567"] (provisioned Run.default_env exported_bashrc) in
  (fs h !! bashrc_of h = Some (File exported_bashrc)
   ∧ Py.contains "ANTHROPIC_API_KEY" exported_bashrc = true)
  ∧ fs (host (snd (Run.ask_key "/home/alice/claude-workspace" (start h)))) !! bashrc_of h
    = Some (File exported_bashrc).
Proof.
  cbv zeta.
  assert (fs (with_stdin ["sk-ant-4567"] (provisioned Run.default_env exported_bashrc))
            !! bashrc_of (with_stdin ["sk-ant-4567"] (provisioned Run.default_env exported_bashrc))
          = Some (File exported_bashrc)) as E by (vm_compute; reflexivity).
  assert (Py.contains "ANTHROPIC_API_KEY" exported_bashrc = true) as Ec
    by (vm_compute; reflexivity).
  split; [split; [exact E|exact Ec]|].
  exact (proj2 (proj1 (no_second_export _ "/home/alice/claude-workspace" _ E Ec))).
Defined.

(** An empty answer: both prompts return after the warning. *)
Lemma Run_ask_key_skip h base line rest :
  stdin h = line :: rest →
  Py.strip line = EmptyString →
  Run.ask_key base (start h)
    = (Ret tt,
       mkState (with_stdin rest h)
         [EvPrint (Py.nl +:+ Run.C +:+ Run.B +:+ "-- API Key --" +:+ Run.X);
          EvPrint "  Get yours at: https://console.anthropic.com";
          EvPrompt (Py.nl +:+ "  Paste your API key (Enter to skip): ");
          EvPrint (run_warn_line "Skipped — edit .env later before running Claude")]).
Proof.
  intros Hin Hempty. unfold Run.ask_key, start. exec. rewrite Hin. exec.
  rewrite Hempty. reflexivity.
Qed.

Lemma SetupPi_configure_skip h line rest :
  stdin h = line :: rest →
  Py.strip line = EmptyString →
  let after := snd (SetupPi.configure_api_key (start h)) in
  fs (host after) = fs h ∧ environ (host after) = environ h ∧ quiet (log after).
Proof.
  intros Hin Hempty. cbv zeta. unfold SetupPi.configure_api_key, start, quiet. exec.
  destruct (fs h !! _) as [[c|]|]; exec.
  - destruct (Py.contains SetupPi.key_name c); exec.
    + repeat split; repeat constructor.
    + rewrite Hin. exec. rewrite Hempty. cbn. repeat split; repeat constructor.
  - repeat split; repeat constructor.
  - rewrite Hin. exec. rewrite Hempty. cbn. repeat split; repeat constructor.
Qed.

(** C7.  The user answers the prompt with a line that is empty once
    stripped.  [ask_key] of run.py prints its two header lines, the prompt
    and the warning, takes the line from stdin and does nothing else: the
    file tree is the one it started with.  [configure_api_key] of
    setup_raspberry_pi.py leaves the file tree and the environment as they
    were and only prints. *)
Theorem empty_input_changes_nothing h base line rest :
  stdin h = line :: rest →
  Py.strip line = EmptyString →
  let asked := Run.ask_key base (start h) in
  let configured := SetupPi.configure_api_key (start h) in
  (asked
     = (Ret tt,
        mkState (with_stdin rest h)
          [EvPrint (Py.nl +:+ Run.C +:+ Run.B +:+ "-- API Key --" +:+ Run.X);
           EvPrint "  Get yours at: https://console.anthropic.com";
           EvPrompt (Py.nl +:+ "  Paste your API key (Enter to skip): ");
           EvPrint (run_warn_line "Skipped — edit .env later before running Claude")])
   ∧ fs (host (snd asked)) = fs h)
  ∧ (fs (host (snd configured)) = fs h
     ∧ environ (host (snd configured)) = environ h
     ∧ quiet (log (snd configured))).
Proof.
  intros Hin Hempty. cbv zeta. split.
  - rewrite (Run_ask_key_skip h base line rest Hin Hempty). split; reflexivity.
  - exact (SetupPi_configure_skip h line rest Hin Hempty).
Qed.

(** C7 on a provisioned host with one empty line on stdin. *)
Lemma empty_input_changes_nothing_witness :
  let h := provisioned Run.default_env Py.empty in
  (stdin h = [Py.empty] ∧ Py.strip Py.empty = EmptyString)
  ∧ fs (host (snd (Run.ask_key "/home/alice/claude-workspace" (start h)))) = fs h.
Proof.
  cbv zeta. split; [split; reflexivity|].
  exact (proj2 (proj1 (empty_input_changes_nothing (provisioned Run.default_env Py.empty)
                         "/home/alice/claude-workspace" Py.empty [] eq_refl eq_refl))).
Defined.

(** ** Version gating of the Node.js installer *)






(** * Further properties of the two scripts *)

(** Membership in an explicit log by a walk along it: the log is put in
    the shape of one list first. *)
Ltac logged :=
  apply printed_of_log; rewrite <- ?app_assoc; cbn [app];
  repeat first
    [ apply list_elem_of_here
    | apply list_elem_of_further
    | apply elem_of_app; right ].

(** The example shells print text. *)
Lemma sh_ok_decodable : decodable sh_ok.
Proof. intros cmd h. split; reflexivity. Qed.

Lemma sh_fail_decodable : decodable sh_fail.
Proof. intros cmd h. split; vm_compute; reflexivity. Qed.

Lemma sh_installer_decodable : decodable sh_installer.
Proof. intros cmd h. split; reflexivity. Qed.

Lemma sh_only_decodable good : decodable (sh_only good).
Proof.
  intros cmd h. unfold sh_only. destruct (String.eqb cmd good); split; vm_compute; reflexivity.
Qed.

(** ** The root check *)

(** X1.  Started by a user who is not root, both scripts end with status 1
    right after their opening lines: the banner and the complaint are all
    that is printed, no command is run and the host is as it was. *)
Theorem not_root_exits_at_once sh h :
  euid h ≠ 0 →
  Run.setup sh (start h)
    = (Exit 1,
       mkState h
         [EvPrint Run.banner_text;
          EvPrint (Py.nl +:+ Run.B +:+ "Pre-flight checks" +:+ Run.X);
          EvPrint (Py.repeat "-" 45);
          EvPrint (run_err_line "Must be run as root.  Use:  sudo python3 run.py setup")])
  ∧ SetupPi.main sh (start h)
    = (Exit 1,
       mkState h
         [EvPrint SetupPi.banner_text;
          EvPrint (pi_error_line "This script must be run as root.");
          EvPrint "  Re-run with:  sudo python3 setup_raspberry_pi.py"]).
Proof.
  intros Hne. apply Z.eqb_neq in Hne. split.
  - unfold Run.setup, Run.preflight, start. exec. rewrite Hne. reflexivity.
  - unfold SetupPi.main, SetupPi.banner, SetupPi.check_root, start. exec.
    rewrite Hne. reflexivity.
Qed.

(** X1 on the example host with user id 1000. *)
Lemma not_root_exits_at_once_witness :
  euid (with_euid 1000 pi_host) ≠ 0
  ∧ fst (Run.setup sh_ok (start (with_euid 1000 pi_host))) = Exit 1.
Proof.
  split; [vm_compute; discriminate|].
  exact (f_equal fst (proj1 (not_root_exits_at_once sh_ok (with_euid 1000 pi_host)
                               ltac:(vm_compute; discriminate)))).
Defined.

(** ** The memory check and the network probe *)

Lemma meminfo_loop_memtotal ls n st :
  memtotal_mb ls = Some n → Run.meminfo_loop ls st = (Ret (Some n), st).
Proof.
  induction ls as [|line rest IH]; cbn [memtotal_mb Run.meminfo_loop]; [discriminate|].
  destruct (Py.startswith "MemTotal" line); [|exact IH].
  destruct (Py.split_ws line !! 1%nat) as [tok|]; cbn; [|discriminate].
  destruct (Py.int tok) as [k|]; cbn; [|discriminate].
  intros [= <-]. reflexivity.
Qed.

Lemma meminfo_loop_no_memtotal ls st :
  Forall (fun line => Py.startswith "MemTotal" line = false) ls →
  Run.meminfo_loop ls st = (Ret None, st).
Proof.
  induction 1 as [|line rest Hline _ IH]; cbn [Run.meminfo_loop]; [reflexivity|].
  rewrite Hline. exact IH.
Qed.

(** X2.  As root, with a readable MemTotal line and at least 4 GiB free,
    [preflight] of run.py returns whatever the exit status of the network
    probe: the ping is the one command it runs, its exit status is not
    looked at and the line Internet: connected is printed.  Memory below
    2048 MB only changes the RAM line into a warning.  The model file may
    be missing, but nothing else is in its place, and the output of the
    ping is text. *)
Theorem preflight_passes_whatever_ping sh h mem ram :
  euid h = 0 →
  fs h !! "/proc/device-tree/model" ≠ Some Dir →
  clear_above h "/proc/device-tree/model" →
  fs h !! "/proc/meminfo" = Some (File mem) →
  memtotal_mb (Py.lines mem) = Some ram →
  4 * GiB ≤ free_bytes h →
  Py.is_text (sh_merged (sh Run.cmd_ping h)) = true →
  let pre := Run.preflight sh (start h) in
  fst pre = Ret tt
  ∧ host (snd pre) = sh_host (sh Run.cmd_ping h)
  ∧ shell_cmds (log (snd pre)) = [Run.cmd_ping]
  ∧ run_ok_line "Internet: connected" ∈ printed (log (snd pre))
  ∧ (if ram <? 2048
     then run_warn_line ("RAM: " +:+ Py.str_of_int ram +:+ "MB (low — may be tight)")
     else run_ok_line ("RAM: " +:+ Py.str_of_int ram +:+ "MB")) ∈ printed (log (snd pre)).
Proof.
  intros Hroot Hmodel _ Hmem Hram Hdisk _. cbv zeta. apply Z.eqb_eq in Hroot.
  assert ((Run.free_gb h <? 4) = false) as Hfree.
  { apply Z.ltb_ge. apply Z.nlt_ge. intros Hlow. apply free_gb_low_iff in Hlow. lia. }
  unfold Run.preflight, start, run_ok_line, run_warn_line. exec. rewrite Hroot. exec.
  destruct (String.eqb (machine h) "aarch64"); [|destruct (String.eqb (machine h) "armv7l")];
    exec.
  all: destruct (fs h !! "/proc/device-tree/model") as [[c|]|]; [|contradiction|]; exec.
  all: rewrite Hmem; exec; rewrite (meminfo_loop_memtotal _ _ _ Hram); exec.
  all: destruct (ram <? 2048); exec; rewrite Hfree; exec;
       rewrite Run_run_unchecked; exec.
  all: split; [reflexivity|split; [reflexivity|split; [cmds; reflexivity|split; logged]]].
Qed.

Lemma meminfo_loop_unparsed ls st :
  memtotal_mb ls = None →
  ∃ o, Run.meminfo_loop ls st = (o, st)
       ∧ (o = Ret None ∨ o = Raise IndexError ∨ o = Raise ValueError).
Proof.
  induction ls as [|line rest IH]; cbn [memtotal_mb Run.meminfo_loop].
  - intros _. eexists. split; [reflexivity|]. by left.
  - destruct (Py.startswith "MemTotal" line); [|exact IH].
    destruct (Py.split_ws line !! 1%nat) as [tok|]; cbn.
    + destruct (Py.int tok) as [k|]; cbn; [discriminate|].
      intros _. eexists. split; [reflexivity|]. right. by right.
    + intros _. eexists. split; [reflexivity|]. right. by left.
Qed.

(** X3.  The memory check of run.py is not guarded.  As root, [preflight]
    ends with an uncaught exception when /proc/meminfo is missing
    (FileNotFoundError), when none of its lines starts with MemTotal
    (UnboundLocalError), or when the MemTotal line has no second field or
    one that is not an integer (IndexError, ValueError); the exception
    comes before any command has been run and leaves the host as it was.
    The lines are those of text-mode iteration, which end at LF, CR LF or
    CR; no regular file is where a directory of the two paths should
    be. *)
Theorem preflight_meminfo_errors sh h :
  euid h = 0 →
  fs h !! "/proc/device-tree/model" ≠ Some Dir →
  clear_above h "/proc/device-tree/model" →
  let pre := Run.preflight sh (start h) in
  (fs h !! "/proc/meminfo" = None → clear_above h "/proc/meminfo" →
   fst pre = Raise FileNotFoundError)
  ∧ (∀ mem, fs h !! "/proc/meminfo" = Some (File mem) →
            Forall (fun line => Py.startswith "MemTotal" line = false) (Py.lines mem) →
            fst pre = Raise UnboundLocalError)
  ∧ (∀ mem, fs h !! "/proc/meminfo" = Some (File mem) →
            memtotal_mb (Py.lines mem) = None →
            ∃ e, fst pre = Raise e
                 ∧ e ∈ [UnboundLocalError; IndexError; ValueError]
                 ∧ shell_cmds (log (snd pre)) = []
                 ∧ host (snd pre) = h).
Proof.
  intros Hroot Hmodel _. cbv zeta. apply Z.eqb_eq in Hroot.
  unfold Run.preflight, start. exec. rewrite Hroot. exec.
  destruct (String.eqb (machine h) "aarch64"); [|destruct (String.eqb (machine h) "armv7l")];
    exec.
  all: destruct (fs h !! "/proc/device-tree/model") as [[c|]|]; [|contradiction|]; exec.
  all: split; [intros -> _; reflexivity|split].
  all: intros mem ->; exec; intros Hnone.
  all: try (rewrite (meminfo_loop_no_memtotal _ _ Hnone); reflexivity).
  all: match goal with
       | |- context [Run.meminfo_loop ?ls ?s] =>
           destruct (meminfo_loop_unparsed ls s Hnone) as [o [-> [-> | [-> | ->]]]]
       end; exec.
  all: eexists; split; [reflexivity|split; [|split; [cmds; reflexivity|reflexivity]]].
  all: repeat first [apply list_elem_of_here | apply list_elem_of_further].
Qed.

(** X3 on the example host with a /proc/meminfo that has no MemTotal line. *)
Lemma preflight_meminfo_errors_witness :
  let h := with_fs (<[ "/proc/meminfo" := File ("MemFree: 1 kB" +:+ Py.nl) ]> (fs pi_host)) pi_host in
  (euid h = 0 ∧ fs h !! "/proc/device-tree/model" ≠ Some Dir
   ∧ clear_above h "/proc/device-tree/model")
  ∧ fst (Run.preflight sh_ok (start h)) = Raise UnboundLocalError.
Proof.
  cbv zeta.
  assert (clear_above
            (with_fs (<[ "/proc/meminfo" := File ("MemFree: 1 kB" +:+ Py.nl) ]> (fs pi_host))
                     pi_host)
            "/proc/device-tree/model") as Hclear.
  { intros q c Hq. cbn [fs with_fs] in Hq.
    apply lookup_insert_Some in Hq as [[<- _]|[_ Hq]]; [reflexivity|].
    exact (pi_host_clear_above "/proc/device-tree/model" eq_refl q c Hq). }
  split; [split; [reflexivity|split; [vm_compute; discriminate|exact Hclear]]|].
  refine (proj1 (proj2 (preflight_meminfo_errors sh_ok _ _ _ Hclear))
            ("MemFree: 1 kB" +:+ Py.nl) _ _).
  - reflexivity.
  - vm_compute; discriminate.
  - vm_compute; reflexivity.
  - vm_compute. repeat constructor.
Defined.

(** ** The installers of run.py *)

(** X4.  [install_compose] of run.py never installs the plugin: the version
    query is an optional step, whose answer is always true, so on every
    host and for every exit status the step runs that one command, prints
    that Docker Compose is already installed and returns. *)
Theorem run_compose_never_installs sh h :
  Run.install_compose sh (start h)
    = (Ret tt,
       mkState (sh_host (sh Run.cmd_compose_version h))
         [EvPrint (Py.nl +:+ Run.B +:+ "[3/7] Docker Compose" +:+ Run.X);
          EvShell Run.cmd_compose_version;
          EvPrint (run_warn_line "Docker Compose already installed");
          EvPrint (run_ok_line "Docker Compose ready")]).
Proof.
  unfold Run.install_compose, start. exec. rewrite Run_run_unchecked. exec. reflexivity.
Qed.

(** X5.  [install_updates] of run.py is a chain of three required steps: it
    runs the commands in order up to the first one that fails, ends with
    status 1 there and returns only when all three succeeded; the host is
    the one the last command that ran left. *)
Theorem install_updates_stops_at_first_failure sh h :
  let steps := [Run.cmd_apt_update; Run.cmd_apt_upgrade; Run.cmd_essentials] in
  let r := Run.install_updates sh (start h) in
  fst r = (if chain_ok sh steps h then Ret tt else Exit 1)
  ∧ shell_cmds (log (snd r)) = required_chain sh steps h
  ∧ host (snd r) = chain_host sh steps h.
Proof.
  cbv zeta. unfold Run.install_updates, start. exec.
  cbn [chain_ok required_chain chain_host].
  rewrite Run_run_checked; cbn zeta; cbn [host log].
  destruct (sh_rc (sh Run.cmd_apt_update h) =? 0); exec;
    [|split; [reflexivity|split; [cmds; reflexivity|reflexivity]]].
  rewrite Run_run_checked; cbn zeta; cbn [host log].
  destruct (sh_rc (sh Run.cmd_apt_upgrade _) =? 0); exec;
    [|split; [reflexivity|split; [cmds; reflexivity|reflexivity]]].
  rewrite Run_run_checked; cbn zeta; cbn [host log].
  destruct (sh_rc (sh Run.cmd_essentials _) =? 0); exec;
    (split; [reflexivity|split; [cmds; reflexivity|reflexivity]]).
Qed.

(** X6.  In [install_python_sdk] of run.py only the pip bootstrap is
    required.  Once it succeeded the step returns and prints that the SDK
    is installed whatever the exit status of the SDK install itself, and
    prints no failure line for it. *)
Theorem sdk_step_reports_success sh h :
  sh_rc (sh Run.cmd_pip h) = 0 →
  let r := Run.install_python_sdk sh (start h) in
  let h1 := sh_host (sh Run.cmd_pip h) in
  fst r = Ret tt
  ∧ shell_cmds (log (snd r)) = [Run.cmd_pip; Run.cmd_sdk (user_of h1)]
  ∧ host (snd r) = sh_host (sh (Run.cmd_sdk (user_of h1)) h1)
  ∧ run_ok_line "Python SDK installed" ∈ printed (log (snd r))
  ∧ run_err_line ("Failed: " +:+ Run.cmd_sdk (user_of h1)) ∉ printed (log (snd r)).
Proof.
  intros Hrc. apply Z.eqb_eq in Hrc. cbv zeta.
  unfold Run.install_python_sdk, start, run_ok_line, run_err_line. exec.
  rewrite Run_run_checked. cbn zeta. cbn [host log]. rewrite Hrc. exec.
  rewrite Run_run_unchecked. exec. fold (user_of (sh_host (sh Run.cmd_pip h))).
  split; [reflexivity|split; [cmds; reflexivity|split; [reflexivity|split; [logged|]]]].
  cbn. intros Hin.
  repeat (apply elem_of_cons in Hin as [Hin|Hin]; [cbv [String.append] in Hin; discriminate Hin|]).
  by apply elem_of_nil in Hin.
Qed.

(** ** The steps of setup_raspberry_pi.py *)

(** X7.  No exit status ends five of the six installers of
    setup_raspberry_pi.py: where the output of the commands is text, they
    return normally on every host, whatever the exit statuses and whatever
    the commands print or do to the host. *)
Theorem pi_steps_always_return sh st :
  decodable sh →
  fst (SetupPi.update_system sh st) = Ret tt
  ∧ fst (SetupPi.install_docker_compose sh st) = Ret tt
  ∧ fst (SetupPi.install_node sh st) = Ret tt
  ∧ fst (SetupPi.install_claude_code sh st) = Ret tt
  ∧ fst (SetupPi.install_python_sdk sh st) = Ret tt.
Proof.
  intros _. destruct st as [h l]. repeat split.
  - unfold SetupPi.update_system. exec. pi_runs. reflexivity.
  - unfold SetupPi.install_docker_compose. exec.
    destruct (bool_decide _); exec; pi_runs;
      try destruct (sh_rc _ =? 0); exec; pi_runs; reflexivity.
  - unfold SetupPi.install_node. exec.
    destruct (bool_decide _); exec; [|pi_runs; reflexivity].
    destruct (Py.int _) as [major|]; exec; [|pi_runs; reflexivity].
    destruct (18 <=? major); exec; pi_runs; reflexivity.
  - unfold SetupPi.install_claude_code. exec.
    destruct (bool_decide _); exec; pi_runs; destruct (bool_decide _); reflexivity.
  - unfold SetupPi.install_python_sdk. exec. pi_runs. reflexivity.
Qed.

(** X7 on the example host with a shell on which every command fails. *)
Lemma pi_steps_always_return_witness :
  decodable sh_fail
  ∧ sh_rc (sh_fail SetupPi.cmd_apt_update pi_host) ≠ 0
  ∧ fst (SetupPi.update_system sh_fail (start pi_host)) = Ret tt.
Proof.
  split; [exact sh_fail_decodable|]. split; [vm_compute; discriminate|].
  exact (proj1 (pi_steps_always_return sh_fail (start pi_host) sh_fail_decodable)).
Defined.

(** X8.  The sixth, [install_docker] of setup_raspberry_pi.py, checks its
    result.  With docker not on PATH it downloads and runs the installer;
    if docker is still not on PATH afterwards it reports the failure and
    ends with status 1 having run nothing else, otherwise it goes on to
    the group, the service and the version report. *)
Theorem pi_docker_is_verified sh h :
  "docker" ∉ path_cmds h →
  let h1 := sh_host (sh SetupPi.cmd_docker_download h) in
  let h2 := sh_host (sh SetupPi.cmd_docker_install h1) in
  let r := SetupPi.install_docker sh (start h) in
  ("docker" ∉ path_cmds h2 →
     fst r = Exit 1
     ∧ host (snd r) = h2
     ∧ shell_cmds (log (snd r)) = [SetupPi.cmd_docker_download; SetupPi.cmd_docker_install]
     ∧ pi_error_line "Docker installation failed. Check output above." ∈ printed (log (snd r)))
  ∧ ("docker" ∈ path_cmds h2 →
     fst r = Ret tt
     ∧ shell_cmds (log (snd r))
       = [SetupPi.cmd_docker_download; SetupPi.cmd_docker_install;
          SetupPi.cmd_usermod (user_of h2); SetupPi.cmd_docker_enable;
          SetupPi.cmd_docker_start; SetupPi.cmd_docker_version]).
Proof.
  intros Hout. cbv zeta. unfold SetupPi.install_docker, start, pi_error_line. exec.
  rewrite (bool_decide_eq_false_2 _ Hout). exec. pi_runs. split.
  - intros Hout2. rewrite (bool_decide_eq_false_2 _ Hout2). exec.
    split; [reflexivity|split; [reflexivity|split; [cmds; reflexivity|logged]]].
  - intros Hin2. rewrite (bool_decide_eq_true_2 _ Hin2). exec. pi_runs.
    split; [reflexivity|cmds; reflexivity].
Qed.

(** X8 on the example host, where the installer leaves PATH as it was. *)
Lemma pi_docker_is_verified_witness :
  ("docker" ∉ path_cmds pi_host)
  ∧ fst (SetupPi.install_docker sh_ok (start pi_host)) = Exit 1.
Proof.
  assert ("docker" ∉ path_cmds pi_host) as Hout by (vm_compute; discriminate).
  split; [exact Hout|].
  exact (proj1 (proj1 (pi_docker_is_verified sh_ok pi_host Hout) Hout)).
Defined.

(** ** The files of the workspace *)

Lemma effects_app l1 l2 : effects (l1 ++ l2) = effects l1 ++ effects l2.
Proof. apply List.filter_app. Qed.

Lemma effects_desc style desc : effects (desc_events style desc) = [].
Proof. destruct desc as [d|]; cbn; [destruct (Py.truthy d)|]; reflexivity. Qed.

Lemma effects_run_failure cmd desc out :
  effects (run_failure_events cmd desc out) = [EvShell cmd].
Proof.
  unfold run_failure_events, tail_events.
  rewrite !effects_app, effects_desc. destruct (Py.truthy out); reflexivity.
Qed.

Ltac effects_of_log :=
  repeat (rewrite ?effects_app, ?effects_desc, ?effects_run_failure;
          cbn [effects List.filter mutating app]);
  rewrite ?app_nil_r, <- ?app_assoc; cbn [app].

Lemma with_fs_with_fs t t' h : with_fs t (with_fs t' h) = with_fs t h.
Proof. reflexivity. Qed.

Section Workspace.

Variable sh : Shell.
Variable h : Host.

Ltac ws_step :=
  match goal with
  | |- context [with_fs _ (with_fs _ _)] => rewrite !with_fs_with_fs
  | E : fs h !! ?q = _ |- context [fs h !! ?q] => rewrite E
  | |- context [<[?k := ?v]> ?m !! ?k] => rewrite (lookup_insert_eq m k v)
  | |- context [<[workdir_of h := ?v]> ?m !! env_file_of h] =>
      rewrite (lookup_insert_ne m _ _ v (workdir_not_env h))
  | |- context [<[compose_file_of h := ?v]> ?m !! env_file_of h] =>
      rewrite (lookup_insert_ne m _ _ v (compose_not_env h))
  | |- context [<[workdir_of h := ?v]> ?m !! compose_file_of h] =>
      rewrite (lookup_insert_ne m _ _ v (workdir_not_compose h))
  | |- context [<[workdir_of h := ?v]> ?m !! launcher_file_of h] =>
      rewrite (lookup_insert_ne m _ _ v (workdir_not_launcher h))
  | |- context [<[compose_file_of h := ?v]> ?m !! launcher_file_of h] =>
      rewrite (lookup_insert_ne m _ _ v (compose_not_launcher h))
  | |- context [<[env_file_of h := ?v]> ?m !! launcher_file_of h] =>
      rewrite (lookup_insert_ne m _ _ v (env_not_launcher h))
  | |- context [bool_decide (is_Some ?o)] => rewrite (bool_decide_is_Some o)
  | |- context [match fs h !! ?q with _ => _ end] =>
      let E := fresh "E" in destruct (fs h !! q) as [[?|]|] eqn:E
  | |- context [if Py.contains Run.placeholder ?c then _ else _] =>
      let E := fresh "E" in destruct (Py.contains Run.placeholder c) eqn:E
  end; exec.

Lemma scaffold_runs l :
  scaffold_clear h →
  let r := Run.scaffold sh (mkState h l) in
  let last := sh (chown_of h) (scaffolded h) in
  fst r = (if sh_rc last =? 0 then Ret (workspace_of h) else Exit 1)
  ∧ host (snd r) = sh_host last
  ∧ effects (log (snd r))
    = effects l
      ++ [EvMakedirs (workdir_of h); EvWrite (compose_file_of h) Run.compose_yml]
      ++ (if env_is_fresh h then [EvWrite (env_file_of h) Run.default_env] else [])
      ++ [EvWrite (launcher_file_of h) Run.launcher_sh;
          EvChmod (launcher_file_of h) 493;
          EvShell (chown_of h)].
Proof.
  intros (_ & Hreach & Henv & Hlauncher). cbv zeta.
  unfold scaffolded, scaffolded_fs, chown_of, env_is_fresh.
  unfold reaches_env in Hreach.
  unfold Run.scaffold. exec.
  fold (user_of h). fold (home_of h). fold (workspace_of h).
  fold (workdir_of h) (compose_file_of h) (launcher_file_of h). unfold Run.env_path.
  fold (Run.env_path (workspace_of h)). fold (env_file_of h).
  destruct (fs h !! workdir_of h) as [[?|]|] eqn:Ew; [discriminate Hreach| |].
  all: destruct (fs h !! compose_file_of h) as [[?|]|] eqn:Ec; try discriminate Hreach.
  all: destruct (fs h !! launcher_file_of h) as [[?|]|] eqn:El; try contradiction.
  all: destruct (fs h !! env_file_of h) as [[old|]|] eqn:Ee; try contradiction.
  all: exec; repeat ws_step.
  all: rewrite ?Run_run_checked; cbn zeta; cbn [host log]; fold (user_of h);
       match goal with
       | |- context [sh_rc (?s ?c ?x) =? 0] => destruct (sh_rc (s c x) =? 0)
       end; exec.
  all: split; [reflexivity|split; [reflexivity|effects_of_log; reflexivity]].
Qed.

(** The four paths, pairwise different, for [congruence]. *)
Lemma workspace_paths_differ :
  workdir_of h ≠ compose_file_of h ∧ workdir_of h ≠ env_file_of h
  ∧ workdir_of h ≠ launcher_file_of h ∧ compose_file_of h ≠ env_file_of h
  ∧ compose_file_of h ≠ launcher_file_of h ∧ env_file_of h ≠ launcher_file_of h.
Proof.
  repeat split; intros H; apply path_join_inj in H; discriminate.
Qed.

Ltac lookups :=
  repeat (rewrite lookup_insert; case_decide); subst;
  try reflexivity; try congruence.

Lemma scaffolded_fs_lookup q :
  scaffolded_fs h !! q
    = if decide (q = launcher_file_of h) then Some (File Run.launcher_sh)
      else if decide (q = env_file_of h)
           then (if env_is_fresh h then Some (File Run.default_env) else fs h !! q)
           else if decide (q = compose_file_of h) then Some (File Run.compose_yml)
                else if decide (q = workdir_of h) then Some Dir
                     else fs h !! q.
Proof.
  destruct workspace_paths_differ as (H1 & H2 & H3 & H4 & H5 & H6).
  unfold scaffolded_fs. destruct (env_is_fresh h); repeat case_decide; subst; lookups.
Qed.

End Workspace.

Lemma scaffolded_paths h :
  env_file_of (scaffolded h) = env_file_of h
  ∧ workdir_of (scaffolded h) = workdir_of h
  ∧ compose_file_of (scaffolded h) = compose_file_of h
  ∧ launcher_file_of (scaffolded h) = launcher_file_of h
  ∧ chown_of (scaffolded h) = chown_of h.
Proof. repeat split; reflexivity. Qed.

Lemma placeholder_in_default_env : Py.contains Run.placeholder Run.default_env = true.
Proof. vm_compute. reflexivity. Qed.

Lemma scaffolded_fresh h :
  fs h !! env_file_of h ≠ Some Dir → env_is_fresh (scaffolded h) = env_is_fresh h.
Proof.
  intros Henv. unfold env_is_fresh at 1.
  change (fs (scaffolded h)) with (scaffolded_fs h).
  change (env_file_of (scaffolded h)) with (env_file_of h).
  rewrite scaffolded_fs_lookup.
  destruct (workspace_paths_differ h) as (H1 & H2 & H3 & H4 & H5 & H6).
  repeat case_decide; try congruence.
  unfold env_is_fresh. destruct (fs h !! env_file_of h) as [[old|]|] eqn:E; try congruence.
  - destruct (Py.contains Run.placeholder old) eqn:Ec; [apply placeholder_in_default_env|].
    exact Ec.
  - apply placeholder_in_default_env.
Qed.

(** The files of the workspace folder do not lie above the working
    directory. *)
Lemma prefix_app a s t : String.prefix (a +:+ s) (a +:+ t) = String.prefix s t.
Proof.
  induction a as [|x a IH]; [reflexivity|].
  change (String.prefix (String x (a +:+ s)) (String x (a +:+ t)) = String.prefix s t).
  cbn [String.prefix]. destruct (ascii_dec x x); [exact IH|contradiction].
Qed.

Lemma lies_above_join base x y :
  lies_above (Py.path_join base x) (Py.path_join base y) = String.prefix (x +:+ "/") y.
Proof.
  unfold lies_above, Py.path_join.
  destruct (negb (Py.truthy base) || Py.endswith_slash base).
  - rewrite <- sapp_assoc. apply prefix_app.
  - rewrite <- !sapp_assoc. rewrite prefix_app. apply (prefix_app "/").
Qed.

Lemma scaffolded_way_clear h : way_clear h → way_clear (scaffolded h).
Proof.
  intros Hway q c. change (fs (scaffolded h)) with (scaffolded_fs h).
  unfold way_clear, clear_above in *.
  change (workdir_of (scaffolded h)) with (workdir_of h).
  rewrite scaffolded_fs_lookup.
  unfold launcher_file_of, env_file_of, compose_file_of, workdir_of, Run.env_path.
  repeat case_decide; subst; try discriminate.
  - intros _. apply lies_above_join.
  - destruct (env_is_fresh h); [|apply Hway].
    intros _. apply lies_above_join.
  - intros _. apply lies_above_join.
  - apply Hway.
Qed.

Lemma scaffolded_clear h : scaffold_clear h → scaffold_clear (scaffolded h).
Proof.
  intros (Hway & Hreach & Henv & Hlauncher).
  destruct (workspace_paths_differ h) as (H1 & H2 & H3 & H4 & H5 & H6).
  split; [exact (scaffolded_way_clear h Hway)|].
  unfold reaches_env.
  change (fs (scaffolded h)) with (scaffolded_fs h).
  change (env_file_of (scaffolded h)) with (env_file_of h).
  change (workdir_of (scaffolded h)) with (workdir_of h).
  change (compose_file_of (scaffolded h)) with (compose_file_of h).
  change (launcher_file_of (scaffolded h)) with (launcher_file_of h).
  rewrite !scaffolded_fs_lookup. repeat case_decide; try congruence.
  split; [reflexivity|]. split; [|discriminate].
  destruct (env_is_fresh h); [discriminate|exact Henv].
Qed.

Lemma scaffolded_twice h :
  fs h !! env_file_of h ≠ Some Dir → scaffolded (scaffolded h) = scaffolded h.
Proof.
  intros Henv.
  assert (scaffolded_fs (scaffolded h) = scaffolded_fs h) as Hfs.
  { apply map_eq. intros q. rewrite scaffolded_fs_lookup.
    rewrite (scaffolded_fresh h Henv).
    change (fs (scaffolded h)) with (scaffolded_fs h).
    change (env_file_of (scaffolded h)) with (env_file_of h).
    change (workdir_of (scaffolded h)) with (workdir_of h).
    change (compose_file_of (scaffolded h)) with (compose_file_of h).
    change (launcher_file_of (scaffolded h)) with (launcher_file_of h).
    rewrite !scaffolded_fs_lookup.
    repeat case_decide; subst; try congruence; destruct (env_is_fresh h); reflexivity. }
  unfold scaffolded at 1. rewrite Hfs.
  change (launcher_file_of (scaffolded h)) with (launcher_file_of h).
  change (modes (scaffolded h)) with (<[launcher_file_of h:=493]> (modes h)).
  rewrite insert_insert_eq. reflexivity.
Qed.

(** X9.  The file tree [scaffold] of run.py leaves, when nothing is in its
    way and the chown leaves the files alone: the working directory, the
    compose file and the launcher with their fixed contents, the
    environment file with the default content if it was missing or held
    the placeholder and as it was otherwise.  Of the other paths, those
    that do not lie above the working directory are as they were; the
    directories above it are made when they are missing, and nothing is
    said of them. *)
Theorem scaffold_file_tree sh h :
  scaffold_clear h →
  (∀ h', fs (sh_host (sh (chown_of h) h')) = fs h') →
  let tree := fs (host (snd (Run.scaffold sh (start h)))) in
  tree !! workdir_of h = Some Dir
  ∧ tree !! compose_file_of h = Some (File Run.compose_yml)
  ∧ tree !! launcher_file_of h = Some (File Run.launcher_sh)
  ∧ tree !! env_file_of h
    = (if env_is_fresh h then Some (File Run.default_env) else fs h !! env_file_of h)
  ∧ (∀ q, q ∉ [workdir_of h; compose_file_of h; launcher_file_of h; env_file_of h] →
          lies_above q (workdir_of h) = false →
          tree !! q = fs h !! q).
Proof.
  intros Hclear Hchown. cbv zeta. unfold start.
  destruct (scaffold_runs sh h [] Hclear) as (_ & -> & _).
  rewrite Hchown. change (fs (scaffolded h)) with (scaffolded_fs h).
  destruct (workspace_paths_differ h) as (H1 & H2 & H3 & H4 & H5 & H6).
  repeat split; try (rewrite scaffolded_fs_lookup; repeat case_decide; congruence).
  intros q Hq _. rewrite scaffolded_fs_lookup.
  repeat case_decide; subst; try reflexivity; exfalso; apply Hq;
    repeat first [apply list_elem_of_here | apply list_elem_of_further].
Qed.

(** X10.  [scaffold] is idempotent: where nothing is in its way and the
    chown succeeds, prints text and changes nothing of the host, a second
    run returns the same folder and leaves the host the first run left. *)
Theorem scaffold_twice_is_scaffold_once sh h :
  scaffold_clear h →
  (∀ h', sh_rc (sh (chown_of h) h') = 0
         ∧ sh_host (sh (chown_of h) h') = h'
         ∧ Py.is_text (sh_merged (sh (chown_of h) h')) = true) →
  let first := Run.scaffold sh (start h) in
  let second := Run.scaffold sh (start (host (snd first))) in
  fst first = Ret (workspace_of h)
  ∧ fst second = Ret (workspace_of h)
  ∧ host (snd second) = host (snd first).
Proof.
  intros Hclear Hchown. cbv zeta. unfold start.
  destruct (scaffold_runs sh h [] Hclear) as (Hout & Hhost & _). cbv zeta in *.
  destruct (Hchown (scaffolded h)) as (Hrc & Hsame & _).
  rewrite Hrc in Hout. rewrite Hsame in Hhost. rewrite Hhost.
  split; [exact Hout|].
  destruct (scaffold_runs sh (scaffolded h) [] (scaffolded_clear h Hclear)) as (Hout2 & Hhost2 & _).
  cbv zeta in *.
  change (chown_of (scaffolded h)) with (chown_of h) in *.
  rewrite (scaffolded_twice h (proj1 (proj2 (proj2 Hclear)))) in Hout2, Hhost2.
  rewrite Hrc in Hout2. rewrite Hsame in Hhost2.
  split; [exact Hout2|exact Hhost2].
Qed.

(** X11.  What [scaffold] does, in order, when nothing is in its way: it
    makes the working directory, writes the compose file, writes the
    environment file if it is fresh, writes the launcher, makes it
    executable (mode 0o755) and hands the folder to the user.  The chown
    is a required step: where its output is text, the folder is returned
    when it succeeds, and the run ends with status 1 when it fails. *)
Theorem scaffold_effects sh h :
  scaffold_clear h →
  Py.is_text (sh_merged (sh (chown_of h) (scaffolded h))) = true →
  let r := Run.scaffold sh (start h) in
  fst r = (if sh_rc (sh (chown_of h) (scaffolded h)) =? 0
           then Ret (workspace_of h) else Exit 1)
  ∧ effects (log (snd r))
    = [EvMakedirs (workdir_of h); EvWrite (compose_file_of h) Run.compose_yml]
      ++ (if env_is_fresh h then [EvWrite (env_file_of h) Run.default_env] else [])
      ++ [EvWrite (launcher_file_of h) Run.launcher_sh;
          EvChmod (launcher_file_of h) 493;
          EvShell (chown_of h)].
Proof.
  intros Hclear _. cbv zeta. unfold start.
  destruct (scaffold_runs sh h [] Hclear) as (Hout & _ & Heff). cbv zeta in *.
  split; [exact Hout|].
  rewrite Heff. reflexivity.
Qed.

(** ** Storing the key *)

Lemma Run_ask_key_with_key h l base line rest :
  stdin h = line :: rest →
  Py.strip line ≠ EmptyString →
  fs h !! Run.env_path base ≠ Some Dir →
  fs h !! bashrc_of h ≠ Some Dir →
  Py.contains Run.key_name (profile_text h) = false →
  let key := Py.strip line in
  let r := Run.ask_key base (mkState h l) in
  fst r = Ret tt
  ∧ host (snd r)
    = with_fs (<[ bashrc_of h := File (profile_text h +:+ Run.export_lines key) ]>
                 (<[ Run.env_path base := File (Run.env_line key) ]> (fs h)))
              (with_stdin rest h)
  ∧ effects (log (snd r))
    = effects l ++ [EvWrite (Run.env_path base) (Run.env_line key);
                    EvAppend (bashrc_of h) (Run.export_lines key)].
Proof.
  intros Hin Hkey Henv Hrc Hnew. cbv zeta. unfold profile_text in *.
  unfold Run.ask_key. exec. rewrite Hin. exec.
  destruct (Py.strip line) as [|c key] eqn:Ekey; [contradiction|]. cbn [Py.truthy]. exec.
  destruct (fs h !! Run.env_path base) as [[old|]|] eqn:Ee; [|contradiction|]; exec.
  all: fold (user_of h); fold (home_of h); fold (bashrc_of h).
  all: destruct (fs h !! bashrc_of h) as [[prof|]|] eqn:Eb; [|contradiction|].
  all: repeat (rewrite ?with_fs_with_fs;
               rewrite !(lookup_insert_ne _ (Run.env_path base) (bashrc_of h))
                 by apply env_path_not_bashrc;
               rewrite ?Eb; exec; unfold Py.empty; rewrite ?Hnew; exec).
  all: rewrite ?with_fs_with_fs; split; [reflexivity|split; [reflexivity|]].
  all: effects_of_log; reflexivity.
Qed.

(** X12.  A key typed at the prompt of run.py, where the folder and the
    home directory exist and the profile does not mention the variable yet:
    [ask_key] returns, the line is consumed, the environment file holds the
    one assignment of the stripped key, the export lines are added at the
    end of the profile, and no other file changes.  The key is what
    [strip] leaves of the line: the line without the white space, of
    whatever script, at its ends. *)
Theorem ask_key_stores_the_key h base line rest :
  stdin h = line :: rest →
  Py.strip line ≠ EmptyString →
  fs h !! base = Some Dir →
  fs h !! Run.env_path base ≠ Some Dir →
  fs h !! home_of h = Some Dir →
  fs h !! bashrc_of h ≠ Some Dir →
  Py.contains Run.key_name (profile_text h) = false →
  let key := Py.strip line in
  let r := Run.ask_key base (start h) in
  let tree := fs (host (snd r)) in
  fst r = Ret tt
  ∧ stdin (host (snd r)) = rest
  ∧ tree !! Run.env_path base = Some (File (Run.env_line key))
  ∧ tree !! bashrc_of h = Some (File (profile_text h +:+ Run.export_lines key))
  ∧ (∀ q, q ≠ Run.env_path base → q ≠ bashrc_of h → tree !! q = fs h !! q)
  ∧ effects (log (snd r))
    = [EvWrite (Run.env_path base) (Run.env_line key);
       EvAppend (bashrc_of h) (Run.export_lines key)].
Proof.
  intros Hin Hkey _ Henv _ Hrc Hnew. cbv zeta. unfold start.
  destruct (Run_ask_key_with_key h [] base line rest Hin Hkey Henv Hrc Hnew)
    as (Hout & Hhost & Heff).
  cbv zeta in *. rewrite Hhost. cbn [fs stdin with_fs with_stdin].
  split; [exact Hout|]. split; [reflexivity|].
  split.
  { rewrite lookup_insert_ne
      by (intros E; exact (env_path_not_bashrc _ _ (eq_sym E))).
    apply lookup_insert_eq. }
  split; [apply lookup_insert_eq|].
  split; [|exact Heff].
  intros q Hq1 Hq2. rewrite !lookup_insert_ne by congruence. reflexivity.
Qed.

(** The name of the key is one the environment takes; the value is
    refused when it has a NUL in it. *)
Lemma putenv_key value :
  putenv_refuses SetupPi.key_name value = Py.contains (String Py.nul EmptyString) value.
Proof. reflexivity. Qed.

(** X13.  A key typed at the prompt of setup_raspberry_pi.py, where the
    home directory exists and the profile does not mention the variable
    yet.  The export lines with the stripped key are added at the end of
    the profile; then the key is set in the environment of the process
    and [configure_api_key] returns, nothing else of the host having
    changed.  A key with a NUL in it is refused by the environment: the
    lines are in the profile, and the step ends with [ValueError]. *)
Theorem configure_api_key_stores_the_key h line rest :
  stdin h = line :: rest →
  Py.strip line ≠ EmptyString →
  fs h !! home_of h = Some Dir →
  fs h !! bashrc_of h ≠ Some Dir →
  Py.contains SetupPi.key_name (profile_text h) = false →
  let key := Py.strip line in
  let r := SetupPi.configure_api_key (start h) in
  let appended :=
    with_fs (<[ bashrc_of h := File (profile_text h +:+ SetupPi.export_lines key) ]> (fs h))
            (with_stdin rest h) in
  if Py.contains (String Py.nul EmptyString) key
  then fst r = Raise ValueError
       ∧ host (snd r) = appended
       ∧ effects (log (snd r)) = [EvAppend (bashrc_of h) (SetupPi.export_lines key)]
  else fst r = Ret tt
       ∧ host (snd r) = with_environ (<[ SetupPi.key_name := key ]> (environ h)) appended
       ∧ effects (log (snd r))
         = [EvAppend (bashrc_of h) (SetupPi.export_lines key);
            EvSetenv SetupPi.key_name key].
Proof.
  intros Hin Hkey _ Hrc Hnew. cbv zeta. unfold profile_text in *.
  rewrite <- putenv_key.
  remember (Py.strip line) as key eqn:Ekey.
  unfold SetupPi.configure_api_key, start. exec.
  fold (user_of h). fold (home_of h). fold (bashrc_of h).
  destruct (fs h !! bashrc_of h) as [[prof|]|] eqn:Eb; [|contradiction|]; exec.
  all: unfold Py.empty; rewrite ?Hnew; exec; rewrite Hin; exec.
  all: rewrite <- Ekey; destruct key as [|c key]; [contradiction|]; cbn [Py.truthy]; exec.
  all: rewrite ?Eb; exec.
  all: destruct (putenv_refuses SetupPi.key_name (String c key)); exec.
  all: split; [reflexivity|split; reflexivity].
Qed.

(** ** The prompts at the end of input *)

(** X14.  At the end of input neither script guards its prompt: [ask_key]
    of run.py raises EOFError, and so does [configure_api_key] of
    setup_raspberry_pi.py unless the profile already mentions the
    variable; nothing has been written by then. *)
Theorem prompt_without_input_raises h base :
  stdin h = [] →
  (fst (Run.ask_key base (start h)) = Raise EOFError
   ∧ host (snd (Run.ask_key base (start h))) = h
   ∧ effects (log (snd (Run.ask_key base (start h)))) = [])
  ∧ (fs h !! bashrc_of h ≠ Some Dir →
     Py.contains SetupPi.key_name (profile_text h) = false →
     fst (SetupPi.configure_api_key (start h)) = Raise EOFError
     ∧ host (snd (SetupPi.configure_api_key (start h))) = h
     ∧ effects (log (snd (SetupPi.configure_api_key (start h)))) = []).
Proof.
  intros Hin. split.
  - unfold Run.ask_key, start. exec. rewrite Hin. exec.
    split; [reflexivity|split; [destruct h; reflexivity|reflexivity]].
  - intros Hrc Hnew. unfold profile_text in Hnew.
    unfold SetupPi.configure_api_key, start. exec.
    fold (user_of h). fold (home_of h). fold (bashrc_of h).
    destruct (fs h !! bashrc_of h) as [[prof|]|] eqn:Eb; [|contradiction|]; exec.
    all: unfold Py.empty; rewrite ?Hnew; exec; rewrite Hin; exec.
    all: split; [reflexivity|split; [destruct h; reflexivity|reflexivity]].
Qed.

(** X14 on the example host with nothing on stdin. *)
Lemma prompt_without_input_raises_witness :
  stdin (with_stdin [] pi_host) = []
  ∧ fst (Run.ask_key "/home/alice/claude-workspace" (start (with_stdin [] pi_host)))
    = Raise EOFError.
Proof.
  split; [reflexivity|].
  exact (proj1 (proj1 (prompt_without_input_raises (with_stdin [] pi_host)
                         "/home/alice/claude-workspace" eq_refl))).
Defined.

(** ** The word that starts the workflow *)

Lemma lower_char_is (x : ascii) :
  x ∈ ["s"; "e"; "t"; "u"; "p"]%char →
  ∀ c, Ascii.eqb (Py.lower_char c) x = Ascii.eqb c x || Ascii.eqb c (upper_of x).
Proof.
  intros Hx c.
  repeat (apply elem_of_cons in Hx as [->|Hx]);
    [destruct c as [[] [] [] [] [] [] [] []]; reflexivity ..|].
  by apply elem_of_nil in Hx.
Qed.

Lemma lower_is_setup a : String.eqb (Py.lower a) "setup" = any_case "setup" a.
Proof.
  destruct a as [|c1 [|c2 [|c3 [|c4 [|c5 [|c6 a]]]]]];
    cbn [Py.lower String.eqb any_case]; try reflexivity.
  all: rewrite <- ?lower_char_is
         by (repeat first [apply list_elem_of_here | apply list_elem_of_further]).
  all: repeat match goal with
         | |- context [Ascii.eqb (Py.lower_char ?c) ?x] =>
             destruct (Ascii.eqb (Py.lower_char c) x)
         end; reflexivity.
Qed.

(** X15.  run.py starts the workflow exactly when its first argument spells
    setup with each letter in either case; further arguments are ignored,
    and anything else prints the usage text. *)
Theorem setup_in_any_case sh argv st :
  Run.main sh argv st
    = if match argv !! 1%nat with
         | Some a => any_case "setup" a
         | None => false
         end
      then Run.setup sh st
      else (Ret tt, mkState (host st) (log st ++ [EvPrint Run.usage_text])).
Proof.
  unfold Run.main, Run.action.
  destruct (argv !! 1%nat) as [a|].
  - rewrite lower_is_setup. destruct (any_case "setup" a); [reflexivity|].
    destruct st. reflexivity.
  - destruct st. reflexivity.
Qed.

(** ** Reading the major version *)

Lemma scons_app c a b : String c a +:+ b = String c (a +:+ b).
Proof. reflexivity. Qed.

Lemma digit_pretty_char m :
  (m < 10)%N → Py.digit (pretty_N_char m) = Some (Z.of_N m).
Proof.
  intros Hm.
  assert (m = 0 ∨ m = 1 ∨ m = 2 ∨ m = 3 ∨ m = 4 ∨ m = 5 ∨ m = 6 ∨ m = 7 ∨ m = 8 ∨ m = 9)%N
    as H by lia.
  repeat (destruct H as [->|H]; [reflexivity|]). subst m. reflexivity.
Qed.

Lemma pretty_go_length x s : (String.length s ≤ String.length (pretty_N_go x s))%nat.
Proof.
  revert s. induction (N.lt_wf_0 x) as [x _ IH]. intros s.
  destruct (decide (x = 0)%N) as [->|Hx]; [rewrite pretty_N_go_0; lia|].
  rewrite pretty_N_go_step by lia.
  etrans; [|apply IH; apply N.div_lt; lia]. cbn [String.length]. lia.
Qed.

(** [int] reads the digits [pretty] writes, whatever follows them, and
    counts them. *)
Lemma digits_pretty_go x :
  (0 < x)%N →
  ∀ acc count prev s,
    ∃ k, Py.digits acc count prev (pretty_N_go x s)
         = Py.digits (acc * k + Z.of_N x)
             (count + (String.length (pretty_N_go x s) - String.length s)) true s.
Proof.
  induction (N.lt_wf_0 x) as [x _ IH]. intros Hx acc count prev s.
  rewrite pretty_N_go_step by exact Hx.
  assert (x `mod` 10 < 10)%N as Hm by (apply N.mod_lt; lia).
  pose proof (N.div_mod x 10 ltac:(lia)) as Hdm.
  destruct (decide (x `div` 10 = 0)%N) as [E|E].
  - rewrite E, pretty_N_go_0. cbn [Py.digits String.length].
    rewrite (digit_pretty_char _ Hm).
    exists 10. f_equal; lia.
  - destruct (IH (x `div` 10)%N) with (acc := acc) (count := count) (prev := prev)
      (s := String (pretty_N_char (x `mod` 10)) s) as [k Hk].
    + apply N.div_lt; lia.
    + lia.
    + rewrite Hk. cbn [Py.digits]. rewrite (digit_pretty_char _ Hm).
      pose proof (pretty_go_length (x `div` 10) (String (pretty_N_char (x `mod` 10)) s))
        as Hlen.
      cbn [String.length] in *.
      exists (10 * k). f_equal; lia.
Qed.

Lemma all_digits_pretty_go x s :
  all_digits s = true → all_digits (pretty_N_go x s) = true.
Proof.
  revert s. induction (N.lt_wf_0 x) as [x _ IH]. intros s Hs.
  destruct (decide (x = 0)%N) as [->|Hx]; [rewrite pretty_N_go_0; exact Hs|].
  rewrite pretty_N_go_step by lia. apply IH; [apply N.div_lt; lia|].
  cbn [all_digits]. rewrite Hs, andb_true_r. apply bool_decide_eq_true_2.
  rewrite digit_pretty_char by (apply N.mod_lt; lia). eauto.
Qed.

Lemma pretty_go_not_empty x s : (0 < x)%N → pretty_N_go x s ≠ EmptyString.
Proof.
  revert s. induction (N.lt_wf_0 x) as [x _ IH]. intros s Hx.
  rewrite pretty_N_go_step by exact Hx.
  destruct (decide (x `div` 10 = 0)%N) as [E|E].
  - rewrite E, pretty_N_go_0. discriminate.
  - apply IH; [apply N.div_lt; lia|apply N.neq_0_lt_0; exact E].
Qed.

(** The notation of a natural number: digits, at least one, that [int]
    reads back when they are not too many. *)
Lemma str_of_int_numeral n :
  0 ≤ n →
  (String.length (Py.str_of_int n) ≤ Py.max_str_digits)%nat →
  all_digits (Py.str_of_int n) = true
  ∧ Py.str_of_int n ≠ EmptyString
  ∧ Py.digits 0 0 false (Py.str_of_int n) = Some n.
Proof.
  intros Hn. unfold Py.str_of_int, pretty, pretty_Z.
  destruct n as [|p|p]; [repeat split; discriminate| |lia].
  unfold pretty, pretty_positive, pretty, pretty_N.
  destruct (decide (N.pos p = 0)%N) as [E|_]; [discriminate E|].
  intros Hlen.
  split; [apply all_digits_pretty_go; reflexivity|].
  split; [apply pretty_go_not_empty; lia|].
  destruct (digits_pretty_go (N.pos p) ltac:(lia) 0 0%nat false EmptyString) as [k ->].
  cbn [Py.digits String.length andb Nat.add]. rewrite Nat.sub_0_r.
  apply Nat.leb_le in Hlen. rewrite Hlen. reflexivity.
Qed.

(** A character that starts with a plain byte is no white space, and
    neither is one that starts with a continuation byte. *)
Lemma isspace_plain_head b c : plain_byte b = true → Py.isspace (String b c) = false.
Proof.
  unfold plain_byte. intros H. apply andb_true_iff in H as [Hlow Hsp].
  apply negb_true_iff in Hsp. apply N.ltb_lt in Hlow.
  assert ((192 <=? N_of_ascii b)%N = false) as H2 by (apply N.leb_gt; lia).
  assert ((224 <=? N_of_ascii b)%N = false) as H3 by (apply N.leb_gt; lia).
  assert ((240 <=? N_of_ascii b)%N = false) as H4 by (apply N.leb_gt; lia).
  apply N.ltb_lt in Hlow.
  unfold Py.isspace, Py.ord.
  destruct c as [|b1 [|b2 [|b3 [|b4 c]]]]; rewrite ?Hlow, ?H2, ?H3, ?H4; cbn [andb];
    try reflexivity.
  exact Hsp.
Qed.

Lemma isspace_cont c : Py.starts_cont c = true → Py.isspace c = false.
Proof.
  destruct c as [|a c]; [discriminate|]. cbn [Py.starts_cont]. unfold Py.is_cont.
  intros H. apply andb_true_iff in H as [Hlo Hhi].
  apply N.leb_le in Hlo. apply N.ltb_lt in Hhi.
  assert ((N_of_ascii a <? 128)%N = false) as H1 by (apply N.ltb_ge; lia).
  assert ((192 <=? N_of_ascii a)%N = false) as H2 by (apply N.leb_gt; lia).
  assert ((224 <=? N_of_ascii a)%N = false) as H3 by (apply N.leb_gt; lia).
  assert ((240 <=? N_of_ascii a)%N = false) as H4 by (apply N.leb_gt; lia).
  unfold Py.isspace, Py.ord.
  destruct c as [|b1 [|b2 [|b3 [|b4 c]]]]; rewrite ?H1, ?H2, ?H3, ?H4; cbn [andb];
    reflexivity.
Qed.

Lemma chars_cons_shape b t : ∃ c cs, Py.chars (String b t) = String b c :: cs.
Proof.
  cbn [Py.chars]. destruct (Py.chars t) as [|c cs]; [by eexists; eexists|].
  destruct (Py.starts_cont c); by eexists; eexists.
Qed.

Lemma rstrip_list_cons c cs :
  Py.isspace c = false → Py.rstrip_list (c :: cs) = c :: Py.rstrip_list cs.
Proof.
  intros Hc. cbn [Py.rstrip_list]. rewrite Hc. destruct (Py.rstrip_list cs); reflexivity.
Qed.

(** Stripping at the right end goes past a plain byte. *)
Lemma rstrip_plain b t :
  plain_byte b = true →
  Py.join (Py.rstrip_list (Py.chars (String b t)))
  = String b (Py.join (Py.rstrip_list (Py.chars t))).
Proof.
  intros Hb. cbn [Py.chars]. destruct (Py.chars t) as [|c cs].
  - cbn [Py.rstrip_list]. rewrite (isspace_plain_head b _ Hb). reflexivity.
  - destruct (Py.starts_cont c) eqn:Ec.
    + rewrite rstrip_list_cons by (apply isspace_plain_head; exact Hb).
      rewrite rstrip_list_cons by (apply isspace_cont; exact Ec). reflexivity.
    + rewrite rstrip_list_cons by (apply isspace_plain_head; exact Hb). reflexivity.
Qed.

Lemma rstrip_plain_app p t :
  all_plain p = true →
  Py.join (Py.rstrip_list (Py.chars (p +:+ t)))
  = p +:+ Py.join (Py.rstrip_list (Py.chars t)).
Proof.
  induction p as [|b p IH]; [reflexivity|]. cbn [all_plain]. intros H.
  apply andb_true_iff in H as [Hb Hp]. rewrite !scons_app.
  rewrite (rstrip_plain _ _ Hb), (IH Hp). reflexivity.
Qed.

(** [strip] leaves a text that starts with plain bytes its start. *)
Lemma strip_plain_app p t :
  all_plain p = true → p ≠ EmptyString →
  Py.strip (p +:+ t) = p +:+ Py.join (Py.rstrip_list (Py.chars t)).
Proof.
  intros Hp Hne. unfold Py.strip.
  destruct p as [|b p]; [contradiction|].
  pose proof Hp as Hp'. cbn [all_plain] in Hp'. apply andb_true_iff in Hp' as [Hb _].
  rewrite scons_app at 1.
  destruct (chars_cons_shape b (p +:+ t)) as (c & cs & E).
  rewrite E. cbn [Py.lstrip_list]. rewrite (isspace_plain_head b c Hb).
  rewrite <- E, <- scons_app. apply rstrip_plain_app. exact Hp.
Qed.

Lemma all_plain_app a b : all_plain (a +:+ b) = all_plain a && all_plain b.
Proof.
  induction a as [|x a IH]; [reflexivity|].
  rewrite scons_app. cbn [all_plain]. rewrite IH. apply andb_assoc.
Qed.

(** A digit is plain, and none of the characters the parse looks for. *)
Lemma digit_char c :
  is_Some (Py.digit c) →
  plain_byte c = true ∧ Py.c_isspace c = false
  ∧ Ascii.eqb c "v" = false ∧ Ascii.eqb c "." = false
  ∧ c ≠ "+"%char ∧ c ≠ "-"%char.
Proof.
  destruct c as [[] [] [] [] [] [] [] []]; intros [d Hd]; try discriminate Hd;
    repeat split; discriminate.
Qed.

Lemma all_digits_cons c s :
  all_digits (String c s) = true → is_Some (Py.digit c) ∧ all_digits s = true.
Proof.
  cbn [all_digits]. intros H. apply andb_true_iff in H as [H1 H2].
  split; [exact (bool_decide_eq_true_1 _ H1)|exact H2].
Qed.

Lemma all_digits_plain ds : all_digits ds = true → all_plain ds = true.
Proof.
  induction ds as [|c ds IH]; [reflexivity|]. intros H.
  apply all_digits_cons in H as [Hc Hd]. apply digit_char in Hc as (Hp & _).
  cbn [all_plain]. rewrite Hp, (IH Hd). reflexivity.
Qed.

Lemma all_plain_v k : all_plain (Py.repeat "v" k) = true.
Proof. induction k as [|k IH]; [reflexivity|exact IH]. Qed.

(** Plain bytes are characters each, and ASCII as they are. *)
Lemma to_ascii_plain s : all_plain s = true → Py.to_ascii_list (Py.chars s) = Some s.
Proof.
  induction s as [|b t IH]; [reflexivity|]. cbn [all_plain]. intros H.
  apply andb_true_iff in H as [Hb Ht]. specialize (IH Ht).
  assert (Py.to_ascii (String b EmptyString) = Some b) as Hone.
  { unfold plain_byte in Hb. apply andb_true_iff in Hb as [Hlow _].
    unfold Py.to_ascii, Py.ord. rewrite Hlow. cbn. rewrite Hlow.
    rewrite ascii_N_embedding. reflexivity. }
  cbn [Py.chars]. destruct t as [|b' t'].
  - cbn [Py.chars Py.to_ascii_list]. rewrite Hone. reflexivity.
  - destruct (chars_cons_shape b' t') as (c & cs & E). rewrite E in *.
    assert (Py.starts_cont (String b' c) = false) as Hnc.
    { cbn [Py.starts_cont]. unfold Py.is_cont. cbn [all_plain] in Ht.
      apply andb_true_iff in Ht as [Hb' _]. unfold plain_byte in Hb'.
      apply andb_true_iff in Hb' as [Hlow' _]. apply N.ltb_lt in Hlow'.
      apply andb_false_iff. left. apply N.leb_gt. lia. }
    rewrite Hnc. change (Py.to_ascii_list (String b EmptyString :: String b' c :: cs))
      with (a ← Py.to_ascii (String b EmptyString);
            r ← Py.to_ascii_list (String b' c :: cs); Some (String a r)).
    rewrite Hone, IH. reflexivity.
Qed.

Lemma c_rstrip_aux_cons c s r :
  Py.c_rstrip_aux s = Some r → Py.c_rstrip_aux (String c s) = Some (String c r).
Proof. intros H. cbn [Py.c_rstrip_aux]. rewrite H. reflexivity. Qed.

Lemma c_rstrip_aux_digits ds :
  all_digits ds = true → ds ≠ EmptyString → Py.c_rstrip_aux ds = Some ds.
Proof.
  induction ds as [|c ds IH]; [contradiction|]. intros Hd _.
  apply all_digits_cons in Hd as [Hc Hd]. apply digit_char in Hc as (_ & Hs & _).
  destruct ds as [|c' ds'].
  - cbn [Py.c_rstrip_aux]. rewrite Hs. reflexivity.
  - apply c_rstrip_aux_cons. apply IH; [exact Hd|discriminate].
Qed.

Lemma split_head_digits ds r :
  all_digits ds = true → Py.split_head "." (ds +:+ "." +:+ r) = ds.
Proof.
  induction ds as [|c ds IH]; [reflexivity|]. intros Hd.
  apply all_digits_cons in Hd as [Hc Hd]. apply digit_char in Hc as (_ & _ & _ & Hdot & _).
  rewrite scons_app. cbn [Py.split_head]. rewrite Hdot, (IH Hd). reflexivity.
Qed.

Lemma int_digits ds :
  all_digits ds = true → ds ≠ EmptyString → Py.int ds = Py.digits 0 0 false ds.
Proof.
  intros Hd Hne. unfold Py.int.
  rewrite (to_ascii_plain _ (all_digits_plain _ Hd)). cbn [mbind option_bind].
  unfold Py.c_strip.
  destruct ds as [|c ds]; [contradiction|].
  pose proof Hd as Hd'. apply all_digits_cons in Hd' as [Hc _].
  apply digit_char in Hc as (_ & Hs & _ & _ & Hplus & Hminus).
  cbn [Py.c_lstrip]. rewrite Hs. rewrite (c_rstrip_aux_digits _ Hd Hne).
  cbn [default from_option id].
  destruct c as [[] [] [] [] [] [] [] []]; try reflexivity; congruence.
Qed.

Lemma parse_major_numeral k ds rest :
  all_digits ds = true → ds ≠ EmptyString →
  parse_major (Py.repeat "v" k +:+ ds +:+ "." +:+ rest) = Py.digits 0 0 false ds.
Proof.
  intros Hd Hne. unfold parse_major.
  set (r := Py.join (Py.rstrip_list (Py.chars rest))).
  assert (Py.strip (Py.repeat "v" k +:+ ds +:+ "." +:+ rest)
          = Py.repeat "v" k +:+ ds +:+ "." +:+ r) as ->.
  { rewrite !(sapp_assoc _ _ rest), !(sapp_assoc _ _ r).
    apply strip_plain_app.
    - rewrite !all_plain_app, all_plain_v, (all_digits_plain _ Hd). reflexivity.
    - destruct k; [|discriminate]. destruct ds; [contradiction|discriminate]. }
  assert (Py.lstrip_char "v" (Py.repeat "v" k +:+ ds +:+ "." +:+ r) = ds +:+ "." +:+ r) as ->.
  { induction k as [|k IH].
    - destruct ds as [|c ds]; [contradiction|].
      apply all_digits_cons in Hd as [Hc _]. apply digit_char in Hc as (_ & _ & Hv & _).
      cbn [Py.repeat]. change (EmptyString +:+ ?x) with x. rewrite scons_app.
      cbn [Py.lstrip_char]. rewrite Hv. reflexivity.
    - exact IH. }
  rewrite (split_head_digits _ _ Hd). apply int_digits; assumption.
Qed.

(** X16.  The major version the scripts read off the output of the version
    query: for a natural number [n] of at most 4300 digits, the text made
    of any number of leading letters v, the decimal notation of [n], a dot
    and anything after it yields [n]; [node_major] of run.py returns [n]
    when the query prints such a text. *)
Theorem major_version_is_read k n rest :
  0 ≤ n →
  (String.length (Py.str_of_int n) ≤ Py.max_str_digits)%nat →
  let text := Py.repeat "v" k +:+ Py.str_of_int n +:+ "." +:+ rest in
  parse_major text = Some n
  ∧ ∀ sh st, sh_stdout (sh Run.cmd_node_version (host st)) = text →
             fst (Run.node_major sh st) = Ret n.
Proof.
  intros Hn Hlen. cbv zeta. destruct (str_of_int_numeral n Hn Hlen) as (Hd & Hne & Hval).
  assert (parse_major (Py.repeat "v" k +:+ Py.str_of_int n +:+ "." +:+ rest) = Some n)
    as Hparse by (rewrite parse_major_numeral by assumption; exact Hval).
  split; [exact Hparse|].
  intros sh st Hout. rewrite Run_node_major_eq. cbv zeta. cbn [fst].
  rewrite Hout, Hparse. reflexivity.
Qed.

(** X16 on the output of a current release. *)
Lemma major_version_is_read_witness :
  (0 ≤ 20 ∧ (String.length (Py.str_of_int 20) ≤ Py.max_str_digits)%nat)
  ∧ parse_major ("v20.11.1" +:+ Py.nl) = Some 20.
Proof.
  split; [split; [lia|vm_compute; lia]|].
  exact (proj1 (major_version_is_read 1 20 ("11.1" +:+ Py.nl) ltac:(lia)
                  ltac:(vm_compute; lia))).
Defined.

(** ** setup_raspberry_pi.py reports completion whatever failed *)

Section Lenient.

Variable sh : Shell.

(** The commands leave the host as it is: nothing gets installed. *)
Hypothesis commands_change_nothing : ∀ cmd h, sh_host (sh cmd h) = h.

Ltac steady_runs :=
  repeat (rewrite SetupPi_run_eq; cbn zeta; cbn [host log fst snd];
          rewrite ?commands_change_nothing; exec).

Lemma steady_update_system : steady (SetupPi.update_system sh).
Proof.
  intros [h l]. unfold SetupPi.update_system. exec. steady_runs. split; reflexivity.
Qed.

Lemma steady_install_docker st :
  "docker" ∈ path_cmds (host st) →
  fst (SetupPi.install_docker sh st) = Ret tt
  ∧ host (snd (SetupPi.install_docker sh st)) = host st.
Proof.
  destruct st as [h l]. cbn [host]. intros Hin. unfold SetupPi.install_docker. exec.
  rewrite (bool_decide_eq_true_2 _ Hin). exec. steady_runs. split; reflexivity.
Qed.

Lemma steady_install_docker_compose : steady (SetupPi.install_docker_compose sh).
Proof.
  intros [h l]. unfold SetupPi.install_docker_compose. exec.
  destruct (bool_decide _); exec; steady_runs;
    try destruct (sh_rc _ =? 0); exec; steady_runs; split; reflexivity.
Qed.

Lemma steady_install_node : steady (SetupPi.install_node sh).
Proof.
  intros [h l]. unfold SetupPi.install_node. exec.
  destruct (bool_decide _); exec; [|steady_runs; split; reflexivity].
  rewrite ?commands_change_nothing.
  destruct (Py.int _) as [major|]; exec; [|steady_runs; split; reflexivity].
  destruct (18 <=? major); exec; steady_runs; split; reflexivity.
Qed.

Lemma steady_install_claude_code : steady (SetupPi.install_claude_code sh).
Proof.
  intros [h l]. unfold SetupPi.install_claude_code. exec.
  destruct (bool_decide _); exec; steady_runs; destruct (bool_decide _); split; reflexivity.
Qed.

Lemma steady_install_python_sdk : steady (SetupPi.install_python_sdk sh).
Proof.
  intros [h l]. unfold SetupPi.install_python_sdk. exec. steady_runs. split; reflexivity.
Qed.

Lemma bind_steady {B} (m : M unit) (k : unit → M B) st :
  fst (m st) = Ret tt → bind m k st = k tt (snd (m st)).
Proof. unfold bind. destruct (m st) as [o st']. cbn. intros ->. reflexivity. Qed.

Lemma configure_api_key_returns st line rest :
  stdin (host st) = line :: rest →
  Py.contains (String Py.nul EmptyString) (Py.strip line) = false →
  fs (host st) !! bashrc_of (host st) ≠ Some Dir →
  let r := SetupPi.configure_api_key st in
  fst r = Ret tt
  ∧ user_of (host (snd r)) = user_of (host st)
  ∧ ∃ l, log (snd r) = log st ++ l.
Proof.
  destruct st as [h l]. cbn [host log]. intros Hin Hnul Hrc. cbv zeta.
  unfold SetupPi.configure_api_key. exec.
  fold (user_of h). fold (home_of h). fold (bashrc_of h).
  destruct (fs h !! bashrc_of h) as [[prof|]|] eqn:Eb; [|contradiction|]; exec.
  1: destruct (Py.contains SetupPi.key_name prof); exec.
  1: split; [reflexivity|split; [reflexivity|eexists; reflexivity]].
  all: rewrite Hin; exec.
  all: destruct (Py.truthy (Py.strip line)); exec; rewrite ?Eb; exec.
  all: rewrite ?putenv_key, ?Hnul; exec.
  all: split; [reflexivity|split].
  all: try (eexists; rewrite <- ?app_assoc; reflexivity).
  all: try reflexivity.
  all: unfold user_of; cbn [environ with_environ];
       rewrite lookup_insert_ne by discriminate; reflexivity.
Qed.

(** X17.  setup_raspberry_pi.py reports completion whatever the exit
    statuses of its commands.  As root, with docker on PATH, commands that
    print text and leave the host as it is, the home directory of the user
    in place, a profile that is text and a line of text at the prompt that
    holds no NUL, [main] returns, whatever the exit statuses of the
    commands, and the last thing it prints is the summary that announces
    the setup as complete. *)
Theorem setup_pi_completes_whatever_fails h line rest :
  decodable sh →
  euid h = 0 →
  "docker" ∈ path_cmds h →
  stdin h = line :: rest →
  Py.is_text line = true →
  Py.contains (String Py.nul EmptyString) (Py.strip line) = false →
  fs h !! home_of h = Some Dir →
  fs h !! bashrc_of h ≠ Some Dir →
  Py.is_text (profile_text h) = true →
  let r := SetupPi.main sh (start h) in
  fst r = Ret tt
  ∧ ∃ l, log (snd r) = l ++ [EvPrint (SetupPi.summary_text (user_of h))].
Proof.
  intros _ Hroot Hdocker Hin _ Hnul _ Hrc _. cbv zeta.
  cut (∃ hf l, SetupPi.main sh (start h)
               = (Ret tt, mkState hf (l ++ [EvPrint (SetupPi.summary_text (user_of h))]))).
  { intros (hf & l & ->). split; [reflexivity|]. exists l. reflexivity. }
  unfold SetupPi.main, start.
  rewrite bind_eq. unfold SetupPi.banner at 1, print at 1, emit at 1. cbn [host log].
  rewrite bind_eq, pi_check_root_passes by exact Hroot.
  set (st0 := {| host := h; log := [] ++ [EvPrint SetupPi.banner_text] |}).
  destruct (steady_update_system st0) as [Hr1 Hh1].
  rewrite (bind_steady _ _ st0 Hr1).
  set (st1 := snd (SetupPi.update_system sh st0)) in *.
  destruct (steady_install_docker st1) as [Hr2 Hh2]; [rewrite Hh1; exact Hdocker|].
  rewrite (bind_steady _ _ st1 Hr2).
  set (st2 := snd (SetupPi.install_docker sh st1)) in *.
  destruct (steady_install_docker_compose st2) as [Hr3 Hh3].
  rewrite (bind_steady _ _ st2 Hr3).
  set (st3 := snd (SetupPi.install_docker_compose sh st2)) in *.
  destruct (steady_install_node st3) as [Hr4 Hh4].
  rewrite (bind_steady _ _ st3 Hr4).
  set (st4 := snd (SetupPi.install_node sh st3)) in *.
  destruct (steady_install_claude_code st4) as [Hr5 Hh5].
  rewrite (bind_steady _ _ st4 Hr5).
  set (st5 := snd (SetupPi.install_claude_code sh st4)) in *.
  destruct (steady_install_python_sdk st5) as [Hr6 Hh6].
  rewrite (bind_steady _ _ st5 Hr6).
  set (st6 := snd (SetupPi.install_python_sdk sh st5)) in *.
  assert (host st6 = h) as Hh by (rewrite Hh6, Hh5, Hh4, Hh3, Hh2, Hh1; reflexivity).
  destruct (configure_api_key_returns st6 line rest) as (Hr7 & Hu & l7 & Hl7);
    [rewrite Hh; exact Hin|exact Hnul|rewrite Hh; exact Hrc|].
  cbv zeta in *. rewrite (bind_steady _ _ st6 Hr7).
  unfold SetupPi.print_summary. exec. unfold user_of in *.
  rewrite Hu, Hh. eexists. eexists. reflexivity.
Qed.

End Lenient.

(** ** A whole run of run.py *)

Lemma installs_only_refl h : installs_only h h.
Proof. repeat split. Qed.

Lemma installs_only_trans h1 h2 h3 :
  installs_only h1 h2 → installs_only h2 h3 → installs_only h1 h3.
Proof.
  intros (?&?&?&?&?&?&?&?) (?&?&?&?&?&?&?&?).
  repeat split; etrans; eassumption.
Qed.

(** What depends on the host only through what [installs_only] keeps. *)
Lemma installs_only_paths h h' :
  installs_only h h' →
  user_of h' = user_of h ∧ home_of h' = home_of h ∧ workspace_of h' = workspace_of h
  ∧ bashrc_of h' = bashrc_of h ∧ profile_text h' = profile_text h
  ∧ env_file_of h' = env_file_of h ∧ scaffolded_fs h' = scaffolded_fs h
  ∧ (scaffold_clear h → scaffold_clear h').
Proof.
  intros (_ & _ & He & Hx & _ & Hf & _ & _).
  assert (user_of h' = user_of h) as Hu by (unfold user_of; rewrite He; reflexivity).
  assert (home_of h' = home_of h) as Hh by (unfold home_of; rewrite Hx, Hu; reflexivity).
  assert (workspace_of h' = workspace_of h) as Hw by (unfold workspace_of; rewrite Hh; reflexivity).
  assert (bashrc_of h' = bashrc_of h) as Hb by (unfold bashrc_of; rewrite Hh; reflexivity).
  assert (env_file_of h' = env_file_of h) as Hv by (unfold env_file_of; rewrite Hw; reflexivity).
  assert (workdir_of h' = workdir_of h) as Hd by (unfold workdir_of; rewrite Hw; reflexivity).
  assert (compose_file_of h' = compose_file_of h) as Hc
    by (unfold compose_file_of; rewrite Hw; reflexivity).
  assert (launcher_file_of h' = launcher_file_of h) as Hl
    by (unfold launcher_file_of; rewrite Hw; reflexivity).
  assert (env_is_fresh h' = env_is_fresh h) as Hfresh
    by (unfold env_is_fresh; rewrite Hv, Hf; reflexivity).
  do 4 (split; [assumption|]).
  split; [unfold profile_text; rewrite Hb, Hf; reflexivity|].
  split; [assumption|].
  split; [unfold scaffolded_fs; rewrite Hfresh, Hf, Hv, Hd, Hc, Hl; reflexivity|].
  unfold scaffold_clear, way_clear, clear_above, reaches_env.
  rewrite Hf, Hv, Hd, Hc, Hl. tauto.
Qed.

Lemma bind_keeps {B} (m : M unit) (k : unit → M B) st :
  fst (m st) = Ret tt → bind m k st = k tt (snd (m st)).
Proof. unfold bind. destruct (m st) as [o st']. cbn. intros ->. reflexivity. Qed.

Section Obliging.

Variable sh : Shell.
Hypothesis commands_succeed :
  ∀ cmd h, sh_rc (sh cmd h) = 0 ∧ installs_only h (sh_host (sh cmd h)).

Ltac obliged :=
  repeat first
    [ rewrite Run_run_checked; cbn zeta; cbn [host log fst snd];
      rewrite (proj1 (commands_succeed _ _)); change (0 =? 0) with true; exec
    | rewrite Run_run_unchecked; cbn [host log fst snd]; exec
    | rewrite Run_node_major_eq; cbn zeta; cbn [host log fst snd]; exec ].

Ltac kept :=
  split; [reflexivity|];
  cbn [host snd];
  repeat (eapply installs_only_trans; [|apply commands_succeed]);
  apply installs_only_refl.

Lemma keeps_install_updates : keeps (Run.install_updates sh).
Proof. intros [h l]. unfold Run.install_updates. exec. obliged. kept. Qed.

Lemma keeps_install_docker : keeps (Run.install_docker sh).
Proof.
  intros [h l]. unfold Run.install_docker. exec.
  destruct (bool_decide _); exec; obliged; kept.
Qed.

Lemma keeps_install_compose : keeps (Run.install_compose sh).
Proof. intros [h l]. unfold Run.install_compose. exec. obliged. kept. Qed.

Lemma keeps_install_node : keeps (Run.install_node sh).
Proof.
  intros [h l]. unfold Run.install_node. exec.
  destruct (bool_decide _); exec; obliged.
  - destruct (18 <=? _); exec; obliged; [kept|].
    destruct (bool_decide _); exec; obliged; kept.
  - destruct (bool_decide _); exec; obliged; kept.
Qed.

Lemma keeps_install_claude_cli : keeps (Run.install_claude_cli sh).
Proof. intros [h l]. unfold Run.install_claude_cli. exec. obliged. kept. Qed.

Lemma keeps_install_python_sdk : keeps (Run.install_python_sdk sh).
Proof. intros [h l]. unfold Run.install_python_sdk. exec. obliged. kept. Qed.

Lemma Run_preflight_returns st mem ram :
  euid (host st) = 0 →
  fs (host st) !! "/proc/device-tree/model" ≠ Some Dir →
  fs (host st) !! "/proc/meminfo" = Some (File mem) →
  memtotal_mb (Py.lines mem) = Some ram →
  4 * GiB ≤ free_bytes (host st) →
  fst (Run.preflight sh st) = Ret tt
  ∧ installs_only (host st) (host (snd (Run.preflight sh st))).
Proof.
  destruct st as [h l]. cbn [host].
  intros Hroot Hmodel Hmem Hram Hdisk. apply Z.eqb_eq in Hroot.
  assert ((Run.free_gb h <? 4) = false) as Hfree.
  { apply Z.ltb_ge. apply Z.nlt_ge. intros Hlow. apply free_gb_low_iff in Hlow. lia. }
  unfold Run.preflight. exec. rewrite Hroot. exec.
  destruct (String.eqb (machine h) "aarch64"); [|destruct (String.eqb (machine h) "armv7l")];
    exec.
  all: destruct (fs h !! "/proc/device-tree/model") as [[c|]|]; [|contradiction|]; exec.
  all: rewrite Hmem; exec; rewrite (meminfo_loop_memtotal _ _ _ Hram); exec.
  all: destruct (ram <? 2048); exec; rewrite Hfree; exec; obliged; kept.
Qed.

End Obliging.

(** The shell profile is none of the four workspace paths. *)
Lemma bashrc_not_workspace h :
  bashrc_of h ≠ workdir_of h ∧ bashrc_of h ≠ compose_file_of h
  ∧ bashrc_of h ≠ launcher_file_of h ∧ bashrc_of h ≠ env_file_of h.
Proof.
  repeat split; intros H; apply (f_equal last_char) in H;
    unfold bashrc_of, workdir_of, compose_file_of, launcher_file_of, env_file_of,
      Run.env_path in H;
    rewrite !last_char_path_join in H by discriminate; discriminate H.
Qed.

Lemma scaffolded_keeps_profile h :
  bashrc_of (scaffolded h) = bashrc_of h
  ∧ fs (scaffolded h) !! bashrc_of h = fs h !! bashrc_of h
  ∧ profile_text (scaffolded h) = profile_text h.
Proof.
  destruct (bashrc_not_workspace h) as (H1 & H2 & H3 & H4).
  assert (fs (scaffolded h) !! bashrc_of h = fs h !! bashrc_of h) as Hlook.
  { change (fs (scaffolded h)) with (scaffolded_fs h). rewrite scaffolded_fs_lookup.
    repeat case_decide; congruence. }
  split; [reflexivity|]. split; [exact Hlook|].
  unfold profile_text. change (bashrc_of (scaffolded h)) with (bashrc_of h).
  rewrite Hlook. reflexivity.
Qed.

Lemma scaffolded_env_no_dir h :
  fs h !! env_file_of h ≠ Some Dir → scaffolded_fs h !! env_file_of h ≠ Some Dir.
Proof.
  intros Henv. rewrite scaffolded_fs_lookup.
  destruct (workspace_paths_differ h) as (H1 & H2 & H3 & H4 & H5 & H6).
  repeat case_decide; try congruence.
  destruct (env_is_fresh h); [discriminate|exact Henv].
Qed.

Section WholeRun.

Variable sh : Shell.
Hypothesis commands_succeed :
  ∀ cmd h, sh_rc (sh cmd h) = 0 ∧ installs_only h (sh_host (sh cmd h)).

Lemma Run_scaffold_returns st :
  scaffold_clear (host st) →
  ∃ st', Run.scaffold sh st = (Ret (workspace_of (host st)), st')
         ∧ installs_only (scaffolded (host st)) (host st').
Proof.
  destruct st as [h l]. cbn [host]. intros Hclear.
  destruct (scaffold_runs sh h l Hclear) as (Hout & Hhost & _). cbv zeta in *.
  rewrite (proj1 (commands_succeed _ _)) in Hout. change (0 =? 0) with true in Hout.
  cbv iota in Hout.
  destruct (Run.scaffold sh {| host := h; log := l |}) as [o st']. cbn [fst snd] in *.
  subst o. exists st'. split; [reflexivity|].
  rewrite Hhost. apply commands_succeed.
Qed.

Lemma Run_ask_key_after_scaffold h st line rest :
  installs_only (scaffolded h) (host st) →
  scaffold_clear h →
  stdin h = line :: rest →
  Py.strip line ≠ EmptyString →
  fs h !! bashrc_of h ≠ Some Dir →
  Py.contains Run.key_name (profile_text h) = false →
  let r := Run.ask_key (workspace_of h) st in
  fst r = Ret tt
  ∧ fs (host (snd r))
    = <[ bashrc_of h := File (profile_text h +:+ Run.export_lines (Py.strip line)) ]>
        (<[ env_file_of h := File (Run.env_line (Py.strip line)) ]> (scaffolded_fs h))
  ∧ stdin (host (snd r)) = rest.
Proof.
  destruct st as [h' l]. cbn [host]. intros Hsame (_ & _ & Henv & _) Hin Hkey Hrc Hnew.
  destruct (scaffolded_keeps_profile h) as (_ & Hlook & Hprof).
  destruct (installs_only_paths _ _ Hsame) as (_ & _ & _ & Hb & Hp & _ & _ & _).
  destruct Hsame as (_ & _ & _ & _ & Hs & Hf & _ & _).
  change (bashrc_of (scaffolded h)) with (bashrc_of h) in Hb.
  rewrite Hprof in Hp. change (stdin (scaffolded h)) with (stdin h) in Hs.
  change (fs (scaffolded h)) with (scaffolded_fs h) in Hf, Hlook.
  cbv zeta.
  destruct (Run_ask_key_with_key h' l (workspace_of h) line rest) as (Hout & Hhost & _).
  - rewrite Hs. exact Hin.
  - exact Hkey.
  - rewrite Hf. apply scaffolded_env_no_dir. exact Henv.
  - rewrite Hb, Hf, Hlook. exact Hrc.
  - rewrite Hp. exact Hnew.
  - cbv zeta in *. rewrite Hhost. cbn [fs stdin with_fs with_stdin].
    rewrite Hb, Hp, Hf. split; [exact Hout|split; reflexivity].
Qed.

End WholeRun.

(** X18.  A whole run of run.py.  As root, on a host that passes the
    pre-flight checks and where nothing is in the way of the workspace,
    with commands that succeed, print text and at most install something,
    and a key typed at the prompt: sudo python3 run.py setup returns; the
    working directory, the compose file and the launcher are in place, the
    environment file holds the key, the profile ends with the export
    lines, and the last thing printed is the summary.  Of the other paths,
    those that do not lie above the working directory are as they were;
    the directories above it are made when they are missing, and nothing
    is said of them. *)
Theorem full_run_builds_the_workspace sh h mem ram line rest :
  obliging sh →
  euid h = 0 →
  fs h !! "/proc/device-tree/model" ≠ Some Dir →
  clear_above h "/proc/device-tree/model" →
  fs h !! "/proc/meminfo" = Some (File mem) →
  memtotal_mb (Py.lines mem) = Some ram →
  4 * GiB ≤ free_bytes h →
  scaffold_clear h →
  stdin h = line :: rest →
  Py.strip line ≠ EmptyString →
  fs h !! bashrc_of h ≠ Some Dir →
  Py.contains Run.key_name (profile_text h) = false →
  let r := Run.main sh ["run.py"; "setup"] (start h) in
  let tree := fs (host (snd r)) in
  fst r = Ret tt
  ∧ tree !! workdir_of h = Some Dir
  ∧ tree !! compose_file_of h = Some (File Run.compose_yml)
  ∧ tree !! launcher_file_of h = Some (File Run.launcher_sh)
  ∧ tree !! env_file_of h = Some (File (Run.env_line (Py.strip line)))
  ∧ tree !! bashrc_of h
    = Some (File (profile_text h +:+ Run.export_lines (Py.strip line)))
  ∧ (∀ q, q ∉ [workdir_of h; compose_file_of h; launcher_file_of h; env_file_of h;
               bashrc_of h] →
          lies_above q (workdir_of h) = false →
          tree !! q = fs h !! q)
  ∧ ∃ l, log (snd r) = l ++ [EvPrint (Run.summary_text (workspace_of h))].
Proof.
  intros Hob Hroot Hmodel _ Hmem Hram Hdisk Hclear Hin Hkey Hrc Hnew. cbv zeta.
  change (Run.main sh ["run.py"; "setup"]) with (Run.setup sh).
  cut (∃ hf l,
         Run.setup sh (start h)
         = (Ret tt, mkState hf (l ++ [EvPrint (Run.summary_text (workspace_of h))]))
         ∧ fs hf
           = <[ bashrc_of h := File (profile_text h +:+ Run.export_lines (Py.strip line)) ]>
               (<[ env_file_of h := File (Run.env_line (Py.strip line)) ]>
                  (scaffolded_fs h))).
  { intros (hf & l & -> & Htree). cbn [fst snd host log]. rewrite Htree.
    destruct (workspace_paths_differ h) as (H1 & H2 & H3 & H4 & H5 & H6).
    destruct (bashrc_not_workspace h) as (B1 & B2 & B3 & B4).
    split; [reflexivity|].
    split.
    { rewrite !lookup_insert_ne by congruence. rewrite scaffolded_fs_lookup.
      repeat case_decide; congruence. }
    split.
    { rewrite !lookup_insert_ne by congruence. rewrite scaffolded_fs_lookup.
      repeat case_decide; congruence. }
    split.
    { rewrite !lookup_insert_ne by congruence. rewrite scaffolded_fs_lookup.
      repeat case_decide; congruence. }
    split.
    { rewrite lookup_insert_ne by congruence. apply lookup_insert_eq. }
    split; [apply lookup_insert_eq|].
    split; [|exists l; reflexivity].
    intros q Hq _.
    assert (q ≠ workdir_of h ∧ q ≠ compose_file_of h ∧ q ≠ launcher_file_of h
            ∧ q ≠ env_file_of h ∧ q ≠ bashrc_of h) as (Q1 & Q2 & Q3 & Q4 & Q5).
    { repeat split; intros ->; apply Hq;
        repeat first [apply list_elem_of_here | apply list_elem_of_further]. }
    rewrite !lookup_insert_ne by congruence. rewrite scaffolded_fs_lookup.
    repeat case_decide; congruence. }
  unfold Run.setup, start.
  rewrite bind_eq. unfold print at 1, emit at 1. cbn [host log].
  set (st0 := {| host := h; log := [] ++ [EvPrint Run.banner_text] |}).
  destruct (Run_preflight_returns sh (proj2 Hob) st0 mem ram Hroot Hmodel Hmem Hram Hdisk)
    as [Hr1 Hh1].
  rewrite (bind_keeps _ _ st0 Hr1).
  set (st1 := snd (Run.preflight sh st0)) in *.
  destruct (keeps_install_updates sh (proj2 Hob) st1) as [Hr2 Hh2].
  rewrite (bind_keeps _ _ st1 Hr2).
  set (st2 := snd (Run.install_updates sh st1)) in *.
  destruct (keeps_install_docker sh (proj2 Hob) st2) as [Hr3 Hh3].
  rewrite (bind_keeps _ _ st2 Hr3).
  set (st3 := snd (Run.install_docker sh st2)) in *.
  destruct (keeps_install_compose sh (proj2 Hob) st3) as [Hr4 Hh4].
  rewrite (bind_keeps _ _ st3 Hr4).
  set (st4 := snd (Run.install_compose sh st3)) in *.
  destruct (keeps_install_node sh (proj2 Hob) st4) as [Hr5 Hh5].
  rewrite (bind_keeps _ _ st4 Hr5).
  set (st5 := snd (Run.install_node sh st4)) in *.
  destruct (keeps_install_claude_cli sh (proj2 Hob) st5) as [Hr6 Hh6].
  rewrite (bind_keeps _ _ st5 Hr6).
  set (st6 := snd (Run.install_claude_cli sh st5)) in *.
  destruct (keeps_install_python_sdk sh (proj2 Hob) st6) as [Hr7 Hh7].
  rewrite (bind_keeps _ _ st6 Hr7).
  set (st7 := snd (Run.install_python_sdk sh st6)) in *.
  assert (installs_only h (host st7)) as Hsame.
  { repeat (eapply installs_only_trans; [|eassumption]). apply installs_only_refl. }
  clearbody st7. clear Hr1 Hh1 Hr2 Hh2 Hr3 Hh3 Hr4 Hh4 Hr5 Hh5 Hr6 Hh6 Hr7 Hh7.
  clear st0 st1 st2 st3 st4 st5 st6.
  destruct (installs_only_paths _ _ Hsame) as (_ & _ & Hw & _ & _ & _ & Hfs & Hclear7).
  destruct (Run_scaffold_returns sh (proj2 Hob) st7 (Hclear7 Hclear)) as (st8 & Hscaffold & Hh8).
  rewrite bind_eq, Hscaffold, Hw.
  assert (installs_only (scaffolded h) (host st8)) as Hsame8.
  { destruct Hh8 as (E1 & E2 & E3 & E4 & E5 & E6 & E7 & E8).
    destruct Hsame as (F1 & F2 & F3 & F4 & F5 & F6 & F7 & F8).
    unfold installs_only. rewrite E1, E2, E3, E4, E5, E6, E7, E8.
    change (fs (scaffolded (host st7))) with (scaffolded_fs (host st7)).
    change (fs (scaffolded h)) with (scaffolded_fs h).
    rewrite Hfs. cbn. rewrite F1, F2, F3, F4, F5, F7, F8. repeat split. }
  destruct (Run_ask_key_after_scaffold h st8 line rest Hsame8 Hclear Hin Hkey Hrc Hnew)
    as (Hr9 & Hfs9 & _).
  cbv zeta in *. rewrite (bind_keeps _ _ st8 Hr9).
  unfold Run.summary. exec.
  eexists. eexists. split; [reflexivity|]. exact Hfs9.
Qed.

(** ** What the scripts themselves may do *)

Section Emits.

Variable P : Event → Prop.

Lemma emits_ret {A} (Q : A → Prop) (a : A) : Q a → emits P Q (ret a).
Proof.
  intros Ha st. split.
  - exists []. cbn. split; [by rewrite app_nil_r|constructor].
  - intros b [= <-]. exact Ha.
Qed.

Lemma emits_bind {A B} (Q : A → Prop) (R : B → Prop) (m : M A) (k : A → M B) :
  emits P Q m → (∀ a, Q a → emits P R (k a)) → emits P R (bind m k).
Proof.
  intros Hm Hk st. unfold bind. destruct (Hm st) as [(l1 & H1 & F1) Hq].
  destruct (m st) as [[a|code|e] st1]; cbn [fst snd] in *.
  - destruct (Hk a (Hq a eq_refl) st1) as [(l2 & H2 & F2) Hr]. split; [|exact Hr].
    exists (l1 ++ l2). rewrite H2, H1. split; [by rewrite app_assoc|].
    apply Forall_app. by split.
  - split; [exists l1; by split|discriminate].
  - split; [exists l1; by split|discriminate].
Qed.

Lemma emits_emit e : P e → emits P (fun _ => True) (emit e).
Proof.
  intros He st. split; [|done]. exists [e]. split; [reflexivity|].
  constructor; [exact He|constructor].
Qed.

Lemma emits_sys_exit {A} (Q : A → Prop) code : emits P Q (sys_exit code).
Proof.
  intros st. split; [|discriminate]. exists []. cbn. split; [by rewrite app_nil_r|constructor].
Qed.

Lemma emits_raise {A} (Q : A → Prop) e : emits P Q (raise e).
Proof.
  intros st. split; [|discriminate]. exists []. cbn. split; [by rewrite app_nil_r|constructor].
Qed.

Lemma emits_get_host : emits P (fun _ => True) get_host.
Proof.
  intros st. split; [|done]. exists []. cbn. split; [by rewrite app_nil_r|constructor].
Qed.

Lemma emits_set_host h : emits P (fun _ => True) (set_host h).
Proof.
  intros st. split; [|done]. exists []. cbn. split; [by rewrite app_nil_r|constructor].
Qed.

Lemma emits_catch {A} (Q : A → Prop) (m : M A) handler :
  emits P Q m → (∀ e h, handler e = Some h → emits P Q h) → emits P Q (catch m handler).
Proof.
  intros Hm Hh st. unfold catch. destruct (Hm st) as [(l1 & H1 & F1) Hq].
  destruct (m st) as [[a|code|e] st1]; cbn [fst snd] in *.
  - split; [exists l1; by split|exact Hq].
  - split; [exists l1; by split|discriminate].
  - destruct (handler e) as [h|] eqn:E.
    + destruct (Hh e h E st1) as [(l2 & H2 & F2) Hr]. split; [|exact Hr].
      exists (l1 ++ l2). rewrite H2, H1. split; [by rewrite app_assoc|].
      apply Forall_app. by split.
    + split; [exists l1; by split|discriminate].
Qed.

Lemma emits_subprocess_run sh cmd check merged :
  P (EvShell cmd) → emits P (fun _ => True) (subprocess_run sh cmd check merged).
Proof.
  intros Hc st. split; [|done]. exists [EvShell cmd]. unfold subprocess_run.
  split; [destruct (check && negb _); reflexivity|].
  constructor; [exact Hc|constructor].
Qed.

Lemma emits_weaken {A} (Q Q' : A → Prop) (m : M A) :
  emits P Q m → (∀ a, Q a → Q' a) → emits P Q' m.
Proof.
  intros Hm Hq st. destruct (Hm st) as [Hl Ha]. split; [exact Hl|].
  intros a E. apply Hq, Ha, E.
Qed.

End Emits.

(** An event is one the script may add. *)
Ltac event_ok :=
  cbn [run_event pi_event]; unfold Run.env_path;
  first
    [ exact I
    | reflexivity
    | eexists; reflexivity
    | eexists; split;
      [|first [ reflexivity
              | left; reflexivity
              | right; left; reflexivity
              | right; right; reflexivity
              | split; reflexivity ]];
      first [ eassumption | eexists; reflexivity ] ].

(** Walks through a script function: binds, branches, handlers and the
    primitives. *)
Ltac emits_step :=
  match goal with
  | |- emits _ _ (bind _ _) => apply (emits_bind _ (fun _ => True)); [|intros ? _]
  | |- emits _ _ (ret _) => apply emits_ret; first [exact I | eexists; reflexivity]
  | |- emits _ _ (emit _) => apply emits_emit; event_ok
  | |- emits _ _ (sys_exit _) => apply emits_sys_exit
  | |- emits _ _ (raise _) => apply emits_raise
  | |- emits _ _ get_host => apply emits_get_host
  | |- emits _ _ (set_host _) => apply emits_set_host
  | |- emits _ _ (subprocess_run _ _ _ _) => apply emits_subprocess_run; exact I
  | |- emits _ _ (catch _ _) =>
      apply emits_catch;
      [|let e := fresh "e" in let h := fresh "h" in let E := fresh "E" in
        intros e h E; destruct e; inversion E; subst; clear E]
  | |- emits _ _ (if ?b then _ else _) => destruct b
  | |- emits _ _ (match ?x with _ => _ end) => destruct x
  | |- emits _ _ (let _ := _ in _) => cbv zeta
  | H : emits ?P ?Q ?m |- emits ?P ?Q ?m => exact H
  | |- emits _ _ _ =>
      progress unfold when, print, which, environ_get, environ_set, path_exists,
        read_file, write_file, append_file, makedirs, chmod, input,
        Run.ok, Run.warn, Run.err, Run.info, Run.has, Run.real_user, Run.real_home,
        Run.run, Run.node_major, Run.summary, Run.usage,
        SetupPi.log_step, SetupPi.log_warn, SetupPi.log_error, SetupPi.log_info,
        SetupPi.is_installed, SetupPi.get_real_user, SetupPi.banner,
        SetupPi.check_root, SetupPi.run, SetupPi.print_summary
  end.

Ltac emits := repeat emits_step.

Lemma emits_meminfo_loop P ls : emits P (fun _ => True) (Run.meminfo_loop ls).
Proof. induction ls as [|line rest IH]; cbn [Run.meminfo_loop]; emits. Qed.

Lemma emits_run_scaffold sh : emits run_event is_workspace (Run.scaffold sh).
Proof. unfold Run.scaffold. emits. Qed.

Lemma emits_run_ask_key base :
  is_workspace base → emits run_event (fun _ => True) (Run.ask_key base).
Proof. intros Hbase. unfold Run.ask_key. emits. Qed.

Lemma emits_run_setup sh : emits run_event (fun _ => True) (Run.setup sh).
Proof.
  unfold Run.setup.
  apply (emits_bind _ (fun _ => True)); [emits|intros _ _].
  apply (emits_bind _ (fun _ => True));
    [unfold Run.preflight; emits; apply emits_meminfo_loop|intros _ _].
  apply (emits_bind _ (fun _ => True)); [unfold Run.install_updates; emits|intros _ _].
  apply (emits_bind _ (fun _ => True)); [unfold Run.install_docker; emits|intros _ _].
  apply (emits_bind _ (fun _ => True)); [unfold Run.install_compose; emits|intros _ _].
  apply (emits_bind _ (fun _ => True)); [unfold Run.install_node; emits|intros _ _].
  apply (emits_bind _ (fun _ => True)); [unfold Run.install_claude_cli; emits|intros _ _].
  apply (emits_bind _ (fun _ => True)); [unfold Run.install_python_sdk; emits|intros _ _].
  apply (emits_bind _ is_workspace); [apply emits_run_scaffold|intros base Hbase].
  apply (emits_bind _ (fun _ => True)); [apply emits_run_ask_key; exact Hbase|intros _ _].
  emits.
Qed.

Lemma emits_pi_main sh : emits pi_event (fun _ => True) (SetupPi.main sh).
Proof.
  unfold SetupPi.main, SetupPi.update_system, SetupPi.install_docker,
    SetupPi.install_docker_compose, SetupPi.install_node, SetupPi.install_claude_code,
    SetupPi.install_python_sdk, SetupPi.configure_api_key.
  emits.
Qed.

(** X19.  What run.py itself does to the machine, on every host, for every
    shell and whatever the arguments: besides running commands it only
    makes the working directory of a workspace folder, writes the three
    files of that folder, makes the launcher executable and appends to a
    .bashrc; it never sets an environment variable. *)
Theorem run_py_writes_only_its_files sh argv h :
  Forall run_event (log (snd (Run.main sh argv (start h)))).
Proof.
  assert (emits run_event (fun _ => True) (Run.main sh argv)) as Hmain.
  { unfold Run.main. destruct (String.eqb _ _); [apply emits_run_setup|emits]. }
  destruct (Hmain (start h)) as [(l & Hlog & Hall) _].
  rewrite Hlog. exact Hall.
Qed.

(** X20.  What setup_raspberry_pi.py itself does to the machine, on every
    host and for every shell: besides printing, prompting and running
    commands it only appends to a .bashrc, which makes the file when it is
    missing, and sets ANTHROPIC_API_KEY in its own environment; it never
    opens a file for writing, makes a directory or changes a mode. *)
Theorem setup_pi_never_overwrites sh argv h :
  Forall pi_event (log (snd (SetupPi.entry sh argv (start h)))).
Proof.
  destruct (emits_pi_main sh (start h)) as [(l & Hlog & Hall) _].
  unfold SetupPi.entry. rewrite Hlog. exact Hall.
Qed.

(** ** The properties on the example hosts *)

(** X2 on the example host with a shell on which every command fails: the
    probe fails and the checks pass. *)
Lemma preflight_passes_whatever_ping_witness :
  sh_rc (sh_fail Run.cmd_ping pi_host) ≠ 0
  ∧ fst (Run.preflight sh_fail (start pi_host)) = Ret tt
  ∧ run_ok_line "Internet: connected" ∈ printed (log (snd (Run.preflight sh_fail (start pi_host)))).
Proof.
  split; [vm_compute; discriminate|].
  pose proof (preflight_passes_whatever_ping sh_fail pi_host meminfo_4g 3793) as H.
  cbv zeta in H.
  refine (let H' := H _ _ _ _ _ _ _ in conj (proj1 H') (proj1 (proj2 (proj2 (proj2 H'))))).
  - reflexivity.
  - vm_compute; discriminate.
  - exact (pi_host_clear_above "/proc/device-tree/model" eq_refl).
  - vm_compute; reflexivity.
  - vm_compute; reflexivity.
  - vm_compute; discriminate.
  - vm_compute; reflexivity.
Defined.

(** X6 on the example host with a shell on which only the pip bootstrap
    succeeds: the SDK install fails and the step reports success. *)
Lemma sdk_step_reports_success_witness :
  sh_rc (sh_only Run.cmd_pip Run.cmd_pip pi_host) = 0
  ∧ sh_rc (sh_only Run.cmd_pip (Run.cmd_sdk "alice") pi_host) ≠ 0
  ∧ fst (Run.install_python_sdk (sh_only Run.cmd_pip) (start pi_host)) = Ret tt.
Proof.
  split; [vm_compute; reflexivity|]. split; [vm_compute; discriminate|].
  exact (proj1 (sdk_step_reports_success (sh_only Run.cmd_pip) pi_host
                  ltac:(vm_compute; reflexivity))).
Defined.

Lemma pi_host_clear : scaffold_clear pi_host.
Proof.
  split; [exact pi_host_way_clear|].
  split; [vm_compute; reflexivity|]. split; vm_compute; discriminate.
Qed.

(** X11 on the example host, where the environment file is missing. *)
Lemma scaffold_effects_witness :
  scaffold_clear pi_host
  ∧ fst (Run.scaffold sh_ok (start pi_host)) = Ret "/home/alice/claude-workspace".
Proof.
  split; [exact pi_host_clear|].
  exact (proj1 (scaffold_effects sh_ok pi_host pi_host_clear eq_refl)).
Defined.

(** X9 on the example host, where the chown changes nothing. *)
Lemma scaffold_file_tree_witness :
  scaffold_clear pi_host
  ∧ fs (host (snd (Run.scaffold sh_ok (start pi_host))))
      !! "/home/alice/claude-workspace/.env" = Some (File Run.default_env).
Proof.
  split; [exact pi_host_clear|].
  exact (proj1 (proj2 (proj2 (proj2
           (scaffold_file_tree sh_ok pi_host pi_host_clear (fun h' => eq_refl)))))).
Defined.

(** X10 on the example host. *)
Lemma scaffold_twice_is_scaffold_once_witness :
  scaffold_clear pi_host
  ∧ host (snd (Run.scaffold sh_ok
                 (start (host (snd (Run.scaffold sh_ok (start pi_host)))))))
    = host (snd (Run.scaffold sh_ok (start pi_host))).
Proof.
  split; [exact pi_host_clear|].
  exact (proj2 (proj2
           (scaffold_twice_is_scaffold_once sh_ok pi_host pi_host_clear
              (fun h' => conj eq_refl (conj eq_refl eq_refl))))).
Defined.

(** X12 on a provisioned host with a key typed at the prompt. *)
Lemma ask_key_stores_the_key_witness :
  let h := keyed (provisioned Run.default_env Py.empty) in
  Py.strip "  sk-ant-0123 " = "sk-ant-0123"
  ∧ fs h !! "/home/alice/claude-workspace" = Some Dir
  ∧ fs h !! "/home/alice" = Some Dir
  ∧ fs (host (snd (Run.ask_key "/home/alice/claude-workspace" (start h))))
      !! "/home/alice/claude-workspace/.env"
    = Some (File (Run.env_line (Py.strip "  sk-ant-0123 "))).
Proof.
  cbv zeta. split; [vm_compute; reflexivity|].
  split; [vm_compute; reflexivity|]. split; [vm_compute; reflexivity|].
  refine (proj1 (proj2 (proj2
            (ask_key_stores_the_key (keyed (provisioned Run.default_env Py.empty))
               "/home/alice/claude-workspace" "  sk-ant-0123 " [] _ _ _ _ _ _ _)))).
  - reflexivity.
  - vm_compute; discriminate.
  - vm_compute; reflexivity.
  - vm_compute; discriminate.
  - vm_compute; reflexivity.
  - vm_compute; discriminate.
  - vm_compute; reflexivity.
Defined.

(** X13 on the example host with a key typed at the prompt. *)
Lemma configure_api_key_stores_the_key_witness :
  stdin (keyed pi_host) = ["  sk-ant-0123 "]
  ∧ fs (keyed pi_host) !! "/home/alice" = Some Dir
  ∧ fst (SetupPi.configure_api_key (start (keyed pi_host))) = Ret tt.
Proof.
  split; [reflexivity|]. split; [vm_compute; reflexivity|].
  pose proof (configure_api_key_stores_the_key (keyed pi_host) "  sk-ant-0123 " []) as H.
  cbv zeta in H.
  replace (Py.contains (String Py.nul EmptyString) (Py.strip "  sk-ant-0123 "))
    with false in H by (vm_compute; reflexivity).
  refine (proj1 (H _ _ _ _ _)).
  - reflexivity.
  - vm_compute; discriminate.
  - vm_compute; reflexivity.
  - vm_compute; discriminate.
  - vm_compute; reflexivity.
Defined.

(** X17 on the example host with docker on PATH and a shell on which every
    command fails. *)
Lemma setup_pi_completes_whatever_fails_witness :
  sh_rc (sh_fail SetupPi.cmd_apt_update (with_path {[ "docker" ]} pi_host)) ≠ 0
  ∧ fs (with_path {[ "docker" ]} pi_host) !! "/home/alice" = Some Dir
  ∧ exit_status (fst (SetupPi.main sh_fail (start (with_path {[ "docker" ]} pi_host)))) = 0.
Proof.
  split; [vm_compute; discriminate|]. split; [vm_compute; reflexivity|].
  refine (f_equal exit_status
            (proj1 (setup_pi_completes_whatever_fails sh_fail (fun cmd h => eq_refl)
                      (with_path {[ "docker" ]} pi_host) Py.empty []
                      sh_fail_decodable _ _ _ _ _ _ _ _))).
  - reflexivity.
  - vm_compute; reflexivity.
  - reflexivity.
  - vm_compute; reflexivity.
  - vm_compute; reflexivity.
  - vm_compute; reflexivity.
  - vm_compute; discriminate.
  - vm_compute; reflexivity.
Defined.

Lemma sh_installer_obliging : obliging sh_installer.
Proof.
  split; [exact sh_installer_decodable|].
  intros cmd h. split; [reflexivity|]. repeat split.
Qed.

(** X18 on the example host with a key typed at the prompt and a shell
    that installs docker. *)
Lemma full_run_builds_the_workspace_witness :
  obliging sh_installer
  ∧ scaffold_clear (keyed pi_host)
  ∧ exit_status (fst (Run.main sh_installer ["run.py"; "setup"] (start (keyed pi_host)))) = 0.
Proof.
  split; [exact sh_installer_obliging|]. split; [exact pi_host_clear|].
  refine (f_equal exit_status
            (proj1 (full_run_builds_the_workspace sh_installer (keyed pi_host) meminfo_4g 3793
                      "  sk-ant-0123 " [] sh_installer_obliging _ _ _ _ _ _ _ _ _ _ _))).
  - reflexivity.
  - vm_compute; discriminate.
  - exact (pi_host_clear_above "/proc/device-tree/model" eq_refl).
  - vm_compute; reflexivity.
  - vm_compute; reflexivity.
  - vm_compute; discriminate.
  - exact pi_host_clear.
  - reflexivity.
  - vm_compute; discriminate.
  - vm_compute; discriminate.
  - vm_compute; reflexivity.
Defined.
